(** * Procedural planet generator: palette, temporal evolution and weather

    A shallow embedding of three TypeScript classes of the planet
    generator,

      - [ColorPalettes]      (src/react-app/utils/ColorPalettes.ts),
      - [TemporalEvolution]  (src/react-app/utils/TemporalEvolution.ts),
      - [WeatherSystem]      (src/react-app/utils/WeatherSystem.ts),

    followed by the properties of the specification that concern them.

    Number model.  A JavaScript [number] is modelled by an exact rational
    [Q]: every finite double is a rational, and the arithmetic of the
    source is carried out without rounding.  [NaN] appears in the model
    only where the source can produce it from finite arguments
    ([Math.asin] outside [-1,1]); it is [None] there.  The library
    functions that have no rational counterpart ([Math.sin], [Math.cos],
    [Math.asin], [Math.atan2], [Math.sqrt]) and the noise generator, whose
    source is not part of the three files, are fields of two interfaces,
    [JSMath] and [NoiseLib]; [Math.random] is a tape of draws.

    Division.  The quotients of the sources are by literals or by
    quantities that are positive on the path that divides (a sea level
    inside its band, a storm's lifespan and radius, a vector length
    replaced by 1 when it is 0), so the total division of [Q] and the
    division of doubles are not told apart. *)

From Stdlib Require Import ZArith QArith Qround Qminmax List String Bool Lia Lqa.
From Stdlib Require Import DecimalString.
Import ListNotations.

Local Open Scope Q_scope.

(* ================================================================= *)
(** * Part I: the program *)
(* ================================================================= *)

(** ** JavaScript numbers, arrays and the [Math] object *)

Module JS.

(** [a < b] on numbers. *)
Definition ltb (a b : Q) : bool := negb (Qle_bool b a).

(** [a <= b], [a > b], [a >= b]. *)
Definition leb (a b : Q) : bool := Qle_bool a b.
Definition gtb (a b : Q) : bool := ltb b a.
Definition geb (a b : Q) : bool := leb b a.

(** [Math.max(a, b)] and [Math.min(a, b)]. *)
Definition Math_max (a b : Q) : Q := if ltb a b then b else a.
Definition Math_min (a b : Q) : Q := if ltb b a then b else a.

(** [Math.floor(x)], as an integer. *)
Definition Math_floor (x : Q) : Z := Qfloor x.

(** [Math.round(x)]: the nearest integer, ties towards +infinity. *)
Definition Math_round (x : Q) : Z := Qfloor (x + 0.5).

(** [Math.PI], the double 3.141592653589793. *)
Definition Math_PI : Q := 884279719003555 # 281474976710656.

(** [arr[i]] for an integer [i]: [undefined] ([None]) out of range. *)
Definition index {A : Type} (arr : list A) (i : Z) : option A :=
  if (i <? 0)%Z then None else nth_error arr (Z.to_nat i).

(** [arr.length]. *)
Definition length {A : Type} (arr : list A) : Z := Z.of_nat (List.length arr).

(** The string of an integer-valued number, as a template literal
    prints it (below 1e21, where JavaScript switches to exponents). *)
Definition string_of_integer (n : Z) : string :=
  NilZero.string_of_int (Z.to_int n).

(** The string of the number [n / 10] for an integer [n]: the integer
    part alone when the division is exact, one decimal otherwise. *)
Definition string_of_tenths (n : Z) : string :=
  if (Z.rem n 10 =? 0)%Z then string_of_integer (Z.quot n 10)
  else ((if (n <? 0)%Z then "-" else "")
        ++ string_of_integer (Z.quot (Z.abs n) 10) ++ "."
        ++ string_of_integer (Z.rem (Z.abs n) 10))%string.

(** The values of a counting loop
    [for (let i = lo; i < hi; i += step)], for a positive [step]. *)
Definition for_lt (lo hi step : Z) : list Z :=
  map (fun k => (lo + step * Z.of_nat k)%Z)
      (seq 0 (Z.to_nat ((hi - lo + step - 1) / step))).

(** The same for [i <= hi]. *)
Definition for_le (lo hi step : Z) : list Z := for_lt lo (hi + 1) step.

End JS.

(** The part of [Math] that leaves the rationals.  [Math_asin] is [None]
    where JavaScript returns [NaN]. *)
Class JSMath : Type := {
  Math_sin   : Q -> Q;
  Math_cos   : Q -> Q;
  Math_asin  : Q -> option Q;
  Math_atan2 : Q -> Q -> Q;
  Math_sqrt  : Q -> Q
}.

(** Modelled from the spec: the class NoiseGenerator
    (src/react-app/utils/NoiseGenerator.ts) is not among the sources.  The
    specification describes it as a pure function
    [noise3(seed, x, y, z)], deterministic for identical inputs, built
    once per seed; [noise3] is that function. *)
Class NoiseLib : Type := {
  noise3 : Q -> Q -> Q -> Q -> Q
}.

(** [new NoiseGenerator(seed)] holds its seed; [gen.noise(x, y, z)]
    samples the field. *)
Record NoiseGenerator : Type := mkNoiseGenerator { ng_seed : Q }.

Definition noise `{NoiseLib} (gen : NoiseGenerator) (x y z : Q) : Q :=
  noise3 (ng_seed gen) x y z.

(** ** ColorPalettes.ts *)

Module ColorPalettes.
Import JS.

(** [interface RGB]: every channel in the program is an integer, a
    literal of the table or a result of [Math.round]. *)
Record RGB : Type := mkRGB { r : Z; g : Z; b : Z }.

Record ColorPalette : Type := mkColorPalette {
  deepOcean : RGB;
  shallowWater : RGB;
  beach : RGB;
  lowland : RGB;
  highland : RGB;
  mountain : RGB;
  peak : RGB;
  polar : RGB;
  atmosphereColor : Z
}.

Definition icy : ColorPalette :=
  {| deepOcean := mkRGB 25 25 112;
     shallowWater := mkRGB 65 105 225;
     beach := mkRGB 176 196 222;
     lowland := mkRGB 230 230 250;
     highland := mkRGB 255 250 240;
     mountain := mkRGB 248 248 255;
     peak := mkRGB 255 255 255;
     polar := mkRGB 255 255 255;
     atmosphereColor := 0x87CEEB |}.

Definition temperate : ColorPalette :=
  {| deepOcean := mkRGB 25 25 112;
     shallowWater := mkRGB 65 105 225;
     beach := mkRGB 238 203 173;
     lowland := mkRGB 34 139 34;
     highland := mkRGB 107 142 35;
     mountain := mkRGB 160 82 45;
     peak := mkRGB 139 69 19;
     polar := mkRGB 255 255 255;
     atmosphereColor := 0x87CEEB |}.

Definition arid : ColorPalette :=
  {| deepOcean := mkRGB 25 25 112;
     shallowWater := mkRGB 65 105 225;
     beach := mkRGB 244 164 96;
     lowland := mkRGB 210 180 140;
     highland := mkRGB 205 133 63;
     mountain := mkRGB 160 82 45;
     peak := mkRGB 139 69 19;
     polar := mkRGB 255 228 181;
     atmosphereColor := 0xFFA500 |}.

Definition verdant : ColorPalette :=
  {| deepOcean := mkRGB 0 100 100;
     shallowWater := mkRGB 0 150 150;
     beach := mkRGB 238 203 173;
     lowland := mkRGB 0 100 0;
     highland := mkRGB 34 139 34;
     mountain := mkRGB 107 142 35;
     peak := mkRGB 85 107 47;
     polar := mkRGB 144 238 144;
     atmosphereColor := 0x90EE90 |}.

Definition palettes : list ColorPalette := [icy; temperate; arid; verdant].

Definition interpolateColor (color1 color2 : RGB) (factor : Q) : RGB :=
  {| r := Math_round (inject_Z (r color1)
                      + (inject_Z (r color2) - inject_Z (r color1)) * factor);
     g := Math_round (inject_Z (g color1)
                      + (inject_Z (g color2) - inject_Z (g color1)) * factor);
     b := Math_round (inject_Z (b color1)
                      + (inject_Z (b color2) - inject_Z (b color1)) * factor) |}.

Definition getColorForHeight (palette : ColorPalette) (height seaLevel : Q)
  : RGB :=
  if ltb height (seaLevel * 0.7) then
    deepOcean palette
  else if ltb height seaLevel then
    let factor := (height - seaLevel * 0.7) / (seaLevel * 0.3) in
    interpolateColor (deepOcean palette) (shallowWater palette) factor
  else if ltb height (seaLevel + 0.05) then
    let factor := (height - seaLevel) / 0.05 in
    interpolateColor (shallowWater palette) (beach palette) factor
  else if ltb height (seaLevel + 0.3) then
    let factor := (height - seaLevel - 0.05) / 0.25 in
    interpolateColor (beach palette) (lowland palette) factor
  else if ltb height (seaLevel + 0.5) then
    let factor := (height - seaLevel - 0.3) / 0.2 in
    interpolateColor (lowland palette) (highland palette) factor
  else if ltb height (seaLevel + 0.7) then
    let factor := (height - seaLevel - 0.5) / 0.2 in
    interpolateColor (highland palette) (mountain palette) factor
  else if ltb height (seaLevel + 0.9) then
    let factor := (height - seaLevel - 0.7) / 0.2 in
    interpolateColor (mountain palette) (peak palette) factor
  else
    polar palette.

(** The object [getPalette] returns: the interpolated palette, spread,
    together with the closure [getColor]. *)
Record PaletteWithGetColor : Type := mkPaletteWithGetColor {
  colors : ColorPalette;
  getColor : Q -> Q -> RGB
}.

(** [getPalette(climate)].  A negative [index] reads [undefined] from the
    table and the first property access on it throws: [None]. *)
Definition getPalette (climate : Q) : option PaletteWithGetColor :=
  let scaledClimate := climate * inject_Z (length palettes - 1) in
  let index := Math_floor scaledClimate in
  let fraction := scaledClimate - inject_Z index in
  let chosen :=
    if (index >=? length palettes - 1)%Z then
      match JS.index palettes (length palettes - 1) with
      | Some last => Some (last, last)
      | None => None
      end
    else
      match JS.index palettes index, JS.index palettes (index + 1) with
      | Some palette1, Some palette2 => Some (palette1, palette2)
      | _, _ => None
      end in
  match chosen with
  | None => None
  | Some (palette1, palette2) =>
      let interpolatedPalette :=
        {| deepOcean :=
             interpolateColor (deepOcean palette1) (deepOcean palette2) fraction;
           shallowWater :=
             interpolateColor (shallowWater palette1) (shallowWater palette2) fraction;
           beach := interpolateColor (beach palette1) (beach palette2) fraction;
           lowland := interpolateColor (lowland palette1) (lowland palette2) fraction;
           highland :=
             interpolateColor (highland palette1) (highland palette2) fraction;
           mountain :=
             interpolateColor (mountain palette1) (mountain palette2) fraction;
           peak := interpolateColor (peak palette1) (peak palette2) fraction;
           polar := interpolateColor (polar palette1) (polar palette2) fraction;
           atmosphereColor := atmosphereColor palette1 |} in
      Some {| colors := interpolatedPalette;
              getColor := fun height seaLevel =>
                getColorForHeight interpolatedPalette height seaLevel |}
  end.

End ColorPalettes.

(** ** pages/Terraformer: the settings of a planet *)

Module Terraformer.

Record PlanetSettings : Type := mkPlanetSettings {
  seed : Q;
  landWaterRatio : Q;
  coastlineComplexity : Q;
  mountainDensity : Q;
  climate : Q;
  atmosphere : Q;
  clouds : Q;
  rotationSpeed : Q;
  dayNightCycle : bool;
  animationPaused : bool;
  backgroundType : Q;
  hasRings : bool;
  ringDensity : Q;
  hasMoon : bool;
  moonSize : Q;
  audioEnabled : bool;
  audioTrack : Q;
  audioVolume : Q;
  cameraPreset : Q;
  particleEffects : bool;
  planetSize : Q;
  autoOrbit : bool;
  geologicalTime : Q;
  weatherCycle : Q;
  climaticShift : Q;
  erosionLevel : Q;
  timeSpeed : Q;
  temporalPaused : bool;
  showTemporalEffects : bool;
  tectonicActivity : Q;
  oceanLevel : Q;
  atmosphericEvolution : Q
}.

(** Assignments [evolved.field = v] to the six fields the evolution
    writes. *)
Definition set_landWaterRatio (v : Q) (s : PlanetSettings) : PlanetSettings :=
  mkPlanetSettings (seed s) v (coastlineComplexity s) (mountainDensity s)
    (climate s) (atmosphere s) (clouds s) (rotationSpeed s) (dayNightCycle s)
    (animationPaused s) (backgroundType s) (hasRings s) (ringDensity s)
    (hasMoon s) (moonSize s) (audioEnabled s) (audioTrack s) (audioVolume s)
    (cameraPreset s) (particleEffects s) (planetSize s) (autoOrbit s)
    (geologicalTime s) (weatherCycle s) (climaticShift s) (erosionLevel s)
    (timeSpeed s) (temporalPaused s) (showTemporalEffects s)
    (tectonicActivity s) (oceanLevel s) (atmosphericEvolution s).

Definition set_coastlineComplexity (v : Q) (s : PlanetSettings) : PlanetSettings :=
  mkPlanetSettings (seed s) (landWaterRatio s) v (mountainDensity s)
    (climate s) (atmosphere s) (clouds s) (rotationSpeed s) (dayNightCycle s)
    (animationPaused s) (backgroundType s) (hasRings s) (ringDensity s)
    (hasMoon s) (moonSize s) (audioEnabled s) (audioTrack s) (audioVolume s)
    (cameraPreset s) (particleEffects s) (planetSize s) (autoOrbit s)
    (geologicalTime s) (weatherCycle s) (climaticShift s) (erosionLevel s)
    (timeSpeed s) (temporalPaused s) (showTemporalEffects s)
    (tectonicActivity s) (oceanLevel s) (atmosphericEvolution s).

Definition set_mountainDensity (v : Q) (s : PlanetSettings) : PlanetSettings :=
  mkPlanetSettings (seed s) (landWaterRatio s) (coastlineComplexity s) v
    (climate s) (atmosphere s) (clouds s) (rotationSpeed s) (dayNightCycle s)
    (animationPaused s) (backgroundType s) (hasRings s) (ringDensity s)
    (hasMoon s) (moonSize s) (audioEnabled s) (audioTrack s) (audioVolume s)
    (cameraPreset s) (particleEffects s) (planetSize s) (autoOrbit s)
    (geologicalTime s) (weatherCycle s) (climaticShift s) (erosionLevel s)
    (timeSpeed s) (temporalPaused s) (showTemporalEffects s)
    (tectonicActivity s) (oceanLevel s) (atmosphericEvolution s).

Definition set_climate (v : Q) (s : PlanetSettings) : PlanetSettings :=
  mkPlanetSettings (seed s) (landWaterRatio s) (coastlineComplexity s)
    (mountainDensity s) v (atmosphere s) (clouds s) (rotationSpeed s)
    (dayNightCycle s) (animationPaused s) (backgroundType s) (hasRings s)
    (ringDensity s) (hasMoon s) (moonSize s) (audioEnabled s) (audioTrack s)
    (audioVolume s) (cameraPreset s) (particleEffects s) (planetSize s)
    (autoOrbit s) (geologicalTime s) (weatherCycle s) (climaticShift s)
    (erosionLevel s) (timeSpeed s) (temporalPaused s) (showTemporalEffects s)
    (tectonicActivity s) (oceanLevel s) (atmosphericEvolution s).

Definition set_atmosphere (v : Q) (s : PlanetSettings) : PlanetSettings :=
  mkPlanetSettings (seed s) (landWaterRatio s) (coastlineComplexity s)
    (mountainDensity s) (climate s) v (clouds s) (rotationSpeed s)
    (dayNightCycle s) (animationPaused s) (backgroundType s) (hasRings s)
    (ringDensity s) (hasMoon s) (moonSize s) (audioEnabled s) (audioTrack s)
    (audioVolume s) (cameraPreset s) (particleEffects s) (planetSize s)
    (autoOrbit s) (geologicalTime s) (weatherCycle s) (climaticShift s)
    (erosionLevel s) (timeSpeed s) (temporalPaused s) (showTemporalEffects s)
    (tectonicActivity s) (oceanLevel s) (atmosphericEvolution s).

Definition set_clouds (v : Q) (s : PlanetSettings) : PlanetSettings :=
  mkPlanetSettings (seed s) (landWaterRatio s) (coastlineComplexity s)
    (mountainDensity s) (climate s) (atmosphere s) v (rotationSpeed s)
    (dayNightCycle s) (animationPaused s) (backgroundType s) (hasRings s)
    (ringDensity s) (hasMoon s) (moonSize s) (audioEnabled s) (audioTrack s)
    (audioVolume s) (cameraPreset s) (particleEffects s) (planetSize s)
    (autoOrbit s) (geologicalTime s) (weatherCycle s) (climaticShift s)
    (erosionLevel s) (timeSpeed s) (temporalPaused s) (showTemporalEffects s)
    (tectonicActivity s) (oceanLevel s) (atmosphericEvolution s).

(** [defaultSettings], with its seed ([Math.random() * 10000] in the
    source) as an argument. *)
Definition defaultSettings (seed : Q) : PlanetSettings :=
  {| seed := seed;
     landWaterRatio := 0.4;
     coastlineComplexity := 0.5;
     mountainDensity := 0.3;
     climate := 0.5;
     atmosphere := 0.4;
     clouds := 0.6;
     rotationSpeed := 1;
     dayNightCycle := false;
     animationPaused := false;
     backgroundType := 0;
     hasRings := false;
     ringDensity := 0.5;
     hasMoon := false;
     moonSize := 0.3;
     audioEnabled := false;
     audioTrack := 0;
     audioVolume := 0.5;
     cameraPreset := 0;
     particleEffects := true;
     planetSize := 1.0;
     autoOrbit := false;
     geologicalTime := 0;
     weatherCycle := 0;
     climaticShift := 0;
     erosionLevel := 0;
     timeSpeed := 1;
     temporalPaused := true;
     showTemporalEffects := true;
     tectonicActivity := 0.5;
     oceanLevel := 0;
     atmosphericEvolution := 0 |}.

End Terraformer.

(** ** TemporalEvolution.ts *)

Module TemporalEvolution.
Import JS.
Import Terraformer.

Record TemporalSettings : Type := mkTemporalSettings {
  ts_geologicalTime : Q;
  ts_weatherCycle : Q;
  ts_climaticShift : Q;
  ts_erosionLevel : Q;
  ts_timeSpeed : Q;
  ts_isPaused : bool;
  ts_showTemporalEffects : bool;
  ts_tectonicActivity : Q;
  ts_oceanLevel : Q;
  ts_atmosphericEvolution : Q
}.

Record TemporalSnapshot : Type := mkTemporalSnapshot {
  snap_landWaterRatio : Q;
  snap_mountainDensity : Q;
  snap_coastlineComplexity : Q;
  snap_climate : Q;
  snap_atmosphere : Q;
  snap_clouds : Q;
  snap_timestamp : Q
}.

(** The private fields of a [TemporalEvolution] object. *)
Record TemporalEvolution : Type := mkTemporalEvolution {
  baseSettings : PlanetSettings;
  temporalNoise : NoiseGenerator;
  weatherNoise : NoiseGenerator;
  snapshots : list TemporalSnapshot;
  currentTime : Q
}.

Definition set_currentTime (t : Q) (this : TemporalEvolution) : TemporalEvolution :=
  {| baseSettings := baseSettings this;
     temporalNoise := temporalNoise this;
     weatherNoise := weatherNoise this;
     snapshots := snapshots this;
     currentTime := t |}.

Definition set_snapshots (l : list TemporalSnapshot) (this : TemporalEvolution)
  : TemporalEvolution :=
  {| baseSettings := baseSettings this;
     temporalNoise := temporalNoise this;
     weatherNoise := weatherNoise this;
     snapshots := l;
     currentTime := currentTime this |}.

(** [new TemporalEvolution(planetSettings)]. *)
Definition new (planetSettings : PlanetSettings) : TemporalEvolution :=
  {| baseSettings := planetSettings;
     temporalNoise := mkNoiseGenerator (seed planetSettings + 50000);
     weatherNoise := mkNoiseGenerator (seed planetSettings + 60000);
     snapshots := [];
     currentTime := 0 |}.

Definition updateTime (deltaTime : Q) (temporalSettings : TemporalSettings)
    (this : TemporalEvolution) : TemporalEvolution :=
  if negb (ts_isPaused temporalSettings) then
    set_currentTime (currentTime this + deltaTime * ts_timeSpeed temporalSettings) this
  else this.

Definition getCurrentTime (this : TemporalEvolution) : Q := currentTime this.

Section Evolution.
Context `{JSMath} `{NoiseLib}.

(** The geological branch, run on the copy [evolved]. *)
Definition geologicalEvolution (this : TemporalEvolution)
    (temporalSettings : TemporalSettings) (time : Q)
    (evolved : PlanetSettings) : PlanetSettings :=
  let geoScale := ts_geologicalTime temporalSettings * 10 in
  let mountainCycle :=
    noise (temporalNoise this) (time * 0.001) 0 geoScale * 0.3 in
  let evolved :=
    set_mountainDensity
      (Math_max 0 (Math_min 1
         (mountainDensity (baseSettings this)
          + mountainCycle * ts_tectonicActivity temporalSettings)))
      evolved in
  (* Math.pow(erosionLevel, 2) *)
  let erosionFactor :=
    ts_erosionLevel temporalSettings * ts_erosionLevel temporalSettings in
  let coastlineSmoothing := erosionFactor * 0.4 in
  let evolved :=
    set_coastlineComplexity
      (Math_max 0 (Math_min 1
         (coastlineComplexity (baseSettings this) - coastlineSmoothing
          + noise (temporalNoise this) (time * 0.0005) geoScale 0 * 0.2)))
      evolved in
  let oceanCycle :=
    noise (temporalNoise this) (time * 0.0008) (geoScale * 2) 0 * 0.3 in
  set_landWaterRatio
    (Math_max 0 (Math_min 1
       (landWaterRatio (baseSettings this) + oceanCycle
        + ts_oceanLevel temporalSettings)))
    evolved.

Definition climaticEvolution (this : TemporalEvolution)
    (temporalSettings : TemporalSettings) (time : Q)
    (evolved : PlanetSettings) : PlanetSettings :=
  let climateNoise :=
    noise (temporalNoise this) (time * 0.0002)
          (ts_climaticShift temporalSettings * 5) 0 in
  set_climate
    (Math_max 0 (Math_min 1
       (climate (baseSettings this)
        + climateNoise * ts_climaticShift temporalSettings * 0.5)))
    evolved.

Definition atmosphericEvolutionStep (this : TemporalEvolution)
    (temporalSettings : TemporalSettings) (time : Q)
    (evolved : PlanetSettings) : PlanetSettings :=
  let atmoNoise :=
    noise (temporalNoise this) (time * 0.0001) 0
          (ts_atmosphericEvolution temporalSettings * 3) in
  set_atmosphere
    (Math_max 0 (Math_min 1
       (atmosphere (baseSettings this)
        + atmoNoise * ts_atmosphericEvolution temporalSettings * 0.4)))
    evolved.

Definition weatherCycleStep (this : TemporalEvolution)
    (temporalSettings : TemporalSettings) (time : Q)
    (evolved : PlanetSettings) : PlanetSettings :=
  let seasonalCycle :=
    Math_sin (time * 0.01 * ts_weatherCycle temporalSettings) * 0.3 in
  let weatherNoise :=
    noise (weatherNoise this) (time * 0.02)
          (ts_weatherCycle temporalSettings * 2) 0 * 0.4 in
  let evolved :=
    set_clouds
      (Math_max 0 (Math_min 1
         (clouds (baseSettings this) + seasonalCycle
          + weatherNoise * ts_weatherCycle temporalSettings)))
      evolved in
  set_atmosphere
    (Math_max 0 (Math_min 1 (atmosphere evolved + seasonalCycle * 0.1)))
    evolved.

(** [getTemporallyEvolvedSettings(temporalSettings)]: [evolved] starts
    as a copy of [this.baseSettings]; the object itself is only read. *)
Definition getTemporallyEvolvedSettings (this : TemporalEvolution)
    (temporalSettings : TemporalSettings) : PlanetSettings :=
  let evolved := baseSettings this in
  let time := currentTime this in
  let evolved :=
    if gtb (ts_geologicalTime temporalSettings) 0
    then geologicalEvolution this temporalSettings time evolved
    else evolved in
  let evolved :=
    if gtb (ts_climaticShift temporalSettings) 0
    then climaticEvolution this temporalSettings time evolved
    else evolved in
  let evolved :=
    if gtb (ts_atmosphericEvolution temporalSettings) 0
    then atmosphericEvolutionStep this temporalSettings time evolved
    else evolved in
  if gtb (ts_weatherCycle temporalSettings) 0
  then weatherCycleStep this temporalSettings time evolved
  else evolved.

Record TemporalEffects : Type := mkTemporalEffects {
  auroras : bool;
  meteorShowers : bool;
  solarFlares : bool;
  lightningStorms : bool;
  dustStorms : bool;
  polarIceCaps : bool
}.

Definition getTemporalEffects (this : TemporalEvolution)
    (temporalSettings : TemporalSettings) : TemporalEffects :=
  let time := currentTime this in
  {| auroras :=
       gtb (noise (weatherNoise this) (time * 0.03) 1 0) 0.7
       && ts_showTemporalEffects temporalSettings;
     meteorShowers :=
       gtb (noise (weatherNoise this) (time * 0.02) 2 0) 0.8
       && ts_showTemporalEffects temporalSettings;
     solarFlares :=
       gtb (noise (weatherNoise this) (time * 0.01) 3 0) 0.85
       && ts_showTemporalEffects temporalSettings;
     lightningStorms :=
       gtb (noise (weatherNoise this) (time * 0.05) 4 0) 0.6
       && gtb (ts_weatherCycle temporalSettings) 0.5;
     dustStorms :=
       gtb (noise (weatherNoise this) (time * 0.04) 5 0) 0.7
       && gtb (ts_weatherCycle temporalSettings) 0.3;
     polarIceCaps :=
       gtb (ts_geologicalTime temporalSettings) 0.3
       && ltb (climate (baseSettings this)) 0.6 |}.

End Evolution.

Definition saveSnapshot (this : TemporalEvolution) : TemporalEvolution :=
  let snapshot :=
    {| snap_landWaterRatio := landWaterRatio (baseSettings this);
       snap_mountainDensity := mountainDensity (baseSettings this);
       snap_coastlineComplexity := coastlineComplexity (baseSettings this);
       snap_climate := climate (baseSettings this);
       snap_atmosphere := atmosphere (baseSettings this);
       snap_clouds := clouds (baseSettings this);
       snap_timestamp := currentTime this |} in
  let pushed := snapshots this ++ [snapshot] in
  if (length pushed >? 100)%Z then set_snapshots (tl pushed) this
  else set_snapshots pushed this.

Definition getTemporalHistory (this : TemporalEvolution) : list TemporalSnapshot :=
  snapshots this.

Definition resetTime (this : TemporalEvolution) : TemporalEvolution :=
  set_snapshots [] (set_currentTime 0 this).

Definition fastForward (duration : Q) (this : TemporalEvolution) : TemporalEvolution :=
  set_currentTime (currentTime this + duration) this.

Definition rewind (duration : Q) (this : TemporalEvolution) : TemporalEvolution :=
  set_currentTime (Math_max 0 (currentTime this - duration)) this.

Definition getTimeDescription (this : TemporalEvolution) : string :=
  let time := currentTime this in
  if ltb time 100 then
    (string_of_integer (Math_floor time) ++ " years")%string
  else if ltb time 100000 then
    (string_of_integer (Math_floor (time / 1000)) ++ "K years")%string
  else if ltb time 1000000 then
    (string_of_tenths (Math_floor (time / 100000)) ++ "M years")%string
  else
    (string_of_tenths (Math_floor (time / 100000000)) ++ "B years")%string.

Definition getEpochName (this : TemporalEvolution) : string :=
  let time := currentTime this in
  if ltb time 1000 then "Present Era"
  else if ltb time 10000 then "Recent Holocene"
  else if ltb time 100000 then "Pleistocene"
  else if ltb time 1000000 then "Quaternary"
  else if ltb time 10000000 then "Neogene"
  else if ltb time 100000000 then "Paleogene"
  else if ltb time 500000000 then "Mesozoic"
  else "Paleozoic".

(** The calls a client can make on the object between two reads of the
    evolved settings. *)
Inductive call : Type :=
| CallUpdateTime (deltaTime : Q) (temporalSettings : TemporalSettings)
| CallSaveSnapshot
| CallResetTime
| CallFastForward (duration : Q)
| CallRewind (duration : Q)
| CallGetCurrentTime
| CallGetTemporalHistory
| CallGetTimeDescription
| CallGetEpochName
| CallGetTemporallyEvolvedSettings (temporalSettings : TemporalSettings).

(** The effect of one call on the object. *)
Definition exec (c : call) (this : TemporalEvolution) : TemporalEvolution :=
  match c with
  | CallUpdateTime deltaTime temporalSettings =>
      updateTime deltaTime temporalSettings this
  | CallSaveSnapshot => saveSnapshot this
  | CallResetTime => resetTime this
  | CallFastForward duration => fastForward duration this
  | CallRewind duration => rewind duration this
  | CallGetCurrentTime | CallGetTemporalHistory | CallGetTimeDescription
  | CallGetEpochName | CallGetTemporallyEvolvedSettings _ => this
  end.

Definition execAll (cs : list call) (this : TemporalEvolution) : TemporalEvolution :=
  fold_left (fun obj c => exec c obj) cs this.

(** The calls that hold the clock: everything but a tick of a running
    clock, [fastForward], [rewind] and [resetTime]. *)
Definition holdsClock (c : call) : bool :=
  match c with
  | CallUpdateTime _ temporalSettings => ts_isPaused temporalSettings
  | CallResetTime | CallFastForward _ | CallRewind _ => false
  | _ => true
  end.

Record TemporalVisualizationData : Type := mkTemporalVisualizationData {
  timeProgress : Q;
  erosionProgress : Q;
  climateHistory : list Q;
  mountainHistory : list Q;
  oceanHistory : list Q
}.

Section Visualization.
Context `{NoiseLib}.

(** [getTemporalVisualizationData()]: the three histories are pushed in
    one loop over [i = 0 .. historyLength - 1]. *)
Definition getTemporalVisualizationData (this : TemporalEvolution)
  : TemporalVisualizationData :=
  let maxTime := 1000000000 in
  let timeProgress := Math_min 1 (currentTime this / maxTime) in
  let erosionProgress := Math_min 1 (currentTime this / 100000000) in
  let historyLength := 50%Z in
  let historicalTime (i : Z) :=
    currentTime this * inject_Z i / inject_Z historyLength in
  {| timeProgress := timeProgress;
     erosionProgress := erosionProgress;
     climateHistory :=
       map (fun i =>
              climate (baseSettings this)
              + noise (temporalNoise this) (historicalTime i * 0.0002) 1 0 * 0.3)
           (for_lt 0 historyLength 1);
     mountainHistory :=
       map (fun i =>
              mountainDensity (baseSettings this)
              + noise (temporalNoise this) (historicalTime i * 0.001) 2 0 * 0.4)
           (for_lt 0 historyLength 1);
     oceanHistory :=
       map (fun i =>
              landWaterRatio (baseSettings this)
              + noise (temporalNoise this) (historicalTime i * 0.0008) 3 0 * 0.3)
           (for_lt 0 historyLength 1) |}.

End Visualization.

End TemporalEvolution.

(** ** three.js: the vector operations the weather system calls *)

Module THREE.

Record Vector3 : Type := mkVector3 { x : Q; y : Q; z : Q }.

Definition add (v w : Vector3) : Vector3 :=
  mkVector3 (x v + x w) (y v + y w) (z v + z w).

Definition multiplyScalar (v : Vector3) (s : Q) : Vector3 :=
  mkVector3 (x v * s) (y v * s) (z v * s).

Definition divideScalar (v : Vector3) (s : Q) : Vector3 :=
  multiplyScalar v (1 / s).

Section Metric.
Context `{JSMath}.

Definition length (v : Vector3) : Q :=
  Math_sqrt (x v * x v + y v * y v + z v * z v).

(** [divideScalar(this.length() || 1)]. *)
Definition normalize (v : Vector3) : Vector3 :=
  divideScalar v (if Qeq_bool (length v) 0 then 1 else length v).

Definition distanceTo (v w : Vector3) : Q :=
  let dx := x v - x w in
  let dy := y v - y w in
  let dz := z v - z w in
  Math_sqrt (dx * dx + dy * dy + dz * dz).
End Metric.

End THREE.

(** ** [Math.random]: a tape of draws, read left to right *)

Module Random.

Definition Tape : Type := nat -> Q.

Definition Rand (A : Type) : Type := Tape -> A * Tape.

Definition ret {A : Type} (a : A) : Rand A := fun tape => (a, tape).

Definition bind {A B : Type} (m : Rand A) (k : A -> Rand B) : Rand B :=
  fun tape => let (a, tape') := m tape in k a tape'.

(** One call of [Math.random()]. *)
Definition random : Rand Q := fun tape => (tape 0%nat, fun n => tape (S n)).

(** The contract of [Math.random]: every draw is in [0, 1). *)
Definition valid (tape : Tape) : Prop := forall n, 0 <= tape n /\ tape n < 1.

(** The tape that starts with [draws] and goes on with [rest]. *)
Definition ofList (draws : list Q) (rest : Q) : Tape :=
  fun n => nth n draws rest.

End Random.

Declare Scope rand_scope.
Delimit Scope rand_scope with rand.
Notation "x <- m ;; k" := (Random.bind m (fun x => k))
  (at level 61, m at next level, right associativity) : rand_scope.

(** ** WeatherSystem.ts *)

Module WeatherSystem.
Import JS.
Import THREE.

Record WeatherPattern : Type := mkWeatherPattern {
  cloudDensity : Q;
  stormIntensity : Q;
  windSpeed : Q;
  precipitation : Q;
  temperature : option Q;
  pressure : Q
}.

Inductive StormType : Type := thunderstorm | cyclone | dust | aurora.

Record StormSystem : Type := mkStormSystem {
  position : Vector3;
  radius : Q;
  intensity : Q;
  rotation : Q;
  type : StormType;
  lifespan : Q;
  age : Q
}.

Definition set_position (v : Vector3) (s : StormSystem) : StormSystem :=
  mkStormSystem v (radius s) (intensity s) (rotation s) (type s) (lifespan s) (age s).
Definition set_radius (v : Q) (s : StormSystem) : StormSystem :=
  mkStormSystem (position s) v (intensity s) (rotation s) (type s) (lifespan s) (age s).
Definition set_intensity (v : Q) (s : StormSystem) : StormSystem :=
  mkStormSystem (position s) (radius s) v (rotation s) (type s) (lifespan s) (age s).
Definition set_rotation (v : Q) (s : StormSystem) : StormSystem :=
  mkStormSystem (position s) (radius s) (intensity s) v (type s) (lifespan s) (age s).
Definition set_lifespan (v : Q) (s : StormSystem) : StormSystem :=
  mkStormSystem (position s) (radius s) (intensity s) (rotation s) (type s) v (age s).
Definition set_age (v : Q) (s : StormSystem) : StormSystem :=
  mkStormSystem (position s) (radius s) (intensity s) (rotation s) (type s) (lifespan s) v.

(** The private fields of a [WeatherSystem] object. *)
Record WeatherSystem : Type := mkWeatherSystem {
  noiseGen : NoiseGenerator;
  stormSystems : list StormSystem;
  globalWindPattern : list Vector3;
  temperatureMap : list (list Q);
  currentTime : Q
}.

Definition set_stormSystems (l : list StormSystem) (this : WeatherSystem)
  : WeatherSystem :=
  mkWeatherSystem (noiseGen this) l (globalWindPattern this)
    (temperatureMap this) (currentTime this).

Definition set_currentTime (t : Q) (this : WeatherSystem) : WeatherSystem :=
  mkWeatherSystem (noiseGen this) (stormSystems this) (globalWindPattern this)
    (temperatureMap this) t.

Section Construction.
Context `{JSMath} `{NoiseLib}.

Definition generateGlobalWindPattern (gen : NoiseGenerator) : list Vector3 :=
  flat_map (fun lat : Z =>
    map (fun lon : Z =>
      let latRad := inject_Z lat * Math_PI / 180 in
      let coriolisStrength := Math_sin latRad * 0.8 in
      let tradeWinds := Math_cos (latRad * 3) * 0.6 in
      normalize
        (mkVector3
           (tradeWinds
            + noise gen (inject_Z lon * 0.01) (inject_Z lat * 0.01) 0 * 0.4)
           coriolisStrength
           (noise gen (inject_Z lon * 0.02) (inject_Z lat * 0.02) 1 * 0.3)))
      (for_le (-180) 180 10))
    (for_le (-90) 90 10).

Definition generateTemperatureMap (gen : NoiseGenerator) : list (list Q) :=
  map (fun lat : Z =>
    map (fun lon : Z =>
      let latNorm := (inject_Z lat - 90) / 90 in
      let baseTemp := Math_cos (latNorm * Math_PI * 0.5) in
      let terrainVariation :=
        noise gen (inject_Z lon * 0.02) (inject_Z lat * 0.02) 2 * 0.3 in
      Math_max 0 (Math_min 1 (baseTemp + terrainVariation)))
      (for_lt 0 360 5))
    (for_lt 0 180 5).

(** [new WeatherSystem(seed)]. *)
Definition new (seed : Q) : WeatherSystem :=
  let gen := mkNoiseGenerator (seed + 70000) in
  {| noiseGen := gen;
     stormSystems := [];
     globalWindPattern := generateGlobalWindPattern gen;
     temperatureMap := generateTemperatureMap gen;
     currentTime := 0 |}.
End Construction.

(** The body of the [filter] callback of [update], up to its [return]:
    the storm is aged, turned, moved with the wind and its intensity is
    rescaled. *)
Definition stepStorm (this : WeatherSystem) (deltaTime timeSpeed : Q)
    (storm : StormSystem) : StormSystem :=
  let storm := set_age (age storm + deltaTime * timeSpeed) storm in
  let storm :=
    set_rotation (rotation storm + deltaTime * timeSpeed * intensity storm) storm in
  let windIndex :=
    (Math_floor ((x (position storm) + 1) * 18)
     + Math_floor ((y (position storm) + 1) * 18) * 36)%Z in
  let storm :=
    if (windIndex >=? 0)%Z && (windIndex <? JS.length (globalWindPattern this))%Z
    then
      match JS.index (globalWindPattern this) windIndex with
      | Some wind =>
          set_position
            (add (position storm) (multiplyScalar wind (deltaTime * 0.01))) storm
      | None => storm
      end
    else storm in
  if ltb (age storm) (lifespan storm * 0.2) then
    set_intensity (age storm / (lifespan storm * 0.2) * intensity storm) storm
  else if gtb (age storm) (lifespan storm * 0.8) then
    let dissipationFactor :=
      1 - (age storm - lifespan storm * 0.8) / (lifespan storm * 0.2) in
    set_intensity (intensity storm * dissipationFactor) storm
  else storm.

(** The [return] of the callback. *)
Definition keepStorm (storm : StormSystem) : bool :=
  ltb (age storm) (lifespan storm) && gtb (intensity storm) 0.1.

Definition stormTypes : list StormType := [thunderstorm; cyclone; dust; aurora].

Local Open Scope rand_scope.

(** [spawnRandomStorm()].  The draws are made in the order the source
    evaluates them.  [Math.random() * 4] floors to 0..3 for a draw in
    [0, 1), which is when the table has the entry; the default of [nth]
    is not read then. *)
Definition spawnRandomStorm (this : WeatherSystem) : Random.Rand WeatherSystem :=
  rType <- Random.random ;;
  let type :=
    nth (Z.to_nat (Math_floor (rType * inject_Z (JS.length stormTypes))))
        stormTypes thunderstorm in
  rx <- Random.random ;;
  ry <- Random.random ;;
  rz <- Random.random ;;
  rRadius <- Random.random ;;
  rIntensity <- Random.random ;;
  rLifespan <- Random.random ;;
  let storm :=
    {| position := mkVector3 ((rx - 0.5) * 2) ((ry - 0.5) * 2) ((rz - 0.5) * 0.2 + 1.6);
       radius := 0.1 + rRadius * 0.3;
       intensity := 0.5 + rIntensity * 0.5;
       rotation := 0;
       type := type;
       lifespan := 50 + rLifespan * 200;
       age := 0 |} in
  match type with
  | cyclone =>
      let storm := set_radius (radius storm * 1.5) storm in
      let storm := set_lifespan (lifespan storm * 2) storm in
      let storm := set_intensity (intensity storm * 1.2) storm in
      Random.ret (set_stormSystems (stormSystems this ++ [storm]) this)
  | dust =>
      let storm := set_radius (radius storm * 2) storm in
      let storm := set_intensity (intensity storm * 0.8) storm in
      let storm :=
        set_position (mkVector3 (x (position storm)) (y (position storm)) 1.55)
                     storm in
      Random.ret (set_stormSystems (stormSystems this ++ [storm]) this)
  | aurora =>
      let storm := set_radius (radius storm * 0.5) storm in
      let storm :=
        set_position (mkVector3 (x (position storm)) (y (position storm)) 2.0)
                     storm in
      rPole <- Random.random ;;
      let storm :=
        set_position
          (mkVector3 (if gtb rPole 0.5 then 1.2 else -1.2)
                     (y (position storm)) (z (position storm)))
          storm in
      Random.ret (set_stormSystems (stormSystems this ++ [storm]) this)
  | thunderstorm =>
      Random.ret (set_stormSystems (stormSystems this ++ [storm]) this)
  end.

(** [update(deltaTime, timeSpeed)]. *)
Definition update (deltaTime timeSpeed : Q) (this : WeatherSystem)
  : Random.Rand WeatherSystem :=
  let this := set_currentTime (currentTime this + deltaTime * timeSpeed) this in
  let this :=
    set_stormSystems
      (filter keepStorm (map (stepStorm this deltaTime timeSpeed) (stormSystems this)))
      this in
  rSpawn <- Random.random ;;
  if ltb rSpawn 0.02 then spawnRandomStorm this else Random.ret this.

Local Close Scope rand_scope.

(** The two indices [getTemperatureAt] derives from a position; the
    latitude index is [NaN] ([None]) when [Math.asin] is. *)
Section Temperature.
Context `{JSMath}.

Definition latIndexOf (position : Vector3) : option Z :=
  match Math_asin (y position) with
  | Some a =>
      let lat := a * 180 / Math_PI + 90 in
      Some (Math_floor (lat / 5))
  | None => None
  end.

Definition lonIndexOf (position : Vector3) : Z :=
  let lon := Math_atan2 (z position) (x position) * 180 / Math_PI + 180 in
  Math_floor (lon / 5).

(** [getTemperatureAt(position)].  The result is [None] where the
    source would not return a number: a [TypeError] on
    [this.temperatureMap[0].length] or an [undefined] cell.  A
    comparison with [NaN] is false, so a [NaN] latitude index takes the
    default. *)
Definition getTemperatureAt (this : WeatherSystem) (position : Vector3)
  : option Q :=
  let lonIndex := lonIndexOf position in
  match latIndexOf position with
  | None => Some 0.5
  | Some latIndex =>
      if (latIndex >=? 0)%Z && (latIndex <? JS.length (temperatureMap this))%Z
      then
        match JS.index (temperatureMap this) 0 with
        | None => None
        | Some row0 =>
            if (lonIndex >=? 0)%Z && (lonIndex <? JS.length row0)%Z then
              match JS.index (temperatureMap this) latIndex with
              | Some row => JS.index row lonIndex
              | None => None
              end
            else Some 0.5
        end
      else Some 0.5
  end.
End Temperature.

Section Sampling.
Context `{JSMath} `{NoiseLib}.

(** The [forEach] of [getCurrentWeatherPattern]: the largest influence
    of a storm whose radius covers the position. *)
Definition stormInfluenceAt (storms : list StormSystem) (position : Vector3) : Q :=
  fold_left
    (fun stormInfluence storm =>
       let distance := distanceTo position (WeatherSystem.position storm) in
       if ltb distance (radius storm) then
         let influence := (1 - distance / radius storm) * intensity storm in
         Math_max stormInfluence influence
       else stormInfluence)
    storms 0.

Definition getCurrentWeatherPattern (this : WeatherSystem) (position : Vector3)
  : WeatherPattern :=
  let cloudNoise :=
    noise (noiseGen this)
      (x position * 3 + currentTime this * 0.01)
      (y position * 3 + currentTime this * 0.01)
      (z position * 3) in
  let stormNoise :=
    noise (noiseGen this)
      (x position * 8 + currentTime this * 0.02)
      (y position * 8 + currentTime this * 0.02)
      (z position * 8 + 1) in
  let windNoise :=
    noise (noiseGen this)
      (x position * 5 + currentTime this * 0.015)
      (y position * 5 + currentTime this * 0.015)
      (z position * 5 + 2) in
  let stormInfluence := stormInfluenceAt (stormSystems this) position in
  {| cloudDensity :=
       Math_max 0 (Math_min 1 ((cloudNoise + 1) / 2 + stormInfluence * 0.3));
     stormIntensity :=
       Math_max 0 (Math_min 1 ((stormNoise + 1) / 2 + stormInfluence));
     windSpeed :=
       Math_max 0 (Math_min 1 ((windNoise + 1) / 2 + stormInfluence * 0.4));
     precipitation :=
       Math_max 0 (Math_min 1 (stormInfluence * 0.8 + (cloudNoise + 1) / 4));
     temperature := getTemperatureAt this position;
     pressure := 0.5 + (cloudNoise + stormNoise) * 0.25 + stormInfluence * 0.2 |}.
End Sampling.

Definition getActiveStorms (this : WeatherSystem) : list StormSystem :=
  stormSystems this.

Definition reset (this : WeatherSystem) : WeatherSystem :=
  set_currentTime 0 (set_stormSystems [] this).

(** [Math.min] and [Math.max] with an operand that may be [NaN] or
    [undefined] ([None]): the result is [NaN] then. *)
Definition Math_min_nan (a b : option Q) : option Q :=
  match a, b with
  | Some u, Some v => Some (Math_min u v)
  | _, _ => None
  end.

Definition Math_max_nan (a b : option Q) : option Q :=
  match a, b with
  | Some u, Some v => Some (Math_max u v)
  | _, _ => None
  end.

Record TemperatureRange : Type := mkTemperatureRange {
  range_min : option Q;
  range_max : option Q
}.

Record WeatherStats : Type := mkWeatherStats {
  activeStorms : Z;
  averageCloudCover : Q;
  globalWindSpeed : Q;
  temperatureRange : TemperatureRange
}.

(** The running totals of the sampling loop of [getWeatherStats]. *)
Record WeatherTotals : Type := mkWeatherTotals {
  totalCloudCover : Q;
  totalWindSpeed : Q;
  minTemp : option Q;
  maxTemp : option Q
}.

Section Statistics.
Context `{JSMath} `{NoiseLib}.

Local Open Scope rand_scope.

(** One round of the loop: two draws place a point above the surface,
    the weather there is added to the totals. *)
Definition sampleOnce (this : WeatherSystem) (totals : WeatherTotals)
  : Random.Rand WeatherTotals :=
  rx <- Random.random ;;
  ry <- Random.random ;;
  let position :=
    multiplyScalar
      (normalize (mkVector3 ((rx - 0.5) * 2) ((ry - 0.5) * 2) 1.6)) 1.6 in
  let weather := getCurrentWeatherPattern this position in
  Random.ret
    {| totalCloudCover := totalCloudCover totals + cloudDensity weather;
       totalWindSpeed := totalWindSpeed totals + windSpeed weather;
       minTemp := Math_min_nan (minTemp totals) (temperature weather);
       maxTemp := Math_max_nan (maxTemp totals) (temperature weather) |}.

(** [rounds] rounds of the loop. *)
Fixpoint sampleLoop (rounds : nat) (this : WeatherSystem) (totals : WeatherTotals)
  : Random.Rand WeatherTotals :=
  match rounds with
  | O => Random.ret totals
  | S rest =>
      totals' <- sampleOnce this totals ;;
      sampleLoop rest this totals'
  end.

(** [getWeatherStats()]. *)
Definition getWeatherStats (this : WeatherSystem) : Random.Rand WeatherStats :=
  let activeStorms := JS.length (stormSystems this) in
  let samplePoints := 100%nat in
  totals <-
    sampleLoop samplePoints this
      {| totalCloudCover := 0; totalWindSpeed := 0;
         minTemp := Some 1; maxTemp := Some 0 |} ;;
  Random.ret
    {| activeStorms := activeStorms;
       averageCloudCover := totalCloudCover totals / inject_Z (Z.of_nat samplePoints);
       globalWindSpeed := totalWindSpeed totals / inject_Z (Z.of_nat samplePoints);
       temperatureRange :=
         {| range_min := minTemp totals; range_max := maxTemp totals |} |}.

Local Close Scope rand_scope.

End Statistics.

End WeatherSystem.

(** ** PlanetStats.ts *)

(** [Math.acos], for arguments within [-1, 1]: the sampling of
    [calculatePlanetStats] calls it on [2 * Math.random() - 1]. *)
Class JSMathAcos : Type := {
  Math_acos : Q -> Q
}.

Module PlanetStats.
Import JS.
Import Terraformer.

Inductive TerrainComplexity : Type := Low | Medium | High | Extreme.
Inductive AtmosphericConditions : Type := Thin | Normal | Dense | Thick.
Inductive CloudCoverage : Type := Clear | Light | Moderate | Heavy | Overcast.

Record PlanetStats : Type := mkPlanetStats {
  landPercentage : Z;
  waterPercentage : Z;
  climateType : string;
  terrainComplexity : TerrainComplexity;
  atmosphericConditions : AtmosphericConditions;
  cloudCoverage : CloudCoverage;
  approximateSize : string
}.

Section Sampling.
Context `{JSMath} `{JSMathAcos} `{NoiseLib}.

Local Open Scope rand_scope.

(** The height sampled at a random point of the sphere: one round of
    the loop, up to the comparison with the sea level. *)
Definition sampleHeight (settings : PlanetSettings) (gen : NoiseGenerator)
  : Random.Rand Q :=
  rPhi <- Random.random ;;
  let phi := Math_acos (2 * rPhi - 1) in
  rTheta <- Random.random ;;
  let theta := rTheta * 2 * Math_PI in
  let x := Math_sin phi * Math_cos theta in
  let y := Math_sin phi * Math_sin theta in
  let z := Math_cos phi in
  let scale1 := coastlineComplexity settings * 4 + 1 in
  let scale2 := coastlineComplexity settings * 8 + 2 in
  let scale3 := mountainDensity settings * 16 + 4 in
  let height := 0 in
  let height := height + noise gen (x * scale1) (y * scale1) (z * scale1) * 0.5 in
  let height := height + noise gen (x * scale2) (y * scale2) (z * scale2) * 0.25 in
  let height :=
    height
    + noise gen (x * scale3) (y * scale3) (z * scale3) * 0.125
      * mountainDensity settings in
  let height := (height + 1) / 2 in
  Random.ret height.

(** [rounds] rounds of the loop, counting the samples at or above the
    sea level. *)
Fixpoint countLand (rounds : nat) (settings : PlanetSettings)
    (gen : NoiseGenerator) (seaLevel : Q) (landCount : Z) : Random.Rand Z :=
  match rounds with
  | O => Random.ret landCount
  | S rest =>
      height <- sampleHeight settings gen ;;
      countLand rest settings gen seaLevel
        (if geb height seaLevel then (landCount + 1)%Z else landCount)
  end.

Definition calculatePlanetStats (settings : PlanetSettings)
  : Random.Rand PlanetStats :=
  let noise := mkNoiseGenerator (seed settings) in
  let totalSamples := 1000%nat in
  let seaLevel := 1 - landWaterRatio settings in
  landCount <- countLand totalSamples settings noise seaLevel 0 ;;
  let actualLandPercentage :=
    inject_Z landCount / inject_Z (Z.of_nat totalSamples) * 100 in
  let actualWaterPercentage := 100 - actualLandPercentage in
  let climateType :=
    (if ltb (climate settings) 0.2 then "Frozen Arctic"
     else if ltb (climate settings) 0.4 then "Cold Temperate"
     else if ltb (climate settings) 0.6 then "Temperate"
     else if ltb (climate settings) 0.8 then "Warm Arid"
     else "Tropical Verdant")%string in
  let complexityScore :=
    (coastlineComplexity settings + mountainDensity settings) / 2 in
  let terrainComplexity :=
    if ltb complexityScore 0.25 then Low
    else if ltb complexityScore 0.5 then Medium
    else if ltb complexityScore 0.75 then High
    else Extreme in
  let atmosphericConditions :=
    if ltb (atmosphere settings) 0.25 then Thin
    else if ltb (atmosphere settings) 0.5 then Normal
    else if ltb (atmosphere settings) 0.75 then Dense
    else Thick in
  let cloudCoverage :=
    if ltb (clouds settings) 0.2 then Clear
    else if ltb (clouds settings) 0.4 then Light
    else if ltb (clouds settings) 0.6 then Moderate
    else if ltb (clouds settings) 0.8 then Heavy
    else Overcast in
  let approximateSize :=
    (if ltb (atmosphere settings) 0.3 then "Small (Mars-like)"
     else if ltb (atmosphere settings) 0.7 then "Medium (Earth-like)"
     else "Large (Super-Earth)")%string in
  Random.ret
    {| landPercentage := Math_round actualLandPercentage;
       waterPercentage := Math_round actualWaterPercentage;
       climateType := climateType;
       terrainComplexity := terrainComplexity;
       atmosphericConditions := atmosphericConditions;
       cloudCoverage := cloudCoverage;
       approximateSize := approximateSize |}.

Local Close Scope rand_scope.

End Sampling.

End PlanetStats.

(** ** PlanetRenderer.tsx: the texels of the textures *)

Module PlanetRenderer.
Import JS.
Import Terraformer.

(** The four values written to [imageData.data] for one texel. *)
Record Texel : Type := mkTexel {
  red : Q;
  green : Q;
  blue : Q;
  alpha : Q
}.

Section Texels.
Context `{JSMath} `{NoiseLib}.

(** The point of the unit sphere a texel [(x, y)] of a [width] by
    [height] canvas stands for. *)
Definition spherePoint (width height x y : Z) : Q * Q * Q :=
  let u := inject_Z x / inject_Z width in
  let v := inject_Z y / inject_Z height in
  let theta := u * Math_PI * 2 in
  let phi := v * Math_PI in
  (Math_sin phi * Math_cos theta, Math_sin phi * Math_sin theta, Math_cos phi).

(** The body of the two loops of [generatePlanetTexture] at [(x, y)],
    with the palette [getPalette] returned before the loops. *)
Definition planetTexel (planetSettings : PlanetSettings)
    (palette : ColorPalettes.PaletteWithGetColor) (x y : Z) : Texel :=
  let noiseGen := mkNoiseGenerator (seed planetSettings) in
  let '(sphereX, sphereY, sphereZ) := spherePoint 1024 512 x y in
  let scale1 := coastlineComplexity planetSettings * 4 + 1 in
  let scale2 := coastlineComplexity planetSettings * 8 + 2 in
  let scale3 := mountainDensity planetSettings * 16 + 4 in
  let scale4 := mountainDensity planetSettings * 32 + 8 in
  let height := 0 in
  let height :=
    height
    + noise noiseGen (sphereX * scale1) (sphereY * scale1) (sphereZ * scale1) * 0.4 in
  let height :=
    height
    + noise noiseGen (sphereX * scale2) (sphereY * scale2) (sphereZ * scale2) * 0.25 in
  let height :=
    height
    + noise noiseGen (sphereX * scale3) (sphereY * scale3) (sphereZ * scale3) * 0.15
      * mountainDensity planetSettings in
  let height :=
    height
    + noise noiseGen (sphereX * scale4) (sphereY * scale4) (sphereZ * scale4) * 0.1
      * mountainDensity planetSettings in
  let height := (height + 1) / 2 in
  let seaLevel := 1 - landWaterRatio planetSettings in
  let color := ColorPalettes.getColor palette height seaLevel in
  {| red := inject_Z (ColorPalettes.r color);
     green := inject_Z (ColorPalettes.g color);
     blue := inject_Z (ColorPalettes.b color);
     alpha := 255 |}.

(** [generatePlanetTexture(planetSettings)] at a texel: [None] when
    [getPalette] throws. *)
Definition planetTextureAt (planetSettings : PlanetSettings) (x y : Z)
  : option Texel :=
  match ColorPalettes.getPalette (climate planetSettings) with
  | Some palette => Some (planetTexel planetSettings palette x y)
  | None => None
  end.

(** The body of the loops of [generateCloudTexture] at [(x, y)]. *)
Definition cloudTexel (planetSettings : PlanetSettings) (x y : Z) : Texel :=
  let noiseGen := mkNoiseGenerator (seed planetSettings + 1000) in
  let '(sphereX, sphereY, sphereZ) := spherePoint 1024 512 x y in
  let cloudDensity := 0 in
  let cloudDensity :=
    cloudDensity + noise noiseGen (sphereX * 3) (sphereY * 3) (sphereZ * 3) * 0.5 in
  let cloudDensity :=
    cloudDensity + noise noiseGen (sphereX * 6) (sphereY * 6) (sphereZ * 6) * 0.25 in
  let cloudDensity :=
    cloudDensity
    + noise noiseGen (sphereX * 12) (sphereY * 12) (sphereZ * 12) * 0.125 in
  let cloudDensity :=
    cloudDensity
    + noise noiseGen (sphereX * 24) (sphereY * 24) (sphereZ * 24) * 0.0625 in
  let cloudDensity := Math_max 0 ((cloudDensity + 0.3) * 1.5) in
  let alpha := Math_min 255 (cloudDensity * 255 * clouds planetSettings) in
  {| red := 255; green := 255; blue := 255; alpha := alpha |}.

(** The body of the loops of [generateRingTexture] at [(x, y)], on the
    512 by 512 canvas. *)
Definition ringTexel (settings : PlanetSettings) (x y : Z) : Texel :=
  let noiseGen := mkNoiseGenerator (seed settings + 2000) in
  let centerX := 512 / 2 in
  let centerY := 512 / 2 in
  let dx := inject_Z x - centerX in
  let dy := inject_Z y - centerY in
  let distance := Math_sqrt (dx * dx + dy * dy) / centerX in
  let angle := Math_atan2 dy dx in
  if ltb distance 0.4 || gtb distance 0.9 then
    {| red := 0; green := 0; blue := 0; alpha := 0 |}
  else
    let ringNoise :=
      noise noiseGen (Math_cos angle * 10) (Math_sin angle * 10) (distance * 20) in
    let density := (ringNoise + 1) / 2 * ringDensity settings in
    let baseColor :=
      if ltb (climate settings) 0.5
      then (150, 130, 100) else (180, 160, 140) in
    let '(baseR, baseG, baseB) := baseColor in
    {| red := baseR * density;
       green := baseG * density;
       blue := baseB * density;
       alpha := density * 255 |}.

End Texels.

End PlanetRenderer.

(** ** The vocabulary of the properties *)

(** Stand-ins for the two interfaces, to run the program on concrete
    inputs: a flat noise field, and constant functions for [Math], with
    [Math.asin] undefined outside [-1, 1] as in JavaScript. *)
Definition flatMath : JSMath :=
  {| Math_sin := fun _ => 0;
     Math_cos := fun _ => 1;
     Math_asin := fun v => if JS.leb (-1) v && JS.leb v 1 then Some 0 else None;
     Math_atan2 := fun _ _ => 0;
     Math_sqrt := fun _ => 1 |}.

Definition flatNoise : NoiseLib := {| noise3 := fun _ _ _ _ => 0 |}.

(** A stand-in for [Math.acos], as for the rest of [Math]. *)
Definition flatAcos : JSMathAcos := {| Math_acos := fun _ => 0 |}.

Module Vocabulary.
Import JS.

(** A channel within the range two others span. *)
Definition channelBetween (c a b : Z) : Prop :=
  (Z.min a b <= c <= Z.max a b)%Z.

(** A colour lies between two others when every channel is within the
    range the two span. *)
Definition colourBetween (c a b : ColorPalettes.RGB) : Prop :=
  channelBetween (ColorPalettes.r c) (ColorPalettes.r a) (ColorPalettes.r b) /\
  channelBetween (ColorPalettes.g c) (ColorPalettes.g a) (ColorPalettes.g b) /\
  channelBetween (ColorPalettes.b c) (ColorPalettes.b a) (ColorPalettes.b b).

(** A colour lies strictly between two others when every channel is
    within the range the two span and it is neither of them. *)
Definition strictlyBetween (c a b : ColorPalettes.RGB) : Prop :=
  channelBetween (ColorPalettes.r c) (ColorPalettes.r a) (ColorPalettes.r b) /\
  channelBetween (ColorPalettes.g c) (ColorPalettes.g a) (ColorPalettes.g b) /\
  channelBetween (ColorPalettes.b c) (ColorPalettes.b a) (ColorPalettes.b b) /\
  c <> a /\ c <> b.

(** [Math.max(0, Math.min(1, x))], the clamp the sources write out at
    every derived ratio. *)
Definition clamp01 (x : Q) : Q := Math_max 0 (Math_min 1 x).

(** A ratio within its declared bound. *)
Definition unitRange (v : Q) : Prop := 0 <= v /\ v <= 1.


(** Two clock objects that agree on what the evolution reads: the base
    settings, the two noise generators and the current time. *)
Definition sameInputs (a b : TemporalEvolution.TemporalEvolution) : Prop :=
  TemporalEvolution.baseSettings a = TemporalEvolution.baseSettings b /\
  TemporalEvolution.temporalNoise a = TemporalEvolution.temporalNoise b /\
  TemporalEvolution.weatherNoise a = TemporalEvolution.weatherNoise b /\
  TemporalEvolution.currentTime a = TemporalEvolution.currentTime b.

(** Temporal knobs, all six at the given level, the clock running. *)
Definition knobs (level : Q) : TemporalEvolution.TemporalSettings :=
  {| TemporalEvolution.ts_geologicalTime := level;
     TemporalEvolution.ts_weatherCycle := level;
     TemporalEvolution.ts_climaticShift := level;
     TemporalEvolution.ts_erosionLevel := level;
     TemporalEvolution.ts_timeSpeed := 1;
     TemporalEvolution.ts_isPaused := false;
     TemporalEvolution.ts_showTemporalEffects := true;
     TemporalEvolution.ts_tectonicActivity := level;
     TemporalEvolution.ts_oceanLevel := 0;
     TemporalEvolution.ts_atmosphericEvolution := level |}.

(** *** Weather *)

(** The bound on a storm's intensity: spawn makes it 0.5 plus half a
    draw, at most 1, and scales it by 1.2 for a cyclone. *)
Definition intensityBound (t : WeatherSystem.StormType) : Q :=
  match t with
  | WeatherSystem.cyclone => 1.2
  | _ => 1
  end.

(** What holds of every storm of the active set. *)
Definition stormOk (s : WeatherSystem.StormSystem) : Prop :=
  0.1 < WeatherSystem.intensity s /\
  WeatherSystem.intensity s <= intensityBound (WeatherSystem.type s) /\
  0 < WeatherSystem.lifespan s /\
  WeatherSystem.lifespan s < 500.

Section Reachable.
Context `{JSMath} `{NoiseLib}.

(** The weather systems a client can hold: a new one, and what
    [update] (with draws that follow the contract of [Math.random])
    and [reset] make of one. *)
Inductive reachable : WeatherSystem.WeatherSystem -> Prop :=
| reachable_new (seed : Q) : reachable (WeatherSystem.new seed)
| reachable_update (this : WeatherSystem.WeatherSystem) (deltaTime timeSpeed : Q)
    (tape : Random.Tape) :
    reachable this -> Random.valid tape ->
    reachable (fst (WeatherSystem.update deltaTime timeSpeed this tape))
| reachable_reset (this : WeatherSystem.WeatherSystem) :
    reachable this -> reachable (WeatherSystem.reset this).

(** The cell of the temperature lattice a position indexes, when its
    two indices are numbers within the lattice. *)
Definition latticeCell (this : WeatherSystem.WeatherSystem)
    (position : THREE.Vector3) : option Q :=
  match WeatherSystem.latIndexOf position with
  | Some latIndex =>
      match JS.index (WeatherSystem.temperatureMap this) latIndex with
      | Some row => JS.index row (WeatherSystem.lonIndexOf position)
      | None => None
      end
  | None => None
  end.

(** Whether the two indices of a position are numbers within the 36
    rows and 72 columns of the lattice. *)
Definition inLattice (position : THREE.Vector3) : bool :=
  match WeatherSystem.latIndexOf position with
  | Some latIndex =>
      let lonIndex := WeatherSystem.lonIndexOf position in
      (latIndex >=? 0)%Z && (latIndex <? 36)%Z
      && ((lonIndex >=? 0)%Z && (lonIndex <? 72)%Z)
  | None => false
  end.
End Reachable.

(** *** Colours as bytes *)

(** A colour whose three channels fit the bytes of an image. *)
Definition byteRGB (c : ColorPalettes.RGB) : Prop :=
  (0 <= ColorPalettes.r c <= 255)%Z /\
  (0 <= ColorPalettes.g c <= 255)%Z /\
  (0 <= ColorPalettes.b c <= 255)%Z.

Definition bytePalette (p : ColorPalettes.ColorPalette) : Prop :=
  byteRGB (ColorPalettes.deepOcean p) /\
  byteRGB (ColorPalettes.shallowWater p) /\
  byteRGB (ColorPalettes.beach p) /\
  byteRGB (ColorPalettes.lowland p) /\
  byteRGB (ColorPalettes.highland p) /\
  byteRGB (ColorPalettes.mountain p) /\
  byteRGB (ColorPalettes.peak p) /\
  byteRGB (ColorPalettes.polar p).

(** *** The clock and its history *)

(** Two settings that agree on every field the temporal evolution does
    not derive. *)
Definition sameButRatios (a b : Terraformer.PlanetSettings) : Prop :=
  Terraformer.seed a = Terraformer.seed b /\
  Terraformer.rotationSpeed a = Terraformer.rotationSpeed b /\
  Terraformer.dayNightCycle a = Terraformer.dayNightCycle b /\
  Terraformer.animationPaused a = Terraformer.animationPaused b /\
  Terraformer.backgroundType a = Terraformer.backgroundType b /\
  Terraformer.hasRings a = Terraformer.hasRings b /\
  Terraformer.ringDensity a = Terraformer.ringDensity b /\
  Terraformer.hasMoon a = Terraformer.hasMoon b /\
  Terraformer.moonSize a = Terraformer.moonSize b /\
  Terraformer.audioEnabled a = Terraformer.audioEnabled b /\
  Terraformer.audioTrack a = Terraformer.audioTrack b /\
  Terraformer.audioVolume a = Terraformer.audioVolume b /\
  Terraformer.cameraPreset a = Terraformer.cameraPreset b /\
  Terraformer.particleEffects a = Terraformer.particleEffects b /\
  Terraformer.planetSize a = Terraformer.planetSize b /\
  Terraformer.autoOrbit a = Terraformer.autoOrbit b /\
  Terraformer.geologicalTime a = Terraformer.geologicalTime b /\
  Terraformer.weatherCycle a = Terraformer.weatherCycle b /\
  Terraformer.climaticShift a = Terraformer.climaticShift b /\
  Terraformer.erosionLevel a = Terraformer.erosionLevel b /\
  Terraformer.timeSpeed a = Terraformer.timeSpeed b /\
  Terraformer.temporalPaused a = Terraformer.temporalPaused b /\
  Terraformer.showTemporalEffects a = Terraformer.showTemporalEffects b /\
  Terraformer.tectonicActivity a = Terraformer.tectonicActivity b /\
  Terraformer.oceanLevel a = Terraformer.oceanLevel b /\
  Terraformer.atmosphericEvolution a = Terraformer.atmosphericEvolution b.

(** The calls that do not ask the clock to step back: ticks and
    fast-forwards by amounts that are not negative, and every other
    call. *)
Definition forwardOnly (c : TemporalEvolution.call) : bool :=
  match c with
  | TemporalEvolution.CallUpdateTime deltaTime temporalSettings =>
      JS.leb 0 (deltaTime * TemporalEvolution.ts_timeSpeed temporalSettings)
  | TemporalEvolution.CallFastForward duration => JS.leb 0 duration
  | _ => true
  end.

(** The epochs in the order of the table of [getEpochName], and the
    place of a name in it. *)
Definition epochNames : list string :=
  ["Present Era"; "Recent Holocene"; "Pleistocene"; "Quaternary"; "Neogene";
   "Paleogene"; "Mesozoic"; "Paleozoic"]%string.

Fixpoint placeIn (names : list string) (name : string) : nat :=
  match names with
  | [] => 0
  | first :: rest => if String.eqb first name then 0 else S (placeIn rest name)
  end.

Definition epochRank (name : string) : nat := placeIn epochNames name.

(** *** The shape of a storm *)

(** The radius and the lifespan a storm of each type is spawned with. *)
Definition stormShape (s : WeatherSystem.StormSystem) : Prop :=
  match WeatherSystem.type s with
  | WeatherSystem.thunderstorm =>
      (0.1 <= WeatherSystem.radius s /\ WeatherSystem.radius s < 0.4) /\
      (50 <= WeatherSystem.lifespan s /\ WeatherSystem.lifespan s < 250)
  | WeatherSystem.cyclone =>
      (0.15 <= WeatherSystem.radius s /\ WeatherSystem.radius s < 0.6) /\
      (100 <= WeatherSystem.lifespan s /\ WeatherSystem.lifespan s < 500)
  | WeatherSystem.dust =>
      (0.2 <= WeatherSystem.radius s /\ WeatherSystem.radius s < 0.8) /\
      (50 <= WeatherSystem.lifespan s /\ WeatherSystem.lifespan s < 250)
  | WeatherSystem.aurora =>
      (0.05 <= WeatherSystem.radius s /\ WeatherSystem.radius s < 0.2) /\
      (50 <= WeatherSystem.lifespan s /\ WeatherSystem.lifespan s < 250)
  end.

(** The index into the wind field [update] derives from a position. *)
Definition windIndexOf (position : THREE.Vector3) : Z :=
  (JS.Math_floor ((THREE.x position + 1) * 18)
   + JS.Math_floor ((THREE.y position + 1) * 18) * 36)%Z.

(** The totals of the sampling loop of [getWeatherStats] after [rounds]
    rounds: each sum is between 0 and the number of rounds, and the two
    temperature bounds are numbers within [0, 1], in order once a sample
    has been taken. *)
Definition totalsAfter (rounds : nat) (totals : WeatherSystem.WeatherTotals) : Prop :=
  (0 <= WeatherSystem.totalCloudCover totals /\
   WeatherSystem.totalCloudCover totals <= inject_Z (Z.of_nat rounds)) /\
  (0 <= WeatherSystem.totalWindSpeed totals /\
   WeatherSystem.totalWindSpeed totals <= inject_Z (Z.of_nat rounds)) /\
  exists lo hi,
    WeatherSystem.minTemp totals = Some lo /\
    WeatherSystem.maxTemp totals = Some hi /\
    0 <= lo /\ lo <= 1 /\ 0 <= hi /\ hi <= 1 /\
    ((0 < rounds)%nat -> lo <= hi).

End Vocabulary.

(* ================================================================= *)
(** * Part II: properties *)
(* ================================================================= *)

(** ** Facts about JavaScript comparisons and the clamp *)

Lemma ltb_lt (a b : Q) : JS.ltb a b = true <-> a < b.
Proof.
  unfold JS.ltb. rewrite negb_true_iff, <- not_true_iff_false, Qle_bool_iff.
  split; [apply Qnot_le_lt | apply Qlt_not_le].
Qed.

Lemma ltb_ge (a b : Q) : JS.ltb a b = false <-> b <= a.
Proof.
  unfold JS.ltb. rewrite negb_false_iff. apply Qle_bool_iff.
Qed.

Lemma gtb_gt (a b : Q) : JS.gtb a b = true <-> b < a.
Proof. apply ltb_lt. Qed.

Lemma gtb_le (a b : Q) : JS.gtb a b = false <-> a <= b.
Proof. apply ltb_ge. Qed.

(** Case analysis on a comparison, leaving the order fact in the context. *)
Ltac case_ltb a b :=
  let E := fresh "Hcmp" in
  destruct (JS.ltb a b) eqn:E;
  [apply ltb_lt in E | apply ltb_ge in E].

Lemma Math_max_lower (a b : Q) : a <= JS.Math_max a b.
Proof. unfold JS.Math_max. case_ltb a b; lra. Qed.

Lemma Math_max_upper (a b c : Q) : a <= c -> b <= c -> JS.Math_max a b <= c.
Proof. unfold JS.Math_max. case_ltb a b; lra. Qed.

Lemma Math_min_upper (a b : Q) : JS.Math_min a b <= a.
Proof. unfold JS.Math_min. case_ltb b a; lra. Qed.

Lemma clamp01_range (x : Q) :
  0 <= Vocabulary.clamp01 x /\ Vocabulary.clamp01 x <= 1.
Proof.
  unfold Vocabulary.clamp01. split.
  - apply Math_max_lower.
  - apply Math_max_upper; [lra | apply Math_min_upper].
Qed.

(** ** Rounding and fractions *)

Lemma Qfloor_between (v : Q) (z : Z) :
  inject_Z z <= v -> v < inject_Z (z + 1) -> Qfloor v = z.
Proof.
  intros Hlo Hhi.
  pose proof (Qfloor_le v) as Hfl. pose proof (Qlt_floor v) as Hfu.
  assert (inject_Z z < inject_Z (Qfloor v + 1)) by lra.
  assert (inject_Z (Qfloor v) < inject_Z (z + 1)) by lra.
  rewrite <- Zlt_Qlt in *. lia.
Qed.

Lemma Math_round_integer (z : Z) : JS.Math_round (inject_Z z) = z.
Proof.
  unfold JS.Math_round. apply Qfloor_between.
  - lra.
  - rewrite inject_Z_plus. change (inject_Z 1) with 1. lra.
Qed.

Lemma Math_round_monotone (v w : Q) :
  v <= w -> (JS.Math_round v <= JS.Math_round w)%Z.
Proof. intros Hle. unfold JS.Math_round. apply Qfloor_resp_le. lra. Qed.

(** A quotient of a part by the positive whole is a fraction. *)
Lemma fraction_of_width (a w : Q) :
  0 < w -> 0 <= a -> a <= w -> 0 <= a / w /\ a / w <= 1.
Proof.
  intros Hw Ha Haw. split.
  - apply Qle_shift_div_l; lra.
  - apply Qle_shift_div_r; lra.
Qed.

(** ** ColorPalettes *)

Section PaletteProperties.
Import JS ColorPalettes Vocabulary.

Lemma interpolateColor_comp (c1 c2 : RGB) (f f' : Q) :
  f == f' -> interpolateColor c1 c2 f = interpolateColor c1 c2 f'.
Proof.
  intros E. unfold interpolateColor, Math_round.
  f_equal; apply Qfloor_comp; rewrite E; reflexivity.
Qed.

Lemma Math_round_lower (z : Z) (v : Q) :
  inject_Z z <= v -> (z <= Math_round v)%Z.
Proof.
  intros Hle. rewrite <- (Math_round_integer z).
  apply Math_round_monotone. exact Hle.
Qed.

Lemma Math_round_upper (z : Z) (v : Q) :
  v <= inject_Z z -> (Math_round v <= z)%Z.
Proof.
  intros Hle. rewrite <- (Math_round_integer z).
  apply Math_round_monotone. exact Hle.
Qed.

Lemma channel_between (a b : Z) (f : Q) :
  0 <= f -> f <= 1 ->
  channelBetween (Math_round (inject_Z a + (inject_Z b - inject_Z a) * f)) a b.
Proof.
  intros H0 H1. unfold channelBetween.
  destruct (Z.le_ge_cases a b) as [Hab | Hab].
  - rewrite Z.min_l, Z.max_r by lia.
    assert (Hq : inject_Z a <= inject_Z b) by (rewrite <- Zle_Qle; exact Hab).
    split; [apply Math_round_lower | apply Math_round_upper]; nra.
  - rewrite Z.min_r, Z.max_l by lia.
    assert (Hq : inject_Z b <= inject_Z a) by (rewrite <- Zle_Qle; lia).
    split; [apply Math_round_lower | apply Math_round_upper]; nra.
Qed.

(** The four bands of [getColorForHeight] met at sea level 0.5. *)
Lemma getColorForHeight_deep (p : ColorPalette) (h s : Q) :
  h < s * 0.7 -> getColorForHeight p h s = deepOcean p.
Proof.
  intros Hh. unfold getColorForHeight.
  case_ltb h (s * 0.7); [reflexivity | lra].
Qed.

Lemma getColorForHeight_shallow (p : ColorPalette) (h s : Q) :
  s * 0.7 <= h -> h < s ->
  getColorForHeight p h s =
  interpolateColor (deepOcean p) (shallowWater p) ((h - s * 0.7) / (s * 0.3)).
Proof.
  intros H1 H2. unfold getColorForHeight.
  case_ltb h (s * 0.7); [lra |].
  case_ltb h s; [reflexivity | lra].
Qed.

Lemma getColorForHeight_highland (p : ColorPalette) (h s : Q) :
  0 <= s -> s + 0.3 <= h -> h < s + 0.5 ->
  getColorForHeight p h s =
  interpolateColor (lowland p) (highland p) ((h - s - 0.3) / 0.2).
Proof.
  intros H0 H1 H2. unfold getColorForHeight.
  case_ltb h (s * 0.7); [lra |].
  case_ltb h s; [lra |].
  case_ltb h (s + 0.05); [lra |].
  case_ltb h (s + 0.3); [lra |].
  case_ltb h (s + 0.5); [reflexivity | lra].
Qed.

Lemma getColorForHeight_polar (p : ColorPalette) (h s : Q) :
  0 <= s -> s + 0.9 <= h -> getColorForHeight p h s = polar p.
Proof.
  intros H0 H1. unfold getColorForHeight.
  case_ltb h (s * 0.7); [lra |].
  case_ltb h s; [lra |].
  case_ltb h (s + 0.05); [lra |].
  case_ltb h (s + 0.3); [lra |].
  case_ltb h (s + 0.5); [lra |].
  case_ltb h (s + 0.7); [lra |].
  case_ltb h (s + 0.9); [lra | reflexivity].
Qed.

(** The closure of a returned palette is [getColorForHeight] on its own
    colours. *)
Lemma getPalette_getColor (climate : Q) (p : PaletteWithGetColor) :
  getPalette climate = Some p ->
  forall h s, getColor p h s = getColorForHeight (colors p) h s.
Proof.
  unfold getPalette. intros Hp h s.
  destruct (if (_ >=? _)%Z then _ else _) as [[p1 p2] |]; [| discriminate].
  injection Hp as <-. reflexivity.
Qed.

(** [getPalette] returns a palette for every climate that is not
    negative. *)
Lemma getPalette_total (climate : Q) :
  0 <= climate -> exists p, getPalette climate = Some p.
Proof.
  intros Hc. unfold getPalette.
  set (scaled := climate * inject_Z (JS.length palettes - 1)).
  assert (Hidx : (0 <= Math_floor scaled)%Z).
  { unfold Math_floor. rewrite <- (Qfloor_Z 0). apply Qfloor_resp_le.
    unfold scaled. change (inject_Z (JS.length palettes - 1)) with (3 # 1).
    change (inject_Z 0) with 0. nra. }
  destruct (Math_floor scaled >=? JS.length palettes - 1)%Z eqn:E.
  - cbn. eexists. reflexivity.
  - change (JS.length palettes - 1)%Z with 3%Z in E.
    assert (Hcases : (Math_floor scaled = 0 \/ Math_floor scaled = 1
                      \/ Math_floor scaled = 2)%Z) by lia.
    destruct Hcases as [-> | [-> | ->]]; cbn; eexists; reflexivity.
Qed.

(** Interpolating with a factor between 0 and 1 stays between the two
    colours. *)
Lemma interpolateColor_between (c1 c2 : RGB) (f : Q) :
  0 <= f -> f <= 1 -> colourBetween (interpolateColor c1 c2 f) c1 c2.
Proof.
  intros H0 H1. unfold colourBetween, interpolateColor. cbn [r g b].
  repeat split; apply channel_between; assumption.
Qed.

Lemma fraction_range (v : Q) :
  0 <= v - inject_Z (Math_floor v) /\ v - inject_Z (Math_floor v) <= 1.
Proof.
  unfold Math_floor.
  pose proof (Qfloor_le v). pose proof (Qlt_floor v).
  rewrite inject_Z_plus in *. change (inject_Z 1) with 1 in *. split; lra.
Qed.

(** The palette [getPalette] returns interpolates two neighbours of the
    table, or the last palette with itself, at a fraction between 0 and
    1. *)
Lemma getPalette_pair (climate : Q) (p : PaletteWithGetColor) :
  getPalette climate = Some p ->
  exists p1 p2 f,
    0 <= f /\ f <= 1 /\
    In (p1, p2) [(icy, temperate); (temperate, arid); (arid, verdant);
                 (verdant, verdant)] /\
    lowland (colors p) = interpolateColor (lowland p1) (lowland p2) f /\
    highland (colors p) = interpolateColor (highland p1) (highland p2) f /\
    polar (colors p) = interpolateColor (polar p1) (polar p2) f.
Proof.
  unfold getPalette. intros Hp.
  set (scaled := climate * inject_Z (JS.length palettes - 1)) in *.
  destruct (fraction_range scaled) as [Hf0 Hf1].
  set (fraction := scaled - inject_Z (Math_floor scaled)) in *.
  change (JS.length palettes - 1)%Z with 3%Z in Hp.
  destruct (Math_floor scaled >=? 3)%Z eqn:E.
  - change (JS.index palettes 3) with (Some verdant) in Hp. cbv beta iota in Hp.
    injection Hp as <-. exists verdant, verdant, fraction. cbn [colors lowland highland polar].
    repeat split; try assumption. cbn. tauto.
  - rewrite Z.geb_leb in E. apply Z.leb_gt in E.
    destruct (Math_floor scaled <? 0)%Z eqn:Eneg.
    + unfold JS.index in Hp. rewrite Eneg in Hp. discriminate.
    + apply Z.ltb_ge in Eneg.
      assert (Hcases : (Math_floor scaled = 0 \/ Math_floor scaled = 1
                        \/ Math_floor scaled = 2)%Z) by lia.
      destruct Hcases as [Ei | [Ei | Ei]]; rewrite Ei in Hp;
        cbn [JS.index Z.ltb Z.compare Z.add Z.to_nat Pos.to_nat Pos.iter_op
             Pos.add Pos.succ Init.Nat.add nth_error palettes] in Hp;
        cbv beta iota in Hp; injection Hp as <-;
        [exists icy, temperate, fraction | exists temperate, arid, fraction
         | exists arid, verdant, fraction];
        cbn [colors lowland highland polar];
        (repeat split; try assumption); cbn; tauto.
Qed.

(** In every returned palette the blue of the polar colour is above the
    blue of the lowland and of the highland colour: the table keeps them
    at least 4 apart, in both palettes of every pair. *)
Lemma polar_blue_above (climate : Q) (p : PaletteWithGetColor) :
  getPalette climate = Some p ->
  (b (lowland (colors p)) < b (polar (colors p)) /\
   b (highland (colors p)) < b (polar (colors p)))%Z.
Proof.
  intros Hp.
  destruct (getPalette_pair climate p Hp)
    as (p1 & p2 & f & H0 & H1 & Hin & -> & -> & ->).
  unfold interpolateColor. cbn [b].
  cbn [In] in Hin.
  destruct Hin as [E | [E | [E | [E | []]]]]; injection E as <- <-;
    cbn [b lowland highland polar icy temperate arid verdant].
  - assert (Hp' : (255 <= Math_round (inject_Z 255 + (inject_Z 255 - inject_Z 255) * f))%Z)
      by (apply Math_round_lower; lra).
    assert (Hl : (Math_round (inject_Z 250 + (inject_Z 34 - inject_Z 250) * f) <= 250)%Z)
      by (apply Math_round_upper; change (inject_Z 250) with 250;
          change (inject_Z 34) with 34; nra).
    assert (Hh : (Math_round (inject_Z 240 + (inject_Z 35 - inject_Z 240) * f) <= 240)%Z)
      by (apply Math_round_upper; change (inject_Z 240) with 240;
          change (inject_Z 35) with 35; nra).
    lia.
  - assert (Hp' : (181 <= Math_round (inject_Z 255 + (inject_Z 181 - inject_Z 255) * f))%Z)
      by (apply Math_round_lower; change (inject_Z 255) with 255;
          change (inject_Z 181) with 181; nra).
    assert (Hl : (Math_round (inject_Z 34 + (inject_Z 140 - inject_Z 34) * f) <= 140)%Z)
      by (apply Math_round_upper; change (inject_Z 140) with 140;
          change (inject_Z 34) with 34; nra).
    assert (Hh : (Math_round (inject_Z 35 + (inject_Z 63 - inject_Z 35) * f) <= 63)%Z)
      by (apply Math_round_upper; change (inject_Z 63) with 63;
          change (inject_Z 35) with 35; nra).
    lia.
  - assert (Hp' : (144 <= Math_round (inject_Z 181 + (inject_Z 144 - inject_Z 181) * f))%Z)
      by (apply Math_round_lower; change (inject_Z 144) with 144;
          change (inject_Z 181) with 181; nra).
    assert (Hl : (Math_round (inject_Z 140 + (inject_Z 0 - inject_Z 140) * f) <= 140)%Z)
      by (apply Math_round_upper; change (inject_Z 140) with 140;
          change (inject_Z 0) with 0; nra).
    assert (Hh : (Math_round (inject_Z 63 + (inject_Z 34 - inject_Z 63) * f) <= 63)%Z)
      by (apply Math_round_upper; change (inject_Z 63) with 63;
          change (inject_Z 34) with 34; nra).
    lia.
  - assert (Hp' : (144 <= Math_round (inject_Z 144 + (inject_Z 144 - inject_Z 144) * f))%Z)
      by (apply Math_round_lower; lra).
    assert (Hl : (Math_round (inject_Z 0 + (inject_Z 0 - inject_Z 0) * f) <= 0)%Z)
      by (apply Math_round_upper; change (inject_Z 0) with 0; lra).
    assert (Hh : (Math_round (inject_Z 34 + (inject_Z 34 - inject_Z 34) * f) <= 34)%Z)
      by (apply Math_round_upper; lra).
    lia.
Qed.

End PaletteProperties.

(** C1 (as stated, refuted): at climate 0 the returned palette maps height
    0.3 at sea level 0.5 to the deepOcean colour itself, which is not
    strictly between deepOcean and shallowWater, and maps height 0.95 to a
    colour other than polar. *)
Lemma C1_banding_counterexample :
  exists p,
    ColorPalettes.getPalette 0 = Some p /\
    ColorPalettes.getColor p 0.3 0.5 = ColorPalettes.deepOcean (ColorPalettes.colors p) /\
    ~ Vocabulary.strictlyBetween (ColorPalettes.getColor p 0.3 0.5)
        (ColorPalettes.deepOcean (ColorPalettes.colors p))
        (ColorPalettes.shallowWater (ColorPalettes.colors p)) /\
    ColorPalettes.getColor p 0.95 0.5 = ColorPalettes.mkRGB 249 245 243 /\
    ColorPalettes.getColor p 0.95 0.5 <> ColorPalettes.polar (ColorPalettes.colors p).
Proof.
  eexists. split; [reflexivity |].
  repeat split.
  - intros (_ & _ & _ & Hne & _). apply Hne. reflexivity.
  - discriminate.
Qed.

(** C1 (amended): for every palette [getPalette] returns, at sea level 0.5
    height 0.3 is in the deep-ocean band and gets the deepOcean colour
    itself; a height from 0.35 up to 0.5 gets a colour between deepOcean
    and shallowWater; height 0.95 is in the lowland-to-highland band: its
    colour is between lowland and highland and is not the polar colour,
    whose blue is above both; the polar colour is returned from height
    1.4 on. *)
Theorem C1_banding_at_half_sea_level (climate : Q) (p : ColorPalettes.PaletteWithGetColor) :
  ColorPalettes.getPalette climate = Some p ->
  let pal := ColorPalettes.colors p in
  ColorPalettes.getColor p 0.3 0.5 = ColorPalettes.deepOcean pal /\
  (forall h, 0.35 <= h -> h < 0.5 ->
     Vocabulary.colourBetween (ColorPalettes.getColor p h 0.5)
       (ColorPalettes.deepOcean pal) (ColorPalettes.shallowWater pal)) /\
  Vocabulary.colourBetween (ColorPalettes.getColor p 0.95 0.5)
    (ColorPalettes.lowland pal) (ColorPalettes.highland pal) /\
  ColorPalettes.getColor p 0.95 0.5 <> ColorPalettes.polar pal /\
  (forall h, 1.4 <= h ->
     ColorPalettes.getColor p h 0.5 = ColorPalettes.polar pal).
Proof.
  intros Hp pal.
  pose proof (getPalette_getColor climate p Hp) as Hget.
  assert (Hhigh : Vocabulary.colourBetween (ColorPalettes.getColor p 0.95 0.5)
                    (ColorPalettes.lowland pal) (ColorPalettes.highland pal)).
  { rewrite Hget. rewrite getColorForHeight_highland by lra.
    apply interpolateColor_between.
    - apply Qle_shift_div_l; lra.
    - apply Qle_shift_div_r; lra. }
  split; [| split; [| split; [exact Hhigh | split]]].
  - rewrite Hget. apply getColorForHeight_deep. lra.
  - intros h H1 H2. rewrite Hget.
    rewrite getColorForHeight_shallow by lra.
    apply interpolateColor_between.
    + apply Qle_shift_div_l; lra.
    + apply Qle_shift_div_r; lra.
  - intros Heq. rewrite Heq in Hhigh.
    destruct Hhigh as (_ & _ & Hb).
    destruct (polar_blue_above climate p Hp) as [Hl Hh].
    unfold Vocabulary.channelBetween in Hb. fold pal in Hl, Hh. lia.
  - intros h H1. rewrite Hget. apply getColorForHeight_polar; lra.
Qed.

(** The amended banding holds of the Icy palette, returned at climate 0. *)
Lemma C1_banding_at_half_sea_level_witness :
  exists p,
    ColorPalettes.getPalette 0 = Some p /\
    ColorPalettes.getColor p 0.3 0.5 = ColorPalettes.mkRGB 25 25 112 /\
    Vocabulary.colourBetween (ColorPalettes.getColor p 0.4 0.5)
      (ColorPalettes.mkRGB 25 25 112) (ColorPalettes.mkRGB 65 105 225) /\
    Vocabulary.colourBetween (ColorPalettes.getColor p 0.95 0.5)
      (ColorPalettes.mkRGB 230 230 250) (ColorPalettes.mkRGB 255 250 240) /\
    ColorPalettes.getColor p 0.95 0.5 <> ColorPalettes.mkRGB 255 255 255 /\
    ColorPalettes.getColor p 1.5 0.5 = ColorPalettes.mkRGB 255 255 255.
Proof.
  eexists. split; [reflexivity |].
  pose proof (C1_banding_at_half_sea_level 0 _ eq_refl) as (H1 & H2 & H3 & H4 & H5).
  split; [exact H1 |].
  split; [exact (H2 0.4 ltac:(lra) ltac:(lra)) |].
  split; [exact H3 |].
  split; [exact H4 |].
  rewrite (H5 1.5) by lra. reflexivity.
Defined.

(** ** TemporalEvolution: the clock *)

Section ClockProperties.
Import JS Terraformer TemporalEvolution.

Lemma Math_max_Qmax (a b : Q) : Math_max a b == Qmax a b.
Proof.
  unfold Math_max. case_ltb a b.
  - symmetry. apply Q.max_r. lra.
  - symmetry. apply Q.max_l. exact Hcmp.
Qed.

(** The three tiers a time of a quarter of a million years passes. *)
Lemma timeDescription_tier (this : TemporalEvolution) :
  100000 <= currentTime this -> currentTime this < 1000000 ->
  getTimeDescription this =
  (string_of_tenths (Math_floor (currentTime this / 100000)) ++ "M years")%string.
Proof.
  intros Hlo Hhi. unfold getTimeDescription.
  case_ltb (currentTime this) 100; [lra |].
  case_ltb (currentTime this) 100000; [lra |].
  case_ltb (currentTime this) 1000000; [reflexivity | lra].
Qed.

End ClockProperties.

(** C3 (as stated, refuted): a clock fast-forwarded from 0 to 250,000
    years describes its time as "0.2M years", not as "2.5M years". *)
Lemma C3_timeDescription_counterexample :
  let clock :=
    TemporalEvolution.fastForward 250000
      (TemporalEvolution.new (Terraformer.defaultSettings 42)) in
  TemporalEvolution.currentTime clock == 250000 /\
  TemporalEvolution.getTimeDescription clock = "0.2M years"%string /\
  TemporalEvolution.getTimeDescription clock <> "2.5M years"%string.
Proof.
  cbv zeta. split; [reflexivity |]. split; [reflexivity | discriminate].
Qed.

(** C3 (amended): when the current time equals 250,000 simulated years,
    [getTimeDescription] returns "0.2M years": the time divided by 100,000
    and floored, 2, shown as tenths of a million. *)
Theorem C3_timeDescription_quarter_million (this : TemporalEvolution.TemporalEvolution) :
  TemporalEvolution.currentTime this == 250000 ->
  TemporalEvolution.getTimeDescription this = "0.2M years"%string.
Proof.
  intros Ht. rewrite timeDescription_tier by lra.
  unfold JS.Math_floor.
  rewrite (Qfloor_comp _ (250000 / 100000)) by (rewrite Ht; reflexivity).
  reflexivity.
Qed.

(** The amended description at a clock fast-forwarded to 250,000 years. *)
Lemma C3_timeDescription_quarter_million_witness :
  TemporalEvolution.getTimeDescription
    (TemporalEvolution.fastForward 250000
       (TemporalEvolution.new (Terraformer.defaultSettings 42)))
  = "0.2M years"%string.
Proof.
  apply C3_timeDescription_quarter_million. reflexivity.
Defined.

(** C10: [rewind(d)] sets the current time to [max(0, t - d)], whatever
    the run state; the new time is never negative, and nothing else of
    the object changes. *)
Theorem C10_rewind_clamps_at_zero (this : TemporalEvolution.TemporalEvolution) (d : Q) :
  let this' := TemporalEvolution.rewind d this in
  TemporalEvolution.currentTime this' = JS.Math_max 0 (TemporalEvolution.currentTime this - d) /\
  TemporalEvolution.currentTime this' == Qmax 0 (TemporalEvolution.currentTime this - d) /\
  0 <= TemporalEvolution.currentTime this' /\
  TemporalEvolution.baseSettings this' = TemporalEvolution.baseSettings this /\
  TemporalEvolution.snapshots this' = TemporalEvolution.snapshots this.
Proof.
  cbv zeta. unfold TemporalEvolution.rewind. cbn.
  repeat split.
  - apply Math_max_Qmax.
  - apply Math_max_lower.
Qed.

(** The clock moves backward under [rewind]: from 10 years, rewinding 3
    gives 7, and rewinding 20 stops at 0. *)
Example rewind_moves_backward :
  let clock :=
    TemporalEvolution.fastForward 10
      (TemporalEvolution.new (Terraformer.defaultSettings 42)) in
  TemporalEvolution.currentTime (TemporalEvolution.rewind 3 clock) == 7 /\
  TemporalEvolution.currentTime (TemporalEvolution.rewind 20 clock) == 0.
Proof. cbv zeta. split; reflexivity. Qed.

(** The two epoch scenarios of the specification: 50 years are in the
    "Present Era", two million years in the "Neogene". *)
Example epochName_scenarios :
  TemporalEvolution.getEpochName
    (TemporalEvolution.fastForward 50
       (TemporalEvolution.new (Terraformer.defaultSettings 42)))
  = "Present Era"%string /\
  TemporalEvolution.getEpochName
    (TemporalEvolution.fastForward 2000000
       (TemporalEvolution.new (Terraformer.defaultSettings 42)))
  = "Neogene"%string.
Proof. split; reflexivity. Qed.

(** ** TemporalEvolution: the evolved settings *)

Section EvolutionProperties.
Import JS Terraformer TemporalEvolution Vocabulary.
Context `{JSMath} `{NoiseLib}.







(** The three later branches leave the geological fields alone. *)
Lemma later_branches_frame this ts time evolved :
  let after :=
    let evolved :=
      if gtb (ts_climaticShift ts) 0
      then climaticEvolution this ts time evolved else evolved in
    let evolved :=
      if gtb (ts_atmosphericEvolution ts) 0
      then atmosphericEvolutionStep this ts time evolved else evolved in
    if gtb (ts_weatherCycle ts) 0
    then weatherCycleStep this ts time evolved else evolved in
  mountainDensity after = mountainDensity evolved /\
  coastlineComplexity after = coastlineComplexity evolved /\
  landWaterRatio after = landWaterRatio evolved.
Proof.
  cbv zeta.
  destruct (gtb (ts_climaticShift ts) 0), (gtb (ts_atmosphericEvolution ts) 0),
    (gtb (ts_weatherCycle ts) 0); cbn; repeat split.
Qed.

(** The calls that hold the clock keep the base settings, the two noise
    generators and the current time. *)
Lemma exec_holdsClock (c : call) (this : TemporalEvolution) :
  holdsClock c = true -> sameInputs (exec c this) this.
Proof.
  unfold sameInputs.
  destruct c; cbn; try discriminate; intros Hhold; try (repeat split; fail).
  - unfold updateTime. rewrite Hhold. cbn. repeat split.
  - unfold saveSnapshot.
    destruct (_ >? _)%Z; cbn; repeat split.
Qed.

Lemma execAll_holdsClock (cs : list call) (this : TemporalEvolution) :
  forallb holdsClock cs = true -> sameInputs (execAll cs this) this.
Proof.
  revert this. induction cs as [| c cs IH]; intros this Hall.
  - repeat split.
  - cbn in Hall. apply andb_true_iff in Hall as [Hc Hcs].
    unfold execAll. cbn. fold (execAll cs (exec c this)).
    destruct (IH (exec c this) Hcs) as (E1 & E2 & E3 & E4).
    destruct (exec_holdsClock c this Hc) as (F1 & F2 & F3 & F4).
    unfold sameInputs. rewrite E1, E2, E3, E4. repeat split; assumption.
Qed.

(** The evolved settings are a function of the base settings, the noise
    generators and the current time: the snapshots play no part. *)
Lemma getTemporallyEvolvedSettings_inputs (a b : TemporalEvolution) ts :
  sameInputs a b ->
  getTemporallyEvolvedSettings a ts = getTemporallyEvolvedSettings b ts.
Proof.
  intros (E1 & E2 & E3 & E4).
  unfold getTemporallyEvolvedSettings, geologicalEvolution, climaticEvolution,
    atmosphericEvolutionStep, weatherCycleStep.
  rewrite E1, E2, E3, E4. reflexivity.
Qed.


(** C7: with [geologicalTime = 0] the geological branch is not taken,
    and the evolved mountainDensity, coastlineComplexity and
    landWaterRatio are the base values. *)
Theorem C7_no_geology_frame (this : TemporalEvolution) (ts : TemporalSettings) :
  ts_geologicalTime ts == 0 ->
  let evolved := getTemporallyEvolvedSettings this ts in
  mountainDensity evolved = mountainDensity (baseSettings this) /\
  coastlineComplexity evolved = coastlineComplexity (baseSettings this) /\
  landWaterRatio evolved = landWaterRatio (baseSettings this).
Proof.
  intros Hgeo. cbv zeta. unfold getTemporallyEvolvedSettings.
  assert (Hbranch : gtb (ts_geologicalTime ts) 0 = false)
    by (apply gtb_le; lra).
  rewrite Hbranch.
  apply (later_branches_frame this ts (currentTime this) (baseSettings this)).
Qed.

(** C8: the evolved settings are recomputed from the base settings, the
    current time and the temporal settings.  After any calls that hold
    the clock (reads, snapshots, ticks of a paused clock) the same
    temporal settings give the same result; in particular two calls in
    a row do. *)
Theorem C8_evolution_recomputed (this : TemporalEvolution) (ts : TemporalSettings)
    (cs : list call) :
  forallb holdsClock cs = true ->
  getTemporallyEvolvedSettings
    (execAll (CallGetTemporallyEvolvedSettings ts :: cs) this) ts
  = getTemporallyEvolvedSettings this ts.
Proof.
  intros Hall. apply getTemporallyEvolvedSettings_inputs.
  apply (execAll_holdsClock (CallGetTemporallyEvolvedSettings ts :: cs)).
  exact Hall.
Qed.

End EvolutionProperties.



Lemma C7_no_geology_frame_witness :
  Terraformer.mountainDensity
    (@TemporalEvolution.getTemporallyEvolvedSettings flatMath flatNoise
       (TemporalEvolution.fastForward 1234
          (TemporalEvolution.new (Terraformer.defaultSettings 42)))
       (Vocabulary.knobs 0))
  = 0.3.
Proof.
  apply (@C7_no_geology_frame flatMath flatNoise
           (TemporalEvolution.fastForward 1234
              (TemporalEvolution.new (Terraformer.defaultSettings 42)))
           (Vocabulary.knobs 0)).
  reflexivity.
Defined.

Lemma C8_evolution_recomputed_witness :
  let clock :=
    TemporalEvolution.fastForward 1234
      (TemporalEvolution.new (Terraformer.defaultSettings 42)) in
  @TemporalEvolution.getTemporallyEvolvedSettings flatMath flatNoise
    (TemporalEvolution.execAll
       [TemporalEvolution.CallGetTemporallyEvolvedSettings (Vocabulary.knobs 1);
        TemporalEvolution.CallSaveSnapshot;
        TemporalEvolution.CallGetTimeDescription]
       clock)
    (Vocabulary.knobs 1)
  = @TemporalEvolution.getTemporallyEvolvedSettings flatMath flatNoise clock
      (Vocabulary.knobs 1).
Proof.
  cbv zeta.
  apply (@C8_evolution_recomputed flatMath flatNoise).
  reflexivity.
Defined.

(** ** WeatherSystem: storms *)

Section StormProperties.
Import JS THREE WeatherSystem Vocabulary.

Lemma valid_tail (tape : Random.Tape) :
  Random.valid tape -> Random.valid (fun n => tape (S n)).
Proof. intros Hv n. apply Hv. Qed.

(** What a tick does to one storm: its type and lifespan stay, its age
    advances by [deltaTime * timeSpeed], and its intensity is the old
    one rescaled by the envelope factor of the new age. *)
Lemma stepStorm_type this dt ts s : type (stepStorm this dt ts s) = type s.
Proof.
  unfold stepStorm. cbv zeta.
  repeat match goal with
         | |- context [if ?c then _ else _] => destruct c
         | |- context [match ?o with Some _ => _ | None => _ end] => destruct o
         end; reflexivity.
Qed.

Lemma stepStorm_lifespan this dt ts s :
  lifespan (stepStorm this dt ts s) = lifespan s.
Proof.
  unfold stepStorm. cbv zeta.
  repeat match goal with
         | |- context [if ?c then _ else _] => destruct c
         | |- context [match ?o with Some _ => _ | None => _ end] => destruct o
         end; reflexivity.
Qed.

Lemma stepStorm_age this dt ts s :
  age (stepStorm this dt ts s) = age s + dt * ts.
Proof.
  unfold stepStorm. cbv zeta.
  repeat match goal with
         | |- context [if ?c then _ else _] => destruct c
         | |- context [match ?o with Some _ => _ | None => _ end] => destruct o
         end; reflexivity.
Qed.

Lemma stepStorm_intensity this dt ts s :
  let a := age s + dt * ts in
  intensity (stepStorm this dt ts s) =
  if ltb a (lifespan s * 0.2) then
    a / (lifespan s * 0.2) * intensity s
  else if gtb a (lifespan s * 0.8) then
    intensity s * (1 - (a - lifespan s * 0.8) / (lifespan s * 0.2))
  else intensity s.
Proof.
  unfold stepStorm. cbv zeta.
  destruct (_ && _); [destruct (JS.index _ _) |];
    cbn [age lifespan intensity set_age set_rotation set_position];
    repeat match goal with
           | |- context [if ?c then _ else _] => destruct c
           end; reflexivity.
Qed.

(** The envelope factor is below 1 outside the steady phase, so a tick
    never raises the intensity of a storm that has one. *)
Lemma growing_factor_lt_1 (a l : Q) :
  0 < l -> a < l * 0.2 -> a / (l * 0.2) < 1.
Proof.
  intros Hl Ha. apply Qlt_shift_div_r; lra.
Qed.

Lemma dissipation_factor_lt_1 (a l : Q) :
  0 < l -> l * 0.8 < a -> 1 - (a - l * 0.8) / (l * 0.2) < 1.
Proof.
  intros Hl Ha.
  assert (0 < (a - l * 0.8) / (l * 0.2)) by (apply Qlt_shift_div_l; lra).
  lra.
Qed.

Lemma stepStorm_intensity_le this dt ts s :
  0 < lifespan s -> 0 < intensity s ->
  intensity (stepStorm this dt ts s) <= intensity s.
Proof.
  intros Hl Hi. rewrite stepStorm_intensity. cbv zeta.
  case_ltb (age s + dt * ts) (lifespan s * 0.2).
  - pose proof (growing_factor_lt_1 _ _ Hl Hcmp). nra.
  - destruct (gtb _ _) eqn:Hg.
    + apply gtb_gt in Hg.
      pose proof (dissipation_factor_lt_1 _ _ Hl Hg). nra.
    + lra.
Qed.

(** In the growing phase the intensity strictly drops at every tick. *)
Lemma stepStorm_growing_drops this dt ts s :
  0 < lifespan s -> 0 < intensity s ->
  age s + dt * ts < lifespan s * 0.2 ->
  intensity (stepStorm this dt ts s) < intensity s.
Proof.
  intros Hl Hi Ha. rewrite stepStorm_intensity. cbv zeta.
  case_ltb (age s + dt * ts) (lifespan s * 0.2); [| lra].
  pose proof (growing_factor_lt_1 _ _ Hl Hcmp). nra.
Qed.

Lemma keepStorm_true (s : StormSystem) :
  keepStorm s = true <-> age s < lifespan s /\ 0.1 < intensity s.
Proof.
  unfold keepStorm. rewrite andb_true_iff, ltb_lt, gtb_gt. reflexivity.
Qed.

Lemma stepStorm_kept_ok this dt ts s :
  stormOk s -> keepStorm (stepStorm this dt ts s) = true ->
  stormOk (stepStorm this dt ts s).
Proof.
  intros (Hlo & Hhi & Hl & Hl') Hkeep. apply keepStorm_true in Hkeep as [_ Hi].
  unfold stormOk. rewrite stepStorm_type, stepStorm_lifespan.
  repeat split; [exact Hi | | exact Hl | exact Hl'].
  apply Qle_trans with (intensity s); [| exact Hhi].
  apply stepStorm_intensity_le; lra.
Qed.

(** A spawn appends one storm, of age 0, and touches nothing else. *)
Lemma spawnRandomStorm_spec (this : WeatherSystem) (tape : Random.Tape) :
  Random.valid tape ->
  exists storm,
    stormSystems (fst (spawnRandomStorm this tape)) = stormSystems this ++ [storm] /\
    stormOk storm /\ age storm = 0.
Proof.
  intros Hv.
  pose proof (Hv 5%nat) as [Hi0 Hi1]. pose proof (Hv 6%nat) as [Hl0 Hl1].
  unfold spawnRandomStorm, Random.bind, Random.random, Random.ret.
  destruct (nth _ stormTypes thunderstorm);
    cbn [fst snd stormSystems set_stormSystems];
    eexists; (split; [reflexivity |]);
    unfold stormOk, intensityBound;
    cbn [intensity type lifespan age set_radius set_lifespan set_intensity
         set_position];
    repeat split; lra.
Qed.

Lemma spawnRandomStorm_frame (this : WeatherSystem) (tape : Random.Tape) :
  let this' := fst (spawnRandomStorm this tape) in
  noiseGen this' = noiseGen this /\
  globalWindPattern this' = globalWindPattern this /\
  temperatureMap this' = temperatureMap this /\
  currentTime this' = currentTime this.
Proof.
  cbv zeta.
  unfold spawnRandomStorm, Random.bind, Random.random, Random.ret.
  destruct (nth _ stormTypes thunderstorm); cbn; repeat split.
Qed.

(** A tick, with the first draw read off the tape. *)
Lemma update_eq (this : WeatherSystem) (dt ts : Q) (tape : Random.Tape) :
  update dt ts this tape =
  let this1 := set_currentTime (currentTime this + dt * ts) this in
  let this2 :=
    set_stormSystems
      (filter keepStorm (map (stepStorm this1 dt ts) (stormSystems this1)))
      this1 in
  if ltb (tape 0%nat) 0.02
  then spawnRandomStorm this2 (fun n => tape (S n))
  else (this2, fun n => tape (S n)).
Proof.
  unfold update, Random.bind, Random.random, Random.ret. cbv beta iota zeta.
  destruct (ltb (tape 0%nat) 0.02); reflexivity.
Qed.

(** The storms after a tick: the stepped storms that pass the test of
    the filter, then possibly one spawned storm. *)
Lemma update_storms (this : WeatherSystem) (dt ts : Q) (tape : Random.Tape) :
  Random.valid tape ->
  let kept :=
    filter keepStorm
      (map (stepStorm (set_currentTime (currentTime this + dt * ts) this) dt ts)
           (stormSystems this)) in
  let after := stormSystems (fst (update dt ts this tape)) in
  after = kept \/
  exists storm, after = kept ++ [storm] /\ stormOk storm /\ age storm = 0.
Proof.
  intros Hv. cbv zeta.
  rewrite update_eq. cbv zeta.
  destruct (ltb (tape 0%nat) 0.02).
  - right.
    destruct (spawnRandomStorm_spec
                (set_stormSystems
                   (filter keepStorm
                      (map (stepStorm (set_currentTime (currentTime this + dt * ts) this)
                              dt ts)
                         (stormSystems (set_currentTime (currentTime this + dt * ts) this))))
                   (set_currentTime (currentTime this + dt * ts) this))
                (fun n => tape (S n)) (valid_tail tape Hv))
      as (storm & Hs & Hok & Hage).
    exists storm. split; [exact Hs | split; assumption].
  - left. reflexivity.
Qed.

Lemma update_frame (this : WeatherSystem) (dt ts : Q) (tape : Random.Tape) :
  let this' := fst (update dt ts this tape) in
  noiseGen this' = noiseGen this /\
  globalWindPattern this' = globalWindPattern this /\
  temperatureMap this' = temperatureMap this.
Proof.
  cbv zeta. rewrite update_eq. cbv zeta.
  destruct (ltb (tape 0%nat) 0.02).
  - match goal with
    | |- context [spawnRandomStorm ?w ?t] =>
        destruct (spawnRandomStorm_frame w t) as (E1 & E2 & E3 & _)
    end.
    rewrite E1, E2, E3. repeat split.
  - repeat split.
Qed.

Lemma stepStorm_expired this dt ts s :
  lifespan s <= age s + dt * ts -> keepStorm (stepStorm this dt ts s) = false.
Proof.
  intros Hexp. apply not_true_iff_false. rewrite keepStorm_true.
  rewrite stepStorm_age, stepStorm_lifespan. lra.
Qed.

(** C5: after an update no storm of the active set has reached its
    lifespan: the filter drops every storm whose new age is at least its
    lifespan, and a storm spawned in the same tick has age 0. *)
Theorem C5_update_drops_expired_storms (this : WeatherSystem) (dt ts : Q)
    (tape : Random.Tape) :
  Random.valid tape ->
  Forall (fun s => age s < lifespan s)
         (stormSystems (fst (update dt ts this tape))).
Proof.
  intros Hv.
  assert (Hkept : Forall (fun s => age s < lifespan s)
            (filter keepStorm
               (map (stepStorm (set_currentTime (currentTime this + dt * ts) this) dt ts)
                    (stormSystems this)))).
  { apply Forall_forall. intros s Hin.
    apply filter_In in Hin as [_ Hkeep].
    apply keepStorm_true in Hkeep. tauto. }
  destruct (update_storms this dt ts tape Hv) as [E | (storm & E & Hok & Hage)];
    rewrite E; [exact Hkept |].
  apply Forall_app. split; [exact Hkept |].
  constructor; [| constructor].
  destruct Hok as (_ & _ & Hl & _). rewrite Hage. exact Hl.
Qed.

Lemma ofList_valid (draws : list Q) (rest : Q) :
  Forall (fun d => 0 <= d /\ d < 1) draws -> 0 <= rest /\ rest < 1 ->
  Random.valid (Random.ofList draws rest).
Proof.
  intros Hd Hr. unfold Random.valid, Random.ofList.
  induction Hd as [| d draws Hd0 _ IH]; intros [| n]; cbn; auto.
Qed.

End StormProperties.

Section ReachableProperties.
Import JS THREE WeatherSystem Vocabulary.
Context `{JSMath} `{NoiseLib}.

Lemma reachable_stormOk (this : WeatherSystem) :
  reachable this -> Forall stormOk (stormSystems this).
Proof.
  induction 1 as [seed | this dt ts tape Hreach IH Hv | this Hreach IH].
  - constructor.
  - assert (Hkept : Forall stormOk
              (filter keepStorm
                 (map (stepStorm (set_currentTime (currentTime this + dt * ts) this) dt ts)
                      (stormSystems this)))).
    { apply Forall_forall. intros s' Hin.
      apply filter_In in Hin as [Hin Hkeep].
      apply in_map_iff in Hin as (s & <- & Hs).
      apply stepStorm_kept_ok; [| exact Hkeep].
      rewrite Forall_forall in IH. apply IH. exact Hs. }
    destruct (update_storms this dt ts tape Hv) as [E | (storm & E & Hok & _)];
      rewrite E; [exact Hkept |].
    apply Forall_app. split; [exact Hkept | constructor; [exact Hok | constructor]].
  - constructor.
Qed.

(** C4 (amended): every storm of the active set of a reachable weather
    system, after a spawn as after an update, has an intensity within
    [0, 1] when it is a thunderstorm, a dust storm or an aurora, and
    within [0, 1.2] when it is a cyclone. *)
Theorem C4_storm_intensity_bounds (this : WeatherSystem) :
  reachable this ->
  Forall (fun s => 0 <= intensity s /\ intensity s <= intensityBound (type s))
         (stormSystems this).
Proof.
  intros Hreach. apply reachable_stormOk in Hreach.
  eapply Forall_impl; [| exact Hreach].
  intros s (Hlo & Hhi & _). split; [lra | exact Hhi].
Qed.

(** Lifetimes are bounded: a storm of a reachable system has a lifespan
    between 0 and 500 time units, and the tick at which its age reaches
    the lifespan drops it ([stepStorm_expired]). *)
Lemma reachable_lifespan_bounded (this : WeatherSystem) :
  reachable this ->
  Forall (fun s => 0 < lifespan s /\ lifespan s < 500) (stormSystems this).
Proof.
  intros Hreach. apply reachable_stormOk in Hreach.
  eapply Forall_impl; [| exact Hreach].
  intros s (_ & _ & Hl). exact Hl.
Qed.

End ReachableProperties.

(** C4 (as stated, refuted): a tick on a new weather system that spawns a
    cyclone with the intensity draw 0.9 leaves a storm of intensity
    (0.5 + 0.9 * 0.5) * 1.2 = 1.14 in the active set. *)
Lemma C4_cyclone_intensity_counterexample :
  let tape := Random.ofList [0.01; 0.25; 0.5; 0.5; 0.5; 0.5; 0.9; 0.5] 0.5 in
  let this :=
    fst (WeatherSystem.update 1 1 (@WeatherSystem.new flatMath flatNoise 42) tape) in
  Random.valid tape /\
  exists s,
    WeatherSystem.stormSystems this = [s] /\
    WeatherSystem.type s = WeatherSystem.cyclone /\
    WeatherSystem.intensity s == 1.14 /\
    ~ (WeatherSystem.intensity s <= 1).
Proof.
  cbv zeta. split.
  - apply ofList_valid; [repeat constructor; lra | lra].
  - eexists. split; [vm_compute; reflexivity |].
    split; [reflexivity |]. split; [reflexivity |].
    cbn. intros Hle. apply Hle. reflexivity.
Qed.

(** The bounds at the system the cyclone of intensity 1.14 was spawned
    in. *)
Lemma C4_storm_intensity_bounds_witness :
  Forall (fun s => 0 <= WeatherSystem.intensity s /\
                   WeatherSystem.intensity s
                   <= Vocabulary.intensityBound (WeatherSystem.type s))
    (WeatherSystem.stormSystems
       (fst (WeatherSystem.update 1 1 (@WeatherSystem.new flatMath flatNoise 42)
               (Random.ofList [0.01; 0.25; 0.5; 0.5; 0.5; 0.5; 0.9; 0.5] 0.5)))).
Proof.
  apply (@C4_storm_intensity_bounds flatMath flatNoise).
  apply Vocabulary.reachable_update.
  - apply Vocabulary.reachable_new.
  - apply ofList_valid; [repeat constructor; lra | lra].
Defined.

(** After a tick that spawns a cyclone, the storm of the active set is
    younger than its lifespan. *)
Lemma C5_update_drops_expired_storms_witness :
  Forall (fun s => WeatherSystem.age s < WeatherSystem.lifespan s)
    (WeatherSystem.stormSystems
       (fst (WeatherSystem.update 1 1 (@WeatherSystem.new flatMath flatNoise 42)
               (Random.ofList [0.01; 0.25; 0.5; 0.5; 0.5; 0.5; 0.9; 0.5] 0.5)))).
Proof.
  apply C5_update_drops_expired_storms.
  apply ofList_valid; [repeat constructor; lra | lra].
Defined.

Section EnvelopeProperties.
Import JS THREE WeatherSystem Vocabulary.
Context `{JSMath} `{NoiseLib}.

(** A tick without a spawn on a system that holds one storm. *)
Lemma update_one_storm (this : WeatherSystem) (dt ts : Q) (tape : Random.Tape)
    (s : StormSystem) :
  stormSystems this = [s] -> ltb (tape 0%nat) 0.02 = false ->
  let s' := stepStorm (set_currentTime (currentTime this + dt * ts) this) dt ts s in
  stormSystems (fst (update dt ts this tape)) = if keepStorm s' then [s'] else [].
Proof.
  intros Hs Hquiet. cbv zeta. rewrite update_eq. cbv zeta. rewrite Hquiet.
  cbn [fst stormSystems set_stormSystems set_currentTime]. rewrite Hs. reflexivity.
Qed.

(** C2 (the code at the failing input): a thunderstorm spawned with
    target intensity 0.9 and lifespan 100 is, after a tick of 15 time
    units, at intensity 15/20 * 0.9 = 0.675, and after one more time unit,
    still within the first 20% of its lifespan, at 16/20 * 0.675 = 0.54:
    the ramp factor multiplies the current intensity, not the target, and
    the intensity falls during the growing phase.  After a tick of one
    frame (1/60 of a time unit) instead, the intensity is 0.00075, below
    the floor 0.1, and the storm is gone. *)
Theorem C2_growing_phase_intensity_falls :
  let spawning := Random.ofList [0.01; 0; 0.5; 0.5; 0.5; 0.5; 0.8; 0.25] 0.5 in
  let quiet := Random.ofList [] 0.5 in
  let w1 := fst (update 1 1 (new 42) spawning) in
  let w2 := fst (update 15 1 w1 quiet) in
  let w3 := fst (update 1 1 w2 quiet) in
  (exists s1 s2 s3,
     stormSystems w1 = [s1] /\
     stormSystems w2 = [s2] /\
     stormSystems w3 = [s3] /\
     (age s1 == 0 /\ lifespan s1 == 100 /\ intensity s1 == 0.9) /\
     (age s2 == 15 /\ lifespan s2 == 100 /\ intensity s2 == 0.675) /\
     (age s3 == 16 /\ lifespan s3 == 100 /\ intensity s3 == 0.54) /\
     age s3 < lifespan s3 * 0.2 /\
     intensity s3 < intensity s2) /\
  stormSystems (fst (update (1 # 60) 1 w1 quiet)) = [].
Proof.
  cbv zeta. unfold new.
  generalize (generateGlobalWindPattern (mkNoiseGenerator (42 + 70000))) as wind.
  generalize (generateTemperatureMap (mkNoiseGenerator (42 + 70000))) as temperatures.
  intros temperatures wind.
  set (quiet := Random.ofList [] 0.5).
  set (w1 := fst (update 1 1 _ _)).
  (* the spawning tick *)
  assert (E1 : exists s1, stormSystems w1 = [s1] /\
                 age s1 = 0 /\ lifespan s1 == 100 /\ intensity s1 == 0.9).
  { eexists. split; [vm_compute; reflexivity |]. repeat split. }
  destruct E1 as (s1 & E1 & A1 & L1 & I1).
  (* fifteen time units later *)
  pose proof (update_one_storm w1 15 1 quiet s1 E1 eq_refl) as E2. cbv zeta in E2.
  set (s2 := stepStorm _ 15 1 s1) in E2.
  assert (A2 : age s2 == 15) by (unfold s2; rewrite stepStorm_age, A1; reflexivity).
  assert (L2 : lifespan s2 == 100) by (unfold s2; rewrite stepStorm_lifespan; exact L1).
  assert (I2 : intensity s2 == 0.675).
  { unfold s2. rewrite stepStorm_intensity. cbv zeta. rewrite A1.
    case_ltb (0 + 15 * 1) (lifespan s1 * 0.2); [| lra].
    rewrite L1, I1. reflexivity. }
  assert (K2 : keepStorm s2 = true) by (apply keepStorm_true; lra).
  rewrite K2 in E2.
  set (w2 := fst (update 15 1 w1 quiet)) in *.
  (* one more time unit *)
  pose proof (update_one_storm w2 1 1 quiet s2 E2 eq_refl) as E3. cbv zeta in E3.
  set (s3 := stepStorm _ 1 1 s2) in E3.
  assert (A3 : age s3 == 16) by (unfold s3; rewrite stepStorm_age, A2; reflexivity).
  assert (L3 : lifespan s3 == 100)
    by (unfold s3; rewrite stepStorm_lifespan; exact L2).
  assert (I3 : intensity s3 == 0.54).
  { unfold s3. rewrite stepStorm_intensity. cbv zeta.
    case_ltb (age s2 + 1 * 1) (lifespan s2 * 0.2); [| lra].
    rewrite A2, L2, I2. reflexivity. }
  assert (K3 : keepStorm s3 = true) by (apply keepStorm_true; lra).
  rewrite K3 in E3.
  split.
  - exists s1, s2, s3. rewrite A1.
    repeat split; try assumption; try reflexivity; lra.
  - (* a tick of one frame after the spawn *)
    pose proof (update_one_storm w1 (1 # 60) 1 quiet s1 E1 eq_refl) as Ef.
    cbv zeta in Ef. rewrite Ef.
    set (sf := stepStorm _ (1 # 60) 1 s1).
    assert (If : intensity sf == 0.00075).
    { unfold sf. rewrite stepStorm_intensity. cbv zeta. rewrite A1.
      case_ltb (0 + (1 # 60) * 1) (lifespan s1 * 0.2); [| lra].
      rewrite L1, I1. reflexivity. }
    assert (Kf : keepStorm sf = false).
    { apply not_true_iff_false. rewrite keepStorm_true. lra. }
    rewrite Kf. reflexivity.
Qed.

(** A tick on a new weather system that spawns a cyclone with the
    intensity draw 0.9 leaves a storm of intensity
    (0.5 + 0.9 * 0.5) * 1.2 = 1.14 in the active set. *)
Lemma cyclone_spawn_intensity :
  let tape := Random.ofList [0.01; 0.25; 0.5; 0.5; 0.5; 0.5; 0.9; 0.5] 0.5 in
  exists s,
    stormSystems (fst (update 1 1 (new 42) tape)) = [s] /\
    type s = cyclone /\ intensity s == 1.14.
Proof.
  cbv zeta. unfold new.
  generalize (generateGlobalWindPattern (mkNoiseGenerator (42 + 70000))) as wind.
  generalize (generateTemperatureMap (mkNoiseGenerator (42 + 70000))) as temperatures.
  intros temperatures wind.
  eexists. split; [vm_compute; reflexivity |].
  split; reflexivity.
Qed.

End EnvelopeProperties.

(** ** WeatherSystem: the temperature lattice *)

Section JSArrayFacts.
Context {A : Type}.

Lemma index_Some_range (arr : list A) (i : Z) (v : A) :
  JS.index arr i = Some v -> (0 <= i < JS.length arr)%Z /\ In v arr.
Proof.
  unfold JS.index, JS.length. destruct (i <? 0)%Z eqn:E; [discriminate |].
  intros Hnth. apply Z.ltb_ge in E. split.
  - assert (Z.to_nat i < List.length arr)%nat
      by (apply nth_error_Some; congruence).
    lia.
  - eapply nth_error_In. exact Hnth.
Qed.

Lemma index_in_range (arr : list A) (i : Z) :
  (0 <= i < JS.length arr)%Z -> exists v, JS.index arr i = Some v.
Proof.
  unfold JS.index, JS.length. intros [Hlo Hhi].
  destruct (i <? 0)%Z eqn:E; [apply Z.ltb_lt in E; lia |].
  destruct (nth_error arr (Z.to_nat i)) as [v |] eqn:Hnth; [eauto |].
  apply nth_error_None in Hnth. lia.
Qed.

Lemma index_out_of_range (arr : list A) (i : Z) :
  ~ (0 <= i < JS.length arr)%Z -> JS.index arr i = None.
Proof.
  intros Hout. destruct (JS.index arr i) as [v |] eqn:E; [| reflexivity].
  apply index_Some_range in E. tauto.
Qed.
End JSArrayFacts.

Section LatticeProperties.
Import JS THREE WeatherSystem Vocabulary.
Context `{JSMath} `{NoiseLib}.

(** The lattice has 36 rows of 72 cells, each within [0, 1]. *)
Lemma generateTemperatureMap_rows (gen : NoiseGenerator) :
  JS.length (generateTemperatureMap gen) = 36%Z.
Proof.
  unfold generateTemperatureMap, JS.length. rewrite length_map. reflexivity.
Qed.

Lemma generateTemperatureMap_row (gen : NoiseGenerator) (row : list Q) :
  In row (generateTemperatureMap gen) ->
  JS.length row = 72%Z /\ Forall unitRange row.
Proof.
  unfold generateTemperatureMap. intros Hin.
  apply in_map_iff in Hin as (lat & <- & _). split.
  - unfold JS.length. rewrite length_map. reflexivity.
  - apply Forall_forall. intros cell Hcell.
    apply in_map_iff in Hcell as (lon & <- & _).
    apply clamp01_range.
Qed.

(** The lattices are read-only after construction. *)
Lemma reachable_temperatureMap (this : WeatherSystem) :
  reachable this ->
  temperatureMap this = generateTemperatureMap (noiseGen this).
Proof.
  induction 1 as [seed | this dt ts tape Hreach IH Hv | this Hreach IH].
  - reflexivity.
  - destruct (update_frame this dt ts tape) as (E1 & _ & E3).
    rewrite E1, E3. exact IH.
  - exact IH.
Qed.

(** C9: [getTemperatureAt] returns a number at every position.  When
    the latitude index is [NaN] or one of the two indices is outside the
    36 by 72 lattice, the number is the default 0.5; otherwise it is the
    cell the indices select, which lies within [0, 1]. *)
Theorem C9_temperature_total (this : WeatherSystem) (position : Vector3) :
  reachable this ->
  (inLattice position = false -> getTemperatureAt this position = Some 0.5) /\
  (inLattice position = true ->
   exists t, latticeCell this position = Some t /\
             getTemperatureAt this position = Some t /\
             0 <= t /\ t <= 1).
Proof.
  intros Hreach.
  pose proof (reachable_temperatureMap this Hreach) as Hmap.
  pose proof (generateTemperatureMap_rows (noiseGen this)) as Hrows.
  rewrite <- Hmap in Hrows.
  assert (Hrow : forall row, In row (temperatureMap this) ->
                   JS.length row = 72%Z /\ Forall unitRange row).
  { rewrite Hmap. apply generateTemperatureMap_row. }
  unfold inLattice, getTemperatureAt, latticeCell.
  destruct (latIndexOf position) as [latIndex |]; [| split; [reflexivity | discriminate]].
  rewrite Hrows.
  destruct (index_in_range (temperatureMap this) 0) as (row0 & Hrow0); [lia |].
  rewrite Hrow0.
  apply index_Some_range in Hrow0 as [_ Hin0].
  destruct (Hrow row0 Hin0) as [Hlen0 _]. rewrite Hlen0.
  destruct ((latIndex >=? 0)%Z && (latIndex <? 36)%Z) eqn:Hlat;
    [| split; [reflexivity | discriminate]].
  cbn [andb].
  destruct ((lonIndexOf position >=? 0)%Z && (lonIndexOf position <? 72)%Z) eqn:Hlon;
    [| split; [reflexivity | discriminate]].
  split; [discriminate | intros _].
  apply andb_true_iff in Hlat as [Hlat0 Hlat1].
  apply andb_true_iff in Hlon as [Hlon0 Hlon1].
  apply Z.geb_le in Hlat0, Hlon0. apply Z.ltb_lt in Hlat1, Hlon1.
  destruct (index_in_range (temperatureMap this) latIndex) as (row & Hrowi); [lia |].
  rewrite Hrowi.
  apply index_Some_range in Hrowi as [_ Hin].
  destruct (Hrow row Hin) as [Hlen Hcells].
  destruct (index_in_range row (lonIndexOf position)) as (t & Ht); [lia |].
  exists t. rewrite Ht. repeat split.
  - apply index_Some_range in Ht as [_ Hint].
    rewrite Forall_forall in Hcells. apply (Hcells t Hint).
  - apply index_Some_range in Ht as [_ Hint].
    rewrite Forall_forall in Hcells. apply (Hcells t Hint).
Qed.

End LatticeProperties.

(** The temperature of a new weather system at the position (1, 1/2, 0),
    inside the lattice, and at (1, 2, 0), whose latitude is [NaN]. *)
Lemma C9_temperature_total_witness :
  (exists t,
     @WeatherSystem.getTemperatureAt flatMath
       (@WeatherSystem.new flatMath flatNoise 42) (THREE.mkVector3 1 0.5 0) = Some t /\
     0 <= t /\ t <= 1) /\
  @WeatherSystem.getTemperatureAt flatMath
    (@WeatherSystem.new flatMath flatNoise 42) (THREE.mkVector3 1 2 0) = Some 0.5.
Proof.
  split.
  - destruct (@C9_temperature_total flatMath flatNoise
                (@WeatherSystem.new flatMath flatNoise 42) (THREE.mkVector3 1 0.5 0)
                (Vocabulary.reachable_new 42)) as [_ Hin].
    destruct (Hin eq_refl) as (t & _ & Ht & Hlo & Hhi).
    exists t. repeat split; assumption.
  - apply (@C9_temperature_total flatMath flatNoise
             (@WeatherSystem.new flatMath flatNoise 42) (THREE.mkVector3 1 2 0)
             (Vocabulary.reachable_new 42)).
    reflexivity.
Defined.

(* ================================================================= *)
(** * Part III: further properties of the code *)
(* ================================================================= *)

(** ** ColorPalettes: interpolation and bytes *)

Section PaletteBytes.
Import JS ColorPalettes Vocabulary.

Lemma interpolateColor_byte (c1 c2 : RGB) (f : Q) :
  byteRGB c1 -> byteRGB c2 -> 0 <= f -> f <= 1 ->
  byteRGB (interpolateColor c1 c2 f).
Proof.
  intros (Hr1 & Hg1 & Hb1) (Hr2 & Hg2 & Hb2) H0 H1.
  pose proof (channel_between (r c1) (r c2) f H0 H1) as Hr.
  pose proof (channel_between (g c1) (g c2) f H0 H1) as Hg.
  pose proof (channel_between (b c1) (b c2) f H0 H1) as Hb.
  unfold channelBetween in *. unfold byteRGB, interpolateColor. cbn [r g b].
  repeat split; lia.
Qed.

Lemma interpolateColor_start (c1 c2 : RGB) (f : Q) :
  f == 0 -> interpolateColor c1 c2 f = c1.
Proof.
  intros Hf. rewrite (interpolateColor_comp c1 c2 f 0 Hf).
  destruct c1 as [r1 g1 b1]. unfold interpolateColor. cbn [r g b].
  f_equal; rewrite <- Math_round_integer; unfold Math_round;
    apply Qfloor_comp; lra.
Qed.

Lemma interpolateColor_end (c1 c2 : RGB) (f : Q) :
  f == 1 -> interpolateColor c1 c2 f = c2.
Proof.
  intros Hf. rewrite (interpolateColor_comp c1 c2 f 1 Hf).
  destruct c2 as [r2 g2 b2]. unfold interpolateColor. cbn [r g b].
  f_equal; rewrite <- Math_round_integer; unfold Math_round;
    apply Qfloor_comp; lra.
Qed.

(** Interpolating with a factor between 0 and 1 stays, channel by
    channel, within the two colours, and gives the first colour at 0 and
    the second at 1. *)
Theorem interpolateColor_within_endpoints (c1 c2 : RGB) (f : Q) :
  0 <= f -> f <= 1 ->
  channelBetween (r (interpolateColor c1 c2 f)) (r c1) (r c2) /\
  channelBetween (g (interpolateColor c1 c2 f)) (g c1) (g c2) /\
  channelBetween (b (interpolateColor c1 c2 f)) (b c1) (b c2) /\
  interpolateColor c1 c2 0 = c1 /\
  interpolateColor c1 c2 1 = c2.
Proof.
  intros H0 H1. unfold interpolateColor at 1 2 3. cbn [r g b].
  repeat split; try (apply channel_between; assumption).
  - apply interpolateColor_start. reflexivity.
  - apply interpolateColor_end. reflexivity.
Qed.

Lemma interpolateColor_within_endpoints_witness :
  interpolateColor (mkRGB 25 25 112) (mkRGB 65 105 225) 0.5 = mkRGB 45 65 169 /\
  channelBetween 45 25 65.
Proof.
  split; [reflexivity |].
  apply (interpolateColor_within_endpoints
           (mkRGB 25 25 112) (mkRGB 65 105 225) 0.5); lra.
Defined.

(** The palette table holds bytes, and so does every palette made from
    it. *)
Lemma palettes_bytes : Forall bytePalette palettes.
Proof.
  repeat constructor; cbn; lia.
Qed.

Lemma getPalette_bytes (climate : Q) (p : PaletteWithGetColor) :
  getPalette climate = Some p -> bytePalette (colors p).
Proof.
  unfold getPalette. intros Hp.
  set (scaled := climate * inject_Z (JS.length palettes - 1)) in *.
  destruct (fraction_range scaled) as [Hf0 Hf1].
  set (fraction := scaled - inject_Z (Math_floor scaled)) in *.
  assert (Hpair : forall p1 p2,
            (if (Math_floor scaled >=? JS.length palettes - 1)%Z
             then match JS.index palettes (JS.length palettes - 1) with
                  | Some last => Some (last, last)
                  | None => None
                  end
             else match JS.index palettes (Math_floor scaled),
                        JS.index palettes (Math_floor scaled + 1) with
                  | Some palette1, Some palette2 => Some (palette1, palette2)
                  | _, _ => None
                  end) = Some (p1, p2) ->
            bytePalette p1 /\ bytePalette p2).
  { intros p1 p2 Hc.
    pose proof palettes_bytes as Hall. rewrite Forall_forall in Hall.
    destruct (_ >=? _)%Z.
    - destruct (JS.index palettes (JS.length palettes - 1)) as [last |] eqn:E;
        [| discriminate].
      injection Hc as <- <-. apply index_Some_range in E as [_ Hin].
      split; apply Hall; exact Hin.
    - destruct (JS.index palettes (Math_floor scaled)) as [q1 |] eqn:E1;
        [| discriminate].
      destruct (JS.index palettes (Math_floor scaled + 1)) as [q2 |] eqn:E2;
        [| discriminate].
      injection Hc as <- <-.
      apply index_Some_range in E1 as [_ Hin1].
      apply index_Some_range in E2 as [_ Hin2].
      split; apply Hall; assumption. }
  destruct (if (_ >=? _)%Z then _ else _) as [[p1 p2] |]; [| discriminate].
  destruct (Hpair p1 p2 eq_refl) as [B1 B2].
  injection Hp as <-. cbn [colors].
  destruct B1 as (A1 & A2 & A3 & A4 & A5 & A6 & A7 & A8).
  destruct B2 as (C1 & C2 & C3 & C4 & C5 & C6 & C7 & C8).
  unfold bytePalette.
  cbn [deepOcean shallowWater beach lowland highland mountain peak polar].
  do 7 (split; [apply interpolateColor_byte; assumption |]).
  apply interpolateColor_byte; assumption.
Qed.

Lemma getColorForHeight_bytes (p : ColorPalette) (h s : Q) :
  bytePalette p -> byteRGB (getColorForHeight p h s).
Proof.
  intros (A1 & A2 & A3 & A4 & A5 & A6 & A7 & A8). unfold getColorForHeight.
  case_ltb h (s * 0.7); [exact A1 |].
  case_ltb h s.
  { apply interpolateColor_byte; try assumption;
      apply fraction_of_width; lra. }
  case_ltb h (s + 0.05).
  { apply interpolateColor_byte; try assumption;
      apply fraction_of_width; lra. }
  case_ltb h (s + 0.3).
  { apply interpolateColor_byte; try assumption;
      apply fraction_of_width; lra. }
  case_ltb h (s + 0.5).
  { apply interpolateColor_byte; try assumption;
      apply fraction_of_width; lra. }
  case_ltb h (s + 0.7).
  { apply interpolateColor_byte; try assumption;
      apply fraction_of_width; lra. }
  case_ltb h (s + 0.9).
  { apply interpolateColor_byte; try assumption;
      apply fraction_of_width; lra. }
  exact A8.
Qed.

(** Whatever the climate, the height and the sea level, the colour a
    returned palette gives has its three channels between 0 and 255. *)
Theorem getColor_is_bytes (climate : Q) (p : PaletteWithGetColor) (h s : Q) :
  getPalette climate = Some p -> byteRGB (getColor p h s).
Proof.
  intros Hp. rewrite (getPalette_getColor climate p Hp).
  apply getColorForHeight_bytes. apply (getPalette_bytes climate p Hp).
Qed.

Lemma getColor_is_bytes_witness :
  exists p, getPalette 0.8 = Some p /\ byteRGB (getColor p 0.62 0.6).
Proof.
  eexists. split; [reflexivity |].
  apply (getColor_is_bytes 0.8 _ 0.62 0.6 eq_refl).
Defined.

End PaletteBytes.

Section PaletteEdges.
Import JS ColorPalettes Vocabulary.

Lemma Math_floor_negative (v : Q) : v < 0 -> (Math_floor v < 0)%Z.
Proof.
  intros Hv. unfold Math_floor. pose proof (Qfloor_le v) as Hfl.
  rewrite Zlt_Qlt. change (inject_Z 0) with 0. lra.
Qed.

Lemma Math_floor_at_least (z : Z) (v : Q) :
  inject_Z z <= v -> (z <= Math_floor v)%Z.
Proof.
  intros Hv. unfold Math_floor. rewrite <- (Qfloor_Z z).
  apply Qfloor_resp_le. exact Hv.
Qed.

Lemma interpolateColor_same (c : RGB) (f : Q) : interpolateColor c c f = c.
Proof.
  destruct c as [r0 g0 b0]. unfold interpolateColor. cbn [r g b].
  f_equal; rewrite <- Math_round_integer; unfold Math_round;
    apply Qfloor_comp; ring.
Qed.

Lemma getPalette_negative (climate : Q) : climate < 0 -> getPalette climate = None.
Proof.
  intros Hneg. unfold getPalette.
  set (scaled := climate * inject_Z (JS.length palettes - 1)).
  assert (Hidx : (Math_floor scaled < 0)%Z).
  { apply Math_floor_negative. unfold scaled.
    change (inject_Z (JS.length palettes - 1)) with (3 # 1). lra. }
  change (JS.length palettes - 1)%Z with 3%Z.
  destruct (Math_floor scaled >=? 3)%Z eqn:E; [apply Z.geb_le in E; lia |].
  unfold JS.index at 1.
  destruct (Math_floor scaled <? 0)%Z eqn:E0; [reflexivity |].
  apply Z.ltb_ge in E0. lia.
Qed.

(** [getPalette] returns a palette for every climate from 0 on, and
    fails (a [TypeError] on the missing table entry) for every negative
    climate. *)
Theorem getPalette_fails_below_zero (climate : Q) :
  (0 <= climate -> exists p, getPalette climate = Some p) /\
  (climate < 0 -> getPalette climate = None).
Proof.
  split; [apply getPalette_total | apply getPalette_negative].
Qed.

Lemma getPalette_fails_below_zero_witness :
  (exists p, getPalette 0.5 = Some p) /\ getPalette (-0.1) = None.
Proof.
  split.
  - apply (getPalette_fails_below_zero 0.5). lra.
  - apply (getPalette_fails_below_zero (-0.1)). lra.
Defined.

(** From climate 1 on the index is held at the last slot: the palette
    returned is the Verdant entry of the table itself. *)
Theorem getPalette_saturates_at_verdant (climate : Q) :
  1 <= climate ->
  exists p, getPalette climate = Some p /\ colors p = verdant.
Proof.
  intros Hc. unfold getPalette.
  set (scaled := climate * inject_Z (JS.length palettes - 1)).
  assert (Hidx : (3 <= Math_floor scaled)%Z).
  { apply Math_floor_at_least. unfold scaled.
    change (inject_Z (JS.length palettes - 1)) with (3 # 1).
    change (inject_Z 3) with (3 # 1). lra. }
  change (JS.length palettes - 1)%Z with 3%Z.
  destruct (Math_floor scaled >=? 3)%Z eqn:E;
    [| rewrite Z.geb_leb in E; apply Z.leb_gt in E; lia].
  change (JS.index palettes 3) with (Some verdant).
  cbv beta iota. eexists. split; [reflexivity |].
  cbn [colors]. rewrite !interpolateColor_same. reflexivity.
Qed.

Lemma getPalette_saturates_at_verdant_witness :
  exists p, getPalette 1.7 = Some p /\ colors p = verdant.
Proof.
  apply (getPalette_saturates_at_verdant 1.7). lra.
Defined.

(** At the height where a band starts, the colour is the anchor colour
    the band starts from, so that neighbouring bands join: deepOcean at
    0.7 x seaLevel, shallowWater at the sea level, then beach, lowland,
    highland and mountain at +0.05, +0.3, +0.5 and +0.7.  The sea level
    is one the renderer passes, [1 - landWaterRatio] within (0, 1].
    Every height above seaLevel + 0.9 gets the polar colour. *)
Theorem getColorForHeight_band_starts (p : ColorPalette) (s : Q) :
  0 < s -> s <= 1 ->
  getColorForHeight p (s * 0.7) s = deepOcean p /\
  getColorForHeight p s s = shallowWater p /\
  getColorForHeight p (s + 0.05) s = beach p /\
  getColorForHeight p (s + 0.3) s = lowland p /\
  getColorForHeight p (s + 0.5) s = highland p /\
  getColorForHeight p (s + 0.7) s = mountain p /\
  (forall h, s + 0.9 < h -> getColorForHeight p h s = polar p).
Proof.
  intros Hs Hs1.
  split; [| split; [| split; [| split; [| split; [| split]]]]];
    [unfold getColorForHeight .. | intros h Hh; apply getColorForHeight_polar; lra].
  - case_ltb (s * 0.7) (s * 0.7); [lra |].
    case_ltb (s * 0.7) s; [| lra].
    apply interpolateColor_start. field. lra.
  - case_ltb s (s * 0.7); [lra |].
    case_ltb s s; [lra |].
    case_ltb s (s + 0.05); [| lra].
    apply interpolateColor_start. field.
  - case_ltb (s + 0.05) (s * 0.7); [lra |].
    case_ltb (s + 0.05) s; [lra |].
    case_ltb (s + 0.05) (s + 0.05); [lra |].
    case_ltb (s + 0.05) (s + 0.3); [| lra].
    apply interpolateColor_start. field.
  - case_ltb (s + 0.3) (s * 0.7); [lra |].
    case_ltb (s + 0.3) s; [lra |].
    case_ltb (s + 0.3) (s + 0.05); [lra |].
    case_ltb (s + 0.3) (s + 0.3); [lra |].
    case_ltb (s + 0.3) (s + 0.5); [| lra].
    apply interpolateColor_start. field.
  - case_ltb (s + 0.5) (s * 0.7); [lra |].
    case_ltb (s + 0.5) s; [lra |].
    case_ltb (s + 0.5) (s + 0.05); [lra |].
    case_ltb (s + 0.5) (s + 0.3); [lra |].
    case_ltb (s + 0.5) (s + 0.5); [lra |].
    case_ltb (s + 0.5) (s + 0.7); [| lra].
    apply interpolateColor_start. field.
  - case_ltb (s + 0.7) (s * 0.7); [lra |].
    case_ltb (s + 0.7) s; [lra |].
    case_ltb (s + 0.7) (s + 0.05); [lra |].
    case_ltb (s + 0.7) (s + 0.3); [lra |].
    case_ltb (s + 0.7) (s + 0.5); [lra |].
    case_ltb (s + 0.7) (s + 0.7); [lra |].
    case_ltb (s + 0.7) (s + 0.9); [| lra].
    apply interpolateColor_start. field.
Qed.

Lemma getColorForHeight_band_starts_witness :
  getColorForHeight temperate 0.6 0.6 = shallowWater temperate /\
  getColorForHeight temperate 0.9 0.6 = lowland temperate.
Proof.
  pose proof (getColorForHeight_band_starts temperate 0.6) as Hb.
  destruct Hb as (_ & H2 & _ & H4 & _); [lra | lra |].
  split; [exact H2 |].
  rewrite <- H4. reflexivity.
Defined.

End PaletteEdges.

(** ** TemporalEvolution: frame, history and clock arithmetic *)

Section EvolutionFrame.
Import JS Terraformer TemporalEvolution Vocabulary.
Context `{JSMath} `{NoiseLib}.

(** The evolution writes the six ratios and nothing else: every other
    field of the evolved settings is the base field.  With no knob above
    0 no branch is taken and the result is the base settings. *)
Theorem evolution_writes_only_ratios (this : TemporalEvolution) (ts : TemporalSettings) :
  sameButRatios (getTemporallyEvolvedSettings this ts) (baseSettings this) /\
  (ts_geologicalTime ts <= 0 -> ts_climaticShift ts <= 0 ->
   ts_atmosphericEvolution ts <= 0 -> ts_weatherCycle ts <= 0 ->
   getTemporallyEvolvedSettings this ts = baseSettings this).
Proof.
  split.
  - unfold getTemporallyEvolvedSettings, sameButRatios. cbv zeta.
    destruct (gtb (ts_geologicalTime ts) 0), (gtb (ts_climaticShift ts) 0),
      (gtb (ts_atmosphericEvolution ts) 0), (gtb (ts_weatherCycle ts) 0);
      cbn; repeat split.
  - intros Hg Hc Ha Hw. unfold getTemporallyEvolvedSettings. cbv zeta.
    apply gtb_le in Hg, Hc, Ha, Hw. rewrite Hg, Hc, Ha, Hw. reflexivity.
Qed.

End EvolutionFrame.

Lemma evolution_writes_only_ratios_witness :
  @TemporalEvolution.getTemporallyEvolvedSettings flatMath flatNoise
    (TemporalEvolution.fastForward 1234
       (TemporalEvolution.new (Terraformer.defaultSettings 42)))
    (Vocabulary.knobs 0)
  = Terraformer.defaultSettings 42.
Proof.
  apply (@evolution_writes_only_ratios flatMath flatNoise
           (TemporalEvolution.fastForward 1234
              (TemporalEvolution.new (Terraformer.defaultSettings 42)))
           (Vocabulary.knobs 0)); cbn; lra.
Defined.

Section HistoryProperties.
Import JS Terraformer TemporalEvolution Vocabulary.

Lemma exec_history_bound (c : call) (this : TemporalEvolution) :
  (List.length (snapshots this) <= 100)%nat ->
  (List.length (snapshots (exec c this)) <= 100)%nat.
Proof.
  intros Hb. destruct c; cbn; try exact Hb; try lia.
  - unfold updateTime. destruct (negb _); exact Hb.
  - unfold saveSnapshot.
    destruct (_ >? _)%Z eqn:E; cbn [snapshots set_snapshots].
    + destruct (snapshots this) as [| s0 rest]; cbn in *; [lia |].
      rewrite length_app. cbn. lia.
    + rewrite Z.gtb_ltb in E. apply Z.ltb_ge in E. unfold JS.length in E.
      rewrite length_app in *. cbn in *. lia.
Qed.

(** The history never holds more than 100 snapshots, whatever calls are
    made on a clock since its construction. *)
Theorem history_never_exceeds_100 (settings : PlanetSettings) (cs : list call) :
  (List.length (getTemporalHistory (execAll cs (new settings))) <= 100)%nat.
Proof.
  unfold getTemporalHistory, execAll.
  assert (Hnew : (List.length (snapshots (new settings)) <= 100)%nat)
    by (cbn; lia).
  revert Hnew. generalize (new settings) as this.
  induction cs as [| c cs IH]; intros this Hb; [exact Hb |].
  cbn [fold_left]. apply IH. apply exec_history_bound. exact Hb.
Qed.

(** [saveSnapshot] puts the new snapshot, stamped with the current time,
    at the end of the history; when that makes 101 entries it drops the
    oldest one and only that one. *)
Theorem saveSnapshot_appends_and_drops_oldest (this : TemporalEvolution) :
  let snapshot :=
    {| snap_landWaterRatio := landWaterRatio (baseSettings this);
       snap_mountainDensity := mountainDensity (baseSettings this);
       snap_coastlineComplexity := coastlineComplexity (baseSettings this);
       snap_climate := climate (baseSettings this);
       snap_atmosphere := atmosphere (baseSettings this);
       snap_clouds := clouds (baseSettings this);
       snap_timestamp := currentTime this |} in
  ((List.length (snapshots this) < 100)%nat ->
   snapshots (saveSnapshot this) = snapshots this ++ [snapshot]) /\
  ((List.length (snapshots this) >= 100)%nat ->
   snapshots (saveSnapshot this) = tl (snapshots this) ++ [snapshot]).
Proof.
  cbv zeta. unfold saveSnapshot. split; intros Hlen.
  - destruct (_ >? _)%Z eqn:E; cbn [snapshots set_snapshots]; [| reflexivity].
    apply Z.gtb_lt in E. unfold JS.length in E.
    rewrite length_app in E. cbn in E. lia.
  - destruct (_ >? _)%Z eqn:E; cbn [snapshots set_snapshots].
    + destruct (snapshots this); [cbn in Hlen; lia | reflexivity].
    + rewrite Z.gtb_ltb in E. apply Z.ltb_ge in E. unfold JS.length in E.
      rewrite length_app in E. cbn in E. lia.
Qed.

Lemma saveSnapshot_appends_and_drops_oldest_witness :
  map snap_timestamp
    (snapshots
       (saveSnapshot (fastForward 7 (saveSnapshot (new (defaultSettings 42))))))
  = [0; 0 + 7].
Proof.
  set (once := saveSnapshot (new (defaultSettings 42))).
  destruct (saveSnapshot_appends_and_drops_oldest (fastForward 7 once)) as [Happ _].
  rewrite Happ by (cbn; lia). reflexivity.
Defined.

(** A rewind that hits the floor is not undone by fast-forwarding the
    same duration: when the clock has less than the duration on it,
    [rewind] leaves it at 0 and [fastForward] then leaves it at the
    duration, later than the time it started from.  Neither call
    touches the history. *)
Theorem rewind_past_zero_is_not_undone (this : TemporalEvolution) (d : Q) :
  currentTime this < d ->
  currentTime (rewind d this) == 0 /\
  currentTime (fastForward d (rewind d this)) == d /\
  currentTime this < currentTime (fastForward d (rewind d this)) /\
  snapshots (fastForward d (rewind d this)) = snapshots this.
Proof.
  intros Ht. unfold rewind, fastForward. cbn [currentTime set_currentTime].
  unfold Math_max.
  case_ltb 0 (currentTime this - d); [lra |].
  repeat split; try lra.
Qed.

Lemma rewind_past_zero_is_not_undone_witness :
  let clock := fastForward 10 (new (defaultSettings 42)) in
  currentTime (rewind 30 clock) == 0 /\
  currentTime (fastForward 30 (rewind 30 clock)) == 30.
Proof.
  cbv zeta.
  destruct (rewind_past_zero_is_not_undone
              (fastForward 10 (new (defaultSettings 42))) 30) as (H1 & H2 & _).
  - cbn. lra.
  - split; [exact H1 | exact H2].
Defined.

Lemma exec_nonnegative (c : call) (this : TemporalEvolution) :
  forwardOnly c = true -> 0 <= currentTime this -> 0 <= currentTime (exec c this).
Proof.
  intros Hc Ht.
  destruct c as [deltaTime ts | | | duration | duration | | | | | ts];
    cbn [exec forwardOnly] in *; try exact Ht.
  - unfold updateTime. apply Qle_bool_iff in Hc.
    destruct (negb _); cbn [currentTime set_currentTime]; lra.
  - unfold saveSnapshot. destruct (_ >? _)%Z; exact Ht.
  - cbn. lra.
  - apply Qle_bool_iff in Hc. unfold fastForward.
    cbn [currentTime set_currentTime]. lra.
  - unfold rewind. cbn [currentTime set_currentTime]. apply Math_max_lower.
Qed.

(** A clock that is never ticked or fast-forwarded by a negative amount
    never shows a negative time, whatever it is rewound by. *)
Theorem clock_never_negative (settings : PlanetSettings) (cs : list call) :
  forallb forwardOnly cs = true ->
  0 <= getCurrentTime (execAll cs (new settings)).
Proof.
  unfold getCurrentTime, execAll.
  assert (Hnew : 0 <= currentTime (new settings)) by (cbn; lra).
  revert Hnew. generalize (new settings) as this.
  induction cs as [| c cs IH]; intros this Ht Hall; [exact Ht |].
  cbn in Hall. apply andb_true_iff in Hall as [Hc Hcs].
  cbn [fold_left]. apply IH; [| exact Hcs].
  apply exec_nonnegative; assumption.
Qed.

Lemma clock_never_negative_witness :
  0 <= getCurrentTime
         (execAll [CallUpdateTime 0.5 (knobs 1); CallRewind 100; CallFastForward 3;
                   CallRewind 1]
            (new (defaultSettings 42))).
Proof.
  apply clock_never_negative. reflexivity.
Defined.

End HistoryProperties.

Section LabelProperties.
Import JS Terraformer TemporalEvolution Vocabulary.

(** A later time never gets an earlier epoch: the names follow the
    order of the table as the time grows. *)
Theorem getEpochName_monotone (a b : TemporalEvolution) :
  currentTime a <= currentTime b ->
  (epochRank (getEpochName a) <= epochRank (getEpochName b))%nat.
Proof.
  intros Hab. unfold getEpochName. cbv zeta.
  case_ltb (currentTime a) 1000; [cbn; lia |].
  case_ltb (currentTime b) 1000; [lra |].
  case_ltb (currentTime a) 10000;
    [repeat (destruct (ltb (currentTime b) _)); cbn; lia |].
  case_ltb (currentTime b) 10000; [lra |].
  case_ltb (currentTime a) 100000;
    [repeat (destruct (ltb (currentTime b) _)); cbn; lia |].
  case_ltb (currentTime b) 100000; [lra |].
  case_ltb (currentTime a) 1000000;
    [repeat (destruct (ltb (currentTime b) _)); cbn; lia |].
  case_ltb (currentTime b) 1000000; [lra |].
  case_ltb (currentTime a) 10000000;
    [repeat (destruct (ltb (currentTime b) _)); cbn; lia |].
  case_ltb (currentTime b) 10000000; [lra |].
  case_ltb (currentTime a) 100000000;
    [repeat (destruct (ltb (currentTime b) _)); cbn; lia |].
  case_ltb (currentTime b) 100000000; [lra |].
  case_ltb (currentTime a) 500000000;
    [repeat (destruct (ltb (currentTime b) _)); cbn; lia |].
  case_ltb (currentTime b) 500000000; [lra |].
  cbn. lia.
Qed.

Lemma getEpochName_monotone_witness :
  (epochRank (getEpochName (fastForward 5000 (new (defaultSettings 42))))
   <= epochRank (getEpochName (fastForward 2000000 (new (defaultSettings 42)))))%nat.
Proof.
  apply getEpochName_monotone. cbn. lra.
Defined.

Lemma Math_floor_zero (v : Q) : 0 <= v -> v < 1 -> Math_floor v = 0%Z.
Proof.
  intros H0 H1. unfold Math_floor. apply Qfloor_between.
  - exact H0.
  - exact H1.
Qed.

(** The thousands and the billions are shown without a decimal, so the
    lower part of each tier reads as zero: from 100 to 999 years the
    description is "0K years", and from one million up to a hundred
    million years it is "0B years". *)
Theorem getTimeDescription_zero_tiers (this : TemporalEvolution) :
  (100 <= currentTime this -> currentTime this < 1000 ->
   getTimeDescription this = "0K years"%string) /\
  (1000000 <= currentTime this -> currentTime this < 100000000 ->
   getTimeDescription this = "0B years"%string).
Proof.
  unfold getTimeDescription. cbv zeta. split; intros Hlo Hhi.
  - case_ltb (currentTime this) 100; [lra |].
    case_ltb (currentTime this) 100000; [| lra].
    rewrite Math_floor_zero; [reflexivity | |].
    + apply Qle_shift_div_l; lra.
    + apply Qlt_shift_div_r; lra.
  - case_ltb (currentTime this) 100; [lra |].
    case_ltb (currentTime this) 100000; [lra |].
    case_ltb (currentTime this) 1000000; [lra |].
    rewrite Math_floor_zero; [reflexivity | |].
    + apply Qle_shift_div_l; lra.
    + apply Qlt_shift_div_r; lra.
Qed.

Lemma getTimeDescription_zero_tiers_witness :
  getTimeDescription (fastForward 999 (new (defaultSettings 42)))
    = "0K years"%string /\
  getTimeDescription (fastForward 5000000 (new (defaultSettings 42)))
    = "0B years"%string.
Proof.
  split.
  - apply (getTimeDescription_zero_tiers
             (fastForward 999 (new (defaultSettings 42)))); cbn; lra.
  - apply (getTimeDescription_zero_tiers
             (fastForward 5000000 (new (defaultSettings 42)))); cbn; lra.
Defined.

End LabelProperties.

Section EffectProperties.
Import JS Terraformer TemporalEvolution Vocabulary.
Context `{NoiseLib}.

(** The three sky effects are off whenever [showTemporalEffects] is off,
    and the two storm effects are off whenever the weather cycle is at
    most 0.3 (lightning already at 0.5), whatever the noise and the
    time. *)
Theorem getTemporalEffects_gates (this : TemporalEvolution) (ts : TemporalSettings) :
  (ts_showTemporalEffects ts = false ->
   auroras (getTemporalEffects this ts) = false /\
   meteorShowers (getTemporalEffects this ts) = false /\
   solarFlares (getTemporalEffects this ts) = false) /\
  (ts_weatherCycle ts <= 0.5 ->
   lightningStorms (getTemporalEffects this ts) = false) /\
  (ts_weatherCycle ts <= 0.3 ->
   dustStorms (getTemporalEffects this ts) = false).
Proof.
  unfold getTemporalEffects. cbv zeta.
  cbn [auroras meteorShowers solarFlares lightningStorms dustStorms].
  split; [| split].
  - intros ->. rewrite !andb_false_r. repeat split.
  - intros Hw. apply gtb_le in Hw. rewrite Hw. apply andb_false_r.
  - intros Hw. apply gtb_le in Hw. rewrite Hw. apply andb_false_r.
Qed.

(** The two progress bars stay within [0, 1] on a clock that is not
    negative, the erosion bar is never behind the time bar, and each of
    the three histories has 50 points. *)
Theorem visualization_data_shape (this : TemporalEvolution) :
  0 <= currentTime this ->
  let data := getTemporalVisualizationData this in
  (0 <= timeProgress data /\ timeProgress data <= 1) /\
  (0 <= erosionProgress data /\ erosionProgress data <= 1) /\
  timeProgress data <= erosionProgress data /\
  List.length (climateHistory data) = 50%nat /\
  List.length (mountainHistory data) = 50%nat /\
  List.length (oceanHistory data) = 50%nat.
Proof.
  intros Ht. cbv zeta. unfold getTemporalVisualizationData. cbv zeta.
  cbn [timeProgress erosionProgress climateHistory mountainHistory oceanHistory].
  rewrite !length_map.
  assert (H1 : 0 <= currentTime this / 1000000000)
    by (apply Qle_shift_div_l; lra).
  assert (H2 : 0 <= currentTime this / 100000000)
    by (apply Qle_shift_div_l; lra).
  assert (H3 : currentTime this / 1000000000 <= currentTime this / 100000000).
  { apply Qle_shift_div_r; [lra |].
    setoid_replace (currentTime this / 100000000 * 1000000000)
      with (currentTime this * 10) by field.
    lra. }
  unfold Math_min.
  case_ltb (currentTime this / 1000000000) 1;
    case_ltb (currentTime this / 100000000) 1;
    repeat split; try lra; reflexivity.
Qed.

End EffectProperties.

Lemma getTemporalEffects_gates_witness :
  TemporalEvolution.dustStorms
    (@TemporalEvolution.getTemporalEffects flatNoise
       (TemporalEvolution.fastForward 1234
          (TemporalEvolution.new (Terraformer.defaultSettings 42)))
       (Vocabulary.knobs 0.2))
  = false.
Proof.
  apply (@getTemporalEffects_gates flatNoise
           (TemporalEvolution.fastForward 1234
              (TemporalEvolution.new (Terraformer.defaultSettings 42)))
           (Vocabulary.knobs 0.2)).
  cbn. lra.
Defined.

Lemma visualization_data_shape_witness :
  List.length
    (TemporalEvolution.climateHistory
       (@TemporalEvolution.getTemporalVisualizationData flatNoise
          (TemporalEvolution.fastForward 1234
             (TemporalEvolution.new (Terraformer.defaultSettings 42)))))
  = 50%nat.
Proof.
  apply (@visualization_data_shape flatNoise
           (TemporalEvolution.fastForward 1234
              (TemporalEvolution.new (Terraformer.defaultSettings 42)))).
  cbn. lra.
Defined.

(** ** WeatherSystem: population, shape and drift of storms *)

Section PopulationProperties.
Import JS THREE WeatherSystem Vocabulary.

Lemma spawnRandomStorm_length (this : WeatherSystem) (tape : Random.Tape) :
  List.length (stormSystems (fst (spawnRandomStorm this tape)))
  = S (List.length (stormSystems this)).
Proof.
  unfold spawnRandomStorm, Random.bind, Random.random, Random.ret.
  destruct (nth _ stormTypes thunderstorm);
    cbn [fst snd stormSystems set_stormSystems];
    rewrite length_app; cbn [List.length]; lia.
Qed.

(** A tick never adds more than one storm, and adds none when its first
    draw is 0.02 or more; the storms it keeps are never more than it
    found. *)
Theorem update_spawns_at_most_one (this : WeatherSystem) (dt ts : Q)
    (tape : Random.Tape) :
  (List.length (stormSystems (fst (update dt ts this tape)))
   <= S (List.length (stormSystems this)))%nat /\
  (0.02 <= tape 0%nat ->
   (List.length (stormSystems (fst (update dt ts this tape)))
    <= List.length (stormSystems this))%nat).
Proof.
  rewrite update_eq. cbv zeta.
  assert (Hkept : forall w,
            (List.length (filter keepStorm (map (stepStorm w dt ts) (stormSystems this)))
             <= List.length (stormSystems this))%nat).
  { intros w. etransitivity; [apply filter_length_le |].
    rewrite length_map. lia. }
  split.
  - destruct (ltb (tape 0%nat) 0.02).
    + rewrite spawnRandomStorm_length.
      cbn [stormSystems set_stormSystems set_currentTime].
      specialize (Hkept (set_currentTime (currentTime this + dt * ts) this)). lia.
    + cbn [fst stormSystems set_stormSystems set_currentTime]. 
      specialize (Hkept (set_currentTime (currentTime this + dt * ts) this)). lia.
  - intros Hquiet. apply ltb_ge in Hquiet. rewrite Hquiet.
    cbn [fst stormSystems set_stormSystems set_currentTime]. apply Hkept.
Qed.

Lemma update_spawns_at_most_one_witness :
  (List.length
     (stormSystems
        (fst (update 1 1 (@new flatMath flatNoise 42) (Random.ofList [] 0.5))))
   <= 0)%nat.
Proof.
  apply (update_spawns_at_most_one (@new flatMath flatNoise 42) 1 1
           (Random.ofList [] 0.5)).
  cbn. lra.
Defined.

Lemma stepStorm_radius this dt ts s : radius (stepStorm this dt ts s) = radius s.
Proof.
  unfold stepStorm. cbv zeta.
  repeat match goal with
         | |- context [if ?c then _ else _] => destruct c
         | |- context [match ?o with Some _ => _ | None => _ end] => destruct o
         end; reflexivity.
Qed.

Lemma stepStorm_shape this dt ts s : stormShape s -> stormShape (stepStorm this dt ts s).
Proof.
  unfold stormShape.
  rewrite stepStorm_type, stepStorm_radius, stepStorm_lifespan. tauto.
Qed.

Lemma spawnRandomStorm_shape (this : WeatherSystem) (tape : Random.Tape) :
  Random.valid tape ->
  exists storm,
    stormSystems (fst (spawnRandomStorm this tape)) = stormSystems this ++ [storm] /\
    stormShape storm /\ age storm = 0.
Proof.
  intros Hv.
  pose proof (Hv 4%nat) as [Hr0 Hr1]. pose proof (Hv 6%nat) as [Hl0 Hl1].
  unfold spawnRandomStorm, Random.bind, Random.random, Random.ret.
  destruct (nth _ stormTypes thunderstorm);
    cbn [fst snd stormSystems set_stormSystems];
    eexists; (split; [reflexivity |]);
    unfold stormShape;
    cbn [radius type lifespan age set_radius set_lifespan set_intensity
         set_position];
    repeat split; lra.
Qed.

End PopulationProperties.

Section ShapeProperties.
Import JS THREE WeatherSystem Vocabulary.
Context `{JSMath} `{NoiseLib}.

(** Every storm of a reachable weather system is younger than its
    lifespan and keeps the radius and the lifespan of its type: a radius
    in [0.1, 0.4) and a lifespan in [50, 250), with the radius scaled by
    1.5, 2 and 0.5 for cyclones, dust storms and auroras and the lifespan
    doubled for cyclones. *)
Theorem reachable_storm_shape (this : WeatherSystem) :
  reachable this ->
  Forall (fun s => stormShape s /\ age s < lifespan s) (stormSystems this).
Proof.
  induction 1 as [seed | this dt ts tape Hreach IH Hv | this Hreach IH].
  - constructor.
  - rewrite update_eq. cbv zeta.
    assert (Hkept : Forall (fun s => stormShape s /\ age s < lifespan s)
              (filter keepStorm
                 (map (stepStorm (set_currentTime (currentTime this + dt * ts) this) dt ts)
                      (stormSystems this)))).
    { apply Forall_forall. intros s' Hin.
      apply filter_In in Hin as [Hin Hkeep].
      apply in_map_iff in Hin as (s & <- & Hs).
      rewrite Forall_forall in IH. destruct (IH s Hs) as [Hshape _].
      split; [apply stepStorm_shape; exact Hshape |].
      apply keepStorm_true in Hkeep. tauto. }
    destruct (ltb (tape 0%nat) 0.02).
    + match goal with
      | |- context [spawnRandomStorm ?w ?t] =>
          destruct (spawnRandomStorm_shape w t (valid_tail tape Hv))
            as (storm & E & Hshape & Hage)
      end.
      rewrite E. cbn [stormSystems set_stormSystems set_currentTime].
      apply Forall_app. split; [exact Hkept |].
      constructor; [| constructor]. split; [exact Hshape |].
      rewrite Hage. unfold stormShape in Hshape.
      destruct (type storm); lra.
    + exact Hkept.
  - constructor.
Qed.

End ShapeProperties.

Lemma reachable_storm_shape_witness :
  Forall (fun s => Vocabulary.stormShape s /\
                   WeatherSystem.age s < WeatherSystem.lifespan s)
    (WeatherSystem.stormSystems
       (fst (WeatherSystem.update 1 1 (@WeatherSystem.new flatMath flatNoise 42)
               (Random.ofList [0.01; 0.6; 0.5; 0.5; 0.5; 0.5; 0.9; 0.5] 0.5)))).
Proof.
  apply (@reachable_storm_shape flatMath flatNoise).
  apply Vocabulary.reachable_update.
  - apply Vocabulary.reachable_new.
  - apply ofList_valid; [repeat constructor; lra | lra].
Defined.

Section DriftProperties.
Import JS THREE WeatherSystem Vocabulary.

(** The position after a tick: moved by the wind vector at the storm's
    index, scaled by [deltaTime * 0.01], when the index is within the
    wind field, and left alone otherwise. *)
Lemma stepStorm_position this dt ts s :
  position (stepStorm this dt ts s) =
  if (windIndexOf (position s) >=? 0)%Z
     && (windIndexOf (position s) <? JS.length (globalWindPattern this))%Z
  then match JS.index (globalWindPattern this) (windIndexOf (position s)) with
       | Some wind => add (position s) (multiplyScalar wind (dt * 0.01))
       | None => position s
       end
  else position s.
Proof.
  unfold stepStorm, windIndexOf. cbv zeta.
  cbn [position set_age set_rotation].
  destruct (_ && _); [destruct (JS.index _ _) |];
    repeat match goal with
           | |- context [if ?c then _ else _] => destruct c
           end; reflexivity.
Qed.

(** The drift of a storm in a tick does not depend on the time speed:
    the wind is scaled by [deltaTime] alone. *)
Theorem storm_drift_ignores_timeSpeed this dt ts ts' s :
  position (stepStorm this dt ts s) = position (stepStorm this dt ts' s).
Proof. rewrite !stepStorm_position. reflexivity. Qed.

Lemma flat_map_map_length {A B C : Type} (f : A -> B -> C) (l1 : list A) (l2 : list B) :
  List.length (flat_map (fun a => map (f a) l2) l1)
  = (List.length l1 * List.length l2)%nat.
Proof.
  induction l1 as [| a l1 IH]; [reflexivity |].
  cbn [flat_map List.length]. rewrite length_app, length_map, IH. lia.
Qed.

End DriftProperties.

Section WindFieldProperties.
Import JS THREE WeatherSystem Vocabulary.
Context `{JSMath} `{NoiseLib}.

Lemma generateGlobalWindPattern_length (gen : NoiseGenerator) :
  JS.length (generateGlobalWindPattern gen) = 703%Z.
Proof.
  unfold generateGlobalWindPattern, JS.length.
  rewrite (flat_map_map_length
             (fun lat lon =>
                normalize
                  (mkVector3
                     (Math_cos (inject_Z lat * Math_PI / 180 * 3) * 0.6
                      + noise gen (inject_Z lon * 0.01) (inject_Z lat * 0.01) 0 * 0.4)
                     (Math_sin (inject_Z lat * Math_PI / 180) * 0.8)
                     (noise gen (inject_Z lon * 0.02) (inject_Z lat * 0.02) 1 * 0.3)))).
  reflexivity.
Qed.

Lemma reachable_windPattern (this : WeatherSystem) :
  reachable this -> JS.length (globalWindPattern this) = 703%Z.
Proof.
  induction 1 as [seed | this dt ts tape Hreach IH Hv | this Hreach IH].
  - apply generateGlobalWindPattern_length.
  - destruct (update_frame this dt ts tape) as (_ & E2 & _).
    rewrite E2. exact IH.
  - exact IH.
Qed.

(** The wind field has 19 x 37 = 703 vectors while the index of a storm
    counts 36 to a row, so the index of a storm at [y >= 1/9] (and
    [x >= -1]) is 720 or more: such a storm finds no wind and a tick
    leaves it where it is. *)
Theorem storms_above_one_ninth_do_not_drift (this : WeatherSystem) (dt ts : Q)
    (s : StormSystem) :
  reachable this ->
  -1 <= x (position s) -> 1 # 9 <= y (position s) ->
  (703 <= windIndexOf (position s))%Z /\
  position (stepStorm this dt ts s) = position s.
Proof.
  intros Hreach Hx Hy.
  assert (Hidx : (703 <= windIndexOf (position s))%Z).
  { unfold windIndexOf.
    assert (0 <= Math_floor ((x (position s) + 1) * 18))%Z
      by (apply Math_floor_at_least; change (inject_Z 0) with 0; lra).
    assert (20 <= Math_floor ((y (position s) + 1) * 18))%Z
      by (apply Math_floor_at_least; change (inject_Z 20) with 20; lra).
    lia. }
  split; [exact Hidx |].
  rewrite stepStorm_position, (reachable_windPattern this Hreach).
  destruct (windIndexOf (position s) <? 703)%Z eqn:E;
    [apply Z.ltb_lt in E; lia |].
  rewrite andb_false_r. reflexivity.
Qed.

(** The readings of [getTemperatureAt] never change over the life of a
    weather system: neither a tick nor a reset touches the lattice. *)
Theorem temperature_is_constant (this : WeatherSystem) (dt ts : Q)
    (tape : Random.Tape) (p : Vector3) :
  getTemperatureAt (fst (update dt ts this tape)) p = getTemperatureAt this p /\
  getTemperatureAt (reset this) p = getTemperatureAt this p.
Proof.
  destruct (update_frame this dt ts tape) as (_ & _ & E3).
  unfold getTemperatureAt. rewrite E3. split; reflexivity.
Qed.

End WindFieldProperties.

Lemma storms_above_one_ninth_do_not_drift_witness :
  let s :=
    WeatherSystem.mkStormSystem (THREE.mkVector3 0 0.5 1.6) 0.25 0.9 0
      WeatherSystem.thunderstorm 100 0 in
  WeatherSystem.position
    (WeatherSystem.stepStorm (@WeatherSystem.new flatMath flatNoise 42) 15 1 s)
  = THREE.mkVector3 0 0.5 1.6.
Proof.
  cbv zeta.
  apply (@storms_above_one_ninth_do_not_drift flatMath flatNoise
           (@WeatherSystem.new flatMath flatNoise 42) 15 1
           (WeatherSystem.mkStormSystem (THREE.mkVector3 0 0.5 1.6) 0.25 0.9 0
              WeatherSystem.thunderstorm 100 0)).
  - apply Vocabulary.reachable_new.
  - cbn. lra.
  - cbn. lra.
Defined.

(** ** WeatherSystem: weather samples and statistics *)

Section SampleProperties.
Import JS THREE WeatherSystem Vocabulary.
Context `{JSMath} `{NoiseLib}.

Lemma stormInfluence_fold_nonnegative (storms : list StormSystem) (p : Vector3) (acc : Q) :
  0 <= acc ->
  0 <= fold_left
         (fun stormInfluence storm =>
            let distance := distanceTo p (position storm) in
            if ltb distance (radius storm) then
              let influence := (1 - distance / radius storm) * intensity storm in
              Math_max stormInfluence influence
            else stormInfluence)
         storms acc.
Proof.
  revert acc. induction storms as [| s storms IH]; intros acc Hacc; [exact Hacc |].
  cbn [fold_left]. apply IH. cbv zeta.
  destruct (ltb _ _); [| exact Hacc].
  pose proof (Math_max_lower acc
                ((1 - distanceTo p (position s) / radius s) * intensity s)).
  lra.
Qed.

Lemma stormInfluence_fold_far (storms : list StormSystem) (p : Vector3) (acc : Q) :
  Forall (fun s => radius s <= distanceTo p (position s)) storms ->
  fold_left
    (fun stormInfluence storm =>
       let distance := distanceTo p (position storm) in
       if ltb distance (radius storm) then
         let influence := (1 - distance / radius storm) * intensity storm in
         Math_max stormInfluence influence
       else stormInfluence)
    storms acc = acc.
Proof.
  intros Hfar. revert acc.
  induction Hfar as [| s storms Hs _ IH]; intros acc; [reflexivity |].
  cbn [fold_left]. cbv zeta.
  apply ltb_ge in Hs. rewrite Hs. apply IH.
Qed.

Lemma weatherPattern_clamped (this : WeatherSystem) (p : Vector3) :
  unitRange (cloudDensity (getCurrentWeatherPattern this p)) /\
  unitRange (stormIntensity (getCurrentWeatherPattern this p)) /\
  unitRange (windSpeed (getCurrentWeatherPattern this p)) /\
  unitRange (precipitation (getCurrentWeatherPattern this p)).
Proof.
  unfold getCurrentWeatherPattern. cbv zeta.
  cbn [cloudDensity stormIntensity windSpeed precipitation].
  repeat split; apply clamp01_range.
Qed.

(** A weather sample has its cloud density, storm intensity, wind speed
    and precipitation within [0, 1] whatever the noise and the storms;
    the influence of the storms is never negative, and it is 0 when the
    position is outside the radius of every storm. *)
Theorem weather_sample_ranges (this : WeatherSystem) (p : Vector3) :
  let weather := getCurrentWeatherPattern this p in
  unitRange (cloudDensity weather) /\
  unitRange (stormIntensity weather) /\
  unitRange (windSpeed weather) /\
  unitRange (precipitation weather) /\
  0 <= stormInfluenceAt (stormSystems this) p /\
  (Forall (fun s => radius s <= distanceTo p (position s)) (stormSystems this) ->
   stormInfluenceAt (stormSystems this) p = 0).
Proof.
  cbv zeta.
  destruct (weatherPattern_clamped this p) as (H1 & H2 & H3 & H4).
  repeat split; try (apply H1 || apply H2 || apply H3 || apply H4).
  - unfold stormInfluenceAt. apply stormInfluence_fold_nonnegative. lra.
  - intros Hfar. unfold stormInfluenceAt. apply stormInfluence_fold_far. exact Hfar.
Qed.

(** On a reachable system every reading of the temperature is a number
    within [0, 1]. *)
Lemma reachable_temperature (this : WeatherSystem) (p : Vector3) :
  reachable this ->
  exists t, getTemperatureAt this p = Some t /\ 0 <= t /\ t <= 1.
Proof.
  intros Hreach.
  pose proof (reachable_temperatureMap this Hreach) as Hmap.
  pose proof (generateTemperatureMap_rows (noiseGen this)) as Hrows.
  rewrite <- Hmap in Hrows.
  assert (Hrow : forall row, In row (temperatureMap this) ->
                   JS.length row = 72%Z /\ Forall unitRange row).
  { rewrite Hmap. apply generateTemperatureMap_row. }
  assert (Hdefault : exists t : Q, Some 0.5 = Some t /\ 0 <= t /\ t <= 1)
    by (exists 0.5; repeat split; lra).
  unfold getTemperatureAt.
  destruct (latIndexOf p) as [latIndex |]; [| exact Hdefault].
  rewrite Hrows.
  destruct ((latIndex >=? 0)%Z && (latIndex <? 36)%Z) eqn:Hlat; [| exact Hdefault].
  destruct (index_in_range (temperatureMap this) 0) as (row0 & Hrow0); [lia |].
  rewrite Hrow0.
  apply index_Some_range in Hrow0 as [_ Hin0].
  destruct (Hrow row0 Hin0) as [Hlen0 _]. rewrite Hlen0.
  destruct ((lonIndexOf p >=? 0)%Z && (lonIndexOf p <? 72)%Z) eqn:Hlon;
    [| exact Hdefault].
  apply andb_true_iff in Hlat as [Hlat0 Hlat1].
  apply andb_true_iff in Hlon as [Hlon0 Hlon1].
  apply Z.geb_le in Hlat0, Hlon0. apply Z.ltb_lt in Hlat1, Hlon1.
  destruct (index_in_range (temperatureMap this) latIndex) as (row & Hrowi); [lia |].
  rewrite Hrowi.
  apply index_Some_range in Hrowi as [_ Hin].
  destruct (Hrow row Hin) as [Hlen Hcells].
  destruct (index_in_range row (lonIndexOf p)) as (t & Ht); [lia |].
  exists t. split; [exact Ht |].
  apply index_Some_range in Ht as [_ Hint].
  rewrite Forall_forall in Hcells. apply (Hcells t Hint).
Qed.

Lemma Math_min_cases (a b : Q) :
  Math_min a b <= a /\ Math_min a b <= b /\ (Math_min a b == a \/ Math_min a b == b).
Proof.
  unfold Math_min.
  case_ltb b a; (split; [lra | split; [lra |]]); [right | left]; reflexivity.
Qed.

Lemma Math_max_cases (a b : Q) :
  a <= Math_max a b /\ b <= Math_max a b /\ (Math_max a b == a \/ Math_max a b == b).
Proof.
  unfold Math_max.
  case_ltb a b; (split; [lra | split; [lra |]]); [right | left]; reflexivity.
Qed.

Lemma sampleOnce_totals (this : WeatherSystem) (rounds : nat)
    (totals : WeatherTotals) (tape : Random.Tape) :
  reachable this -> totalsAfter rounds totals ->
  totalsAfter (S rounds) (fst (sampleOnce this totals tape)).
Proof.
  intros Hreach ((Hc0 & Hc1) & (Hw0 & Hw1) & lo & hi & Emin & Emax & Hlo0 & Hlo1
                 & Hhi0 & Hhi1 & _).
  unfold sampleOnce, Random.bind, Random.random, Random.ret.
  cbn [fst snd]. cbv zeta.
  set (p := multiplyScalar _ 1.6).
  destruct (weatherPattern_clamped this p) as ((Hd0 & Hd1) & _ & (Hs0 & Hs1) & _).
  destruct (reachable_temperature this p Hreach) as (t & Et & Ht0 & Ht1).
  unfold totalsAfter.
  cbn [totalCloudCover totalWindSpeed minTemp maxTemp].
  assert (Etemp : temperature (getCurrentWeatherPattern this p) = Some t)
    by exact Et.
  rewrite Etemp, Emin, Emax. cbn [Math_min_nan Math_max_nan].
  rewrite Nat2Z.inj_succ, <- Z.add_1_r, inject_Z_plus.
  change (inject_Z 1) with 1.
  destruct (Math_min_cases lo t) as (Hm1 & Hm2 & Hm3).
  destruct (Math_max_cases hi t) as (HM1 & HM2 & HM3).
  repeat split; try lra.
  exists (Math_min lo t), (Math_max hi t).
  repeat split; try lra.
  all: first [destruct Hm3 as [-> | ->]; lra | destruct HM3 as [-> | ->]; lra].
Qed.

Lemma sampleLoop_totals (this : WeatherSystem) (rounds done : nat)
    (totals : WeatherTotals) (tape : Random.Tape) :
  reachable this -> totalsAfter done totals ->
  totalsAfter (done + rounds) (fst (sampleLoop rounds this totals tape)).
Proof.
  intros Hreach. revert done totals tape.
  induction rounds as [| rounds IH]; intros done totals tape Hok.
  - rewrite Nat.add_0_r. exact Hok.
  - cbn [sampleLoop]. unfold Random.bind.
    destruct (sampleOnce this totals tape) as [totals' tape'] eqn:E.
    replace (done + S rounds)%nat with (S done + rounds)%nat by lia.
    apply IH.
    replace totals' with (fst (sampleOnce this totals tape)) by (rewrite E; reflexivity).
    apply sampleOnce_totals; assumption.
Qed.

(** The statistics of a reachable weather system, whatever the hundred
    points drawn: the storm count is the size of the active set, the
    average cloud cover and wind speed are within [0, 1], and the
    temperature range is a pair of numbers within [0, 1], the minimum
    not above the maximum. *)
Theorem getWeatherStats_ranges (this : WeatherSystem) (tape : Random.Tape) :
  reachable this ->
  let stats := fst (getWeatherStats this tape) in
  activeStorms stats = JS.length (stormSystems this) /\
  (0 <= averageCloudCover stats /\ averageCloudCover stats <= 1) /\
  (0 <= globalWindSpeed stats /\ globalWindSpeed stats <= 1) /\
  exists lo hi,
    range_min (temperatureRange stats) = Some lo /\
    range_max (temperatureRange stats) = Some hi /\
    0 <= lo /\ lo <= hi /\ hi <= 1.
Proof.
  intros Hreach. cbv zeta. unfold getWeatherStats, Random.bind, Random.ret.
  cbv zeta.
  set (start := {| totalCloudCover := 0; totalWindSpeed := 0;
                   minTemp := Some 1; maxTemp := Some 0 |}).
  assert (Hstart : totalsAfter 0 start).
  { unfold totalsAfter, start.
    cbn [totalCloudCover totalWindSpeed minTemp maxTemp].
    change (inject_Z (Z.of_nat 0)) with 0.
    split; [lra |]. split; [lra |].
    exists 1, 0. repeat split; try lra. lia. }
  pose proof (sampleLoop_totals this 100 0 start tape Hreach Hstart) as Hend.
  destruct (sampleLoop 100 this start tape) as [totals tape'].
  cbn [fst] in *.
  destruct Hend as ((Hc0 & Hc1) & (Hw0 & Hw1) & lo & hi & Emin & Emax & Hlo0 & Hlo1
                    & Hhi0 & Hhi1 & Hord).
  cbn [activeStorms averageCloudCover globalWindSpeed temperatureRange
       range_min range_max].
  change (inject_Z (Z.of_nat (0 + 100))) with 100 in *.
  change (inject_Z (Z.of_nat 100)) with 100.
  split; [reflexivity |].
  split; [apply fraction_of_width; lra |].
  split; [apply fraction_of_width; lra |].
  exists lo, hi. repeat split; try assumption.
  apply Hord. lia.
Qed.

End SampleProperties.

Lemma weather_sample_ranges_witness :
  @WeatherSystem.stormInfluenceAt flatMath
    (WeatherSystem.stormSystems
       (fst (WeatherSystem.update 1 1 (@WeatherSystem.new flatMath flatNoise 42)
               (Random.ofList [0.01; 0.25; 0.5; 0.5; 0.5; 0.5; 0.9; 0.5] 0.5))))
    (THREE.mkVector3 1 0 0)
  = 0.
Proof.
  apply (@weather_sample_ranges flatMath flatNoise).
  repeat constructor. cbn. intros Hgt. discriminate Hgt.
Defined.

Lemma getWeatherStats_ranges_witness :
  WeatherSystem.activeStorms
    (fst (@WeatherSystem.getWeatherStats flatMath flatNoise
            (WeatherSystem.reset
               (fst (WeatherSystem.update 1 1 (@WeatherSystem.new flatMath flatNoise 42)
                       (Random.ofList [0.01; 0.25; 0.5; 0.5; 0.5; 0.5; 0.9; 0.5] 0.5))))
            (Random.ofList [] 0.5)))
  = 0%Z.
Proof.
  etransitivity.
  - apply (@getWeatherStats_ranges flatMath flatNoise).
    apply Vocabulary.reachable_reset. apply Vocabulary.reachable_update.
    + apply Vocabulary.reachable_new.
    + apply ofList_valid; [repeat constructor; lra | lra].
  - reflexivity.
Defined.

(** ** PlanetStats: the land and water percentages *)

Section StatsProperties.
Import JS Terraformer PlanetStats Vocabulary.
Context `{JSMath} `{JSMathAcos} `{NoiseLib}.

Lemma countLand_range (rounds : nat) settings gen seaLevel (landCount : Z) tape :
  (landCount <= fst (countLand rounds settings gen seaLevel landCount tape)
   <= landCount + Z.of_nat rounds)%Z.
Proof.
  revert landCount tape.
  induction rounds as [| rounds IH]; intros landCount tape.
  - cbn. lia.
  - cbn [countLand]. unfold Random.bind.
    destruct (sampleHeight settings gen tape) as [height tape'].
    specialize (IH (if geb height seaLevel then (landCount + 1)%Z else landCount) tape').
    destruct (geb height seaLevel); lia.
Qed.

Lemma round_land_percentage (k : Z) :
  Math_round (inject_Z k / inject_Z (Z.of_nat 1000) * 100) = ((k + 5) / 10)%Z.
Proof.
  unfold Math_round. rewrite Zdiv_Qdiv. apply Qfloor_comp.
  rewrite inject_Z_plus. change (inject_Z (Z.of_nat 1000)) with 1000.
  change (inject_Z 5) with 5. change (inject_Z 10) with 10. field.
Qed.

Lemma round_water_percentage (k : Z) :
  Math_round (100 - inject_Z k / inject_Z (Z.of_nat 1000) * 100)
  = ((1005 - k) / 10)%Z.
Proof.
  unfold Math_round. rewrite Zdiv_Qdiv. apply Qfloor_comp.
  unfold Zminus. rewrite inject_Z_plus, inject_Z_opp.
  change (inject_Z (Z.of_nat 1000)) with 1000.
  change (inject_Z 1005) with 1005. change (inject_Z 10) with 10. field.
Qed.

(** The two percentages are whole numbers from 0 to 100, and they add
    up to 100, or to 101: both are rounded, and a land share that ends
    in .5 is rounded up on both sides. *)
Theorem percentages_add_up_to_100_or_101 (settings : PlanetSettings)
    (tape : Random.Tape) :
  let stats := fst (calculatePlanetStats settings tape) in
  (0 <= landPercentage stats <= 100)%Z /\
  (0 <= waterPercentage stats <= 100)%Z /\
  (landPercentage stats + waterPercentage stats = 100
   \/ landPercentage stats + waterPercentage stats = 101)%Z.
Proof.
  cbv zeta. unfold calculatePlanetStats, Random.bind, Random.ret. cbv zeta.
  pose proof (countLand_range 1000 settings (mkNoiseGenerator (seed settings))
                (1 - landWaterRatio settings) 0 tape) as Hrange.
  destruct (countLand 1000 settings _ _ 0 tape) as [landCount tape'].
  cbn [fst] in *. cbn [landPercentage waterPercentage].
  rewrite round_land_percentage, round_water_percentage.
  change (Z.of_nat 1000) with 1000%Z in Hrange.
  Z.div_mod_to_equations. lia.
Qed.

Lemma countLand_monotone (rounds : nat) settings gen (sea1 sea2 : Q) (c1 c2 : Z) tape :
  sea2 <= sea1 -> (c1 <= c2)%Z ->
  (fst (countLand rounds settings gen sea1 c1 tape)
   <= fst (countLand rounds settings gen sea2 c2 tape))%Z.
Proof.
  intros Hsea. revert c1 c2 tape.
  induction rounds as [| rounds IH]; intros c1 c2 tape Hc.
  - exact Hc.
  - cbn [countLand]. unfold Random.bind.
    destruct (sampleHeight settings gen tape) as [height tape'].
    apply IH.
    unfold geb, leb.
    destruct (Qle_bool sea1 height) eqn:E1; destruct (Qle_bool sea2 height) eqn:E2;
      try lia.
    apply Qle_bool_iff in E1.
    assert (Qle_bool sea2 height = true) by (apply Qle_bool_iff; lra).
    congruence.
Qed.

Lemma countLand_same_relief (rounds : nat) (s1 s2 : PlanetSettings) gen seaLevel
    (landCount : Z) tape :
  coastlineComplexity s1 = coastlineComplexity s2 ->
  mountainDensity s1 = mountainDensity s2 ->
  countLand rounds s1 gen seaLevel landCount tape
  = countLand rounds s2 gen seaLevel landCount tape.
Proof.
  intros Hc Hm.
  assert (Hsample : forall t, sampleHeight s1 gen t = sampleHeight s2 gen t).
  { intros t. unfold sampleHeight. rewrite Hc, Hm. reflexivity. }
  revert landCount tape.
  induction rounds as [| rounds IH]; intros landCount tape; [reflexivity |].
  cbn [countLand]. unfold Random.bind. rewrite Hsample.
  destruct (sampleHeight s2 gen tape) as [height tape']. apply IH.
Qed.

(** With the same draws, raising the land/water ratio never lowers the
    land percentage: the sea level falls and every sample that was land
    stays land. *)
Theorem more_land_ratio_never_less_land (settings : PlanetSettings) (r1 r2 : Q)
    (tape : Random.Tape) :
  r1 <= r2 ->
  (landPercentage (fst (calculatePlanetStats (set_landWaterRatio r1 settings) tape))
   <= landPercentage
        (fst (calculatePlanetStats (set_landWaterRatio r2 settings) tape)))%Z.
Proof.
  intros Hr. unfold calculatePlanetStats, Random.bind, Random.ret. cbv zeta.
  cbn [landWaterRatio seed set_landWaterRatio].
  pose proof (countLand_monotone 1000 (set_landWaterRatio r2 settings)
                (mkNoiseGenerator (seed settings)) (1 - r1) (1 - r2) 0 0 tape) as Hmono.
  rewrite (countLand_same_relief 1000 (set_landWaterRatio r1 settings)
             (set_landWaterRatio r2 settings)) by reflexivity.
  destruct (countLand 1000 (set_landWaterRatio r2 settings) _ (1 - r1) 0 tape)
    as [k1 t1].
  destruct (countLand 1000 (set_landWaterRatio r2 settings) _ (1 - r2) 0 tape)
    as [k2 t2].
  cbn [fst landPercentage] in *.
  rewrite !round_land_percentage.
  apply Z.div_le_mono; [lia |].
  assert (k1 <= k2)%Z by (apply Hmono; [lra | lia]). lia.
Qed.

(** The size follows the atmosphere like the atmospheric conditions do,
    with other cuts: a thin atmosphere always reads as a small planet, a
    thick one as a large planet, and a medium planet has a normal or a
    dense atmosphere. *)
Theorem size_agrees_with_atmosphere (settings : PlanetSettings) (tape : Random.Tape) :
  let stats := fst (calculatePlanetStats settings tape) in
  (atmosphericConditions stats = Thin ->
   approximateSize stats = "Small (Mars-like)"%string) /\
  (atmosphericConditions stats = Thick ->
   approximateSize stats = "Large (Super-Earth)"%string) /\
  (approximateSize stats = "Medium (Earth-like)"%string ->
   atmosphericConditions stats = Normal \/ atmosphericConditions stats = Dense).
Proof.
  cbv zeta. unfold calculatePlanetStats, Random.bind, Random.ret. cbv zeta.
  destruct (countLand 1000 settings _ _ 0 tape) as [landCount tape'].
  cbn [fst atmosphericConditions approximateSize].
  case_ltb (atmosphere settings) 0.25; rename Hcmp into H25.
  { case_ltb (atmosphere settings) 0.3; [| lra].
    repeat split; try discriminate. }
  case_ltb (atmosphere settings) 0.5; rename Hcmp into H50.
  { case_ltb (atmosphere settings) 0.3;
      [| case_ltb (atmosphere settings) 0.7; [| lra]];
      repeat split; try discriminate; auto. }
  case_ltb (atmosphere settings) 0.75; rename Hcmp into H75.
  { case_ltb (atmosphere settings) 0.3; [lra |].
    case_ltb (atmosphere settings) 0.7;
      repeat split; try discriminate; auto. }
  case_ltb (atmosphere settings) 0.3; [lra |].
  case_ltb (atmosphere settings) 0.7; [lra |].
  repeat split; try discriminate.
Qed.

End StatsProperties.

Lemma more_land_ratio_never_less_land_witness :
  (PlanetStats.landPercentage
     (fst (@PlanetStats.calculatePlanetStats flatMath flatAcos flatNoise
             (Terraformer.set_landWaterRatio 0.2 (Terraformer.defaultSettings 42))
             (Random.ofList [] 0.5)))
   <= PlanetStats.landPercentage
        (fst (@PlanetStats.calculatePlanetStats flatMath flatAcos flatNoise
                (Terraformer.set_landWaterRatio 0.7 (Terraformer.defaultSettings 42))
                (Random.ofList [] 0.5))))%Z.
Proof.
  apply (@more_land_ratio_never_less_land flatMath flatAcos flatNoise). lra.
Defined.

Lemma size_agrees_with_atmosphere_witness :
  PlanetStats.approximateSize
    (fst (@PlanetStats.calculatePlanetStats flatMath flatAcos flatNoise
            (Terraformer.set_atmosphere 0.1 (Terraformer.defaultSettings 42))
            (Random.ofList [] 0.5)))
  = "Small (Mars-like)"%string.
Proof.
  apply (@size_agrees_with_atmosphere flatMath flatAcos flatNoise).
  vm_compute. reflexivity.
Defined.

(** ** PlanetRenderer: the texels *)

Section TexelProperties.
Import JS Terraformer PlanetRenderer Vocabulary.
Context `{JSMath} `{NoiseLib}.

(** The planet texture is made of bytes: for a climate that is not
    negative every texel holds three whole channels between 0 and 255
    and the alpha 255, whatever the noise; for a negative climate the
    texture is not produced, [getPalette] throws. *)
Theorem planet_texels_are_bytes (planetSettings : PlanetSettings) (x y : Z) :
  (0 <= climate planetSettings ->
   exists (t : Texel) (r g b : Z),
     planetTextureAt planetSettings x y = Some t /\
     red t = inject_Z r /\ green t = inject_Z g /\ blue t = inject_Z b /\
     (0 <= r <= 255)%Z /\ (0 <= g <= 255)%Z /\ (0 <= b <= 255)%Z /\
     alpha t = 255) /\
  (climate planetSettings < 0 -> planetTextureAt planetSettings x y = None).
Proof.
  unfold planetTextureAt. split.
  - intros Hc.
    destruct (getPalette_total (climate planetSettings) Hc) as (p & Hp).
    rewrite Hp. unfold planetTexel.
    destruct (spherePoint 1024 512 x y) as [[sx sy] sz]. cbv zeta.
    match goal with
    | |- context [ColorPalettes.getColor p ?h ?s] =>
        pose proof (getPalette_getColor _ p Hp h s) as Hget;
        pose proof (getColorForHeight_bytes (ColorPalettes.colors p) h s
                      (getPalette_bytes _ p Hp)) as Hbytes;
        rewrite <- Hget in Hbytes;
        destruct Hbytes as (Hr & Hg & Hb);
        exists (mkTexel
                  (inject_Z (ColorPalettes.r (ColorPalettes.getColor p h s)))
                  (inject_Z (ColorPalettes.g (ColorPalettes.getColor p h s)))
                  (inject_Z (ColorPalettes.b (ColorPalettes.getColor p h s)))
                  255),
          (ColorPalettes.r (ColorPalettes.getColor p h s)),
          (ColorPalettes.g (ColorPalettes.getColor p h s)),
          (ColorPalettes.b (ColorPalettes.getColor p h s))
    end.
    cbn [red green blue alpha]. repeat split; assumption || lia.
  - intros Hneg. rewrite (getPalette_negative _ Hneg). reflexivity.
Qed.

(** The cloud texture is white with an alpha between 0 and 255 when the
    clouds setting is not negative, and fully transparent when it is
    0. *)
Theorem cloud_texels_alpha_range (planetSettings : PlanetSettings) (x y : Z) :
  0 <= clouds planetSettings ->
  let t := cloudTexel planetSettings x y in
  red t = 255 /\ green t = 255 /\ blue t = 255 /\
  0 <= alpha t /\ alpha t <= 255 /\
  (clouds planetSettings == 0 -> alpha t == 0).
Proof.
  intros Hc. cbv zeta. unfold cloudTexel.
  destruct (spherePoint 1024 512 x y) as [[sx sy] sz]. cbv zeta.
  cbn [red green blue alpha].
  match goal with
  | |- context [Math_max 0 ?v] =>
      pose proof (Math_max_lower 0 v) as Hd; set (density := Math_max 0 v) in *
  end.
  split; [reflexivity |]. split; [reflexivity |]. split; [reflexivity |].
  assert (Hprod : 0 <= density * 255 * clouds planetSettings) by nra.
  destruct (Math_min_cases 255 (density * 255 * clouds planetSettings))
    as (Hm1 & Hm2 & Hm3).
  split; [destruct Hm3 as [-> | ->]; lra |].
  split; [exact Hm1 |].
  intros Hzero.
  assert (density * 255 * clouds planetSettings == 0) by (rewrite Hzero; ring).
  destruct Hm3 as [Hm3 | Hm3]; lra.
Qed.

(** With the ring density at 0 the ring texture is empty: every texel,
    inside the annulus as outside, is (0, 0, 0, 0). *)
Theorem ring_texels_vanish_at_zero_density (settings : PlanetSettings) (x y : Z) :
  ringDensity settings == 0 ->
  let t := ringTexel settings x y in
  red t == 0 /\ green t == 0 /\ blue t == 0 /\ alpha t == 0.
Proof.
  intros Hd. cbv zeta. unfold ringTexel. cbv zeta.
  destruct (_ || _); [cbn [red green blue alpha]; repeat split; reflexivity |].
  destruct (ltb (climate settings) 0.5); cbn [red green blue alpha];
    rewrite Hd; repeat split; ring.
Qed.

End TexelProperties.

Lemma planet_texels_are_bytes_witness :
  exists t,
    @PlanetRenderer.planetTextureAt flatMath flatNoise
      (Terraformer.defaultSettings 42) 100 200 = Some t /\
    PlanetRenderer.alpha t = 255.
Proof.
  destruct (@planet_texels_are_bytes flatMath flatNoise
              (Terraformer.defaultSettings 42) 100 200) as [Hsome _].
  destruct Hsome as (t & r & g & b & Ht & _ & _ & _ & _ & _ & _ & Ha);
    [cbn; lra |].
  exists t. split; assumption.
Defined.

Lemma cloud_texels_alpha_range_witness :
  PlanetRenderer.alpha
    (@PlanetRenderer.cloudTexel flatMath flatNoise
       (Terraformer.defaultSettings 42) 100 200)
  <= 255.
Proof.
  apply (@cloud_texels_alpha_range flatMath flatNoise
           (Terraformer.defaultSettings 42) 100 200).
  cbn. lra.
Defined.

Lemma ring_texels_vanish_at_zero_density_witness :
  PlanetRenderer.alpha
    (@PlanetRenderer.ringTexel flatMath flatNoise
       (Terraformer.mkPlanetSettings 42 0.4 0.5 0.3 0.5 0.4 0.6 1 false false 0
          true 0 false 0.3 false 0 0.5 0 true 1 false 0 0 0 0 1 true true 0.5 0 0)
       256 100)
  == 0.
Proof.
  apply (@ring_texels_vanish_at_zero_density flatMath flatNoise
           (Terraformer.mkPlanetSettings 42 0.4 0.5 0.3 0.5 0.4 0.6 1 false false 0
              true 0 false 0.3 false 0 0.5 0 true 1 false 0 0 0 0 1 true true 0.5 0 0)
           256 100).
  reflexivity.
Defined.

(** ** Resets *)

Section ResetProperties.
Import JS Terraformer TemporalEvolution.

Lemma exec_keeps_construction (c : call) (this : TemporalEvolution) :
  baseSettings (exec c this) = baseSettings this /\
  temporalNoise (exec c this) = temporalNoise this /\
  weatherNoise (exec c this) = weatherNoise this.
Proof.
  destruct c; cbn [exec]; try (repeat split; fail).
  - unfold updateTime. destruct (negb _); repeat split.
  - unfold saveSnapshot. destruct (_ >? _)%Z; repeat split.
Qed.

(** [resetTime] brings a clock back to its state at construction,
    whatever was done to it since: the time is 0, the history is empty,
    and the base settings and the two noise generators were never
    touched. *)
Theorem resetTime_restores_new_clock (settings : PlanetSettings) (cs : list call) :
  resetTime (execAll cs (new settings)) = new settings.
Proof.
  assert (Hkeep : forall this,
            baseSettings (execAll cs this) = baseSettings this /\
            temporalNoise (execAll cs this) = temporalNoise this /\
            weatherNoise (execAll cs this) = weatherNoise this).
  { unfold execAll. induction cs as [| c cs IH]; intros this; [repeat split |].
    cbn [fold_left].
    destruct (IH (exec c this)) as (E1 & E2 & E3).
    destruct (exec_keeps_construction c this) as (F1 & F2 & F3).
    rewrite E1, E2, E3. repeat split; assumption. }
  destruct (Hkeep (new settings)) as (E1 & E2 & E3).
  unfold resetTime, set_snapshots, set_currentTime.
  cbn [baseSettings temporalNoise weatherNoise snapshots currentTime].
  rewrite E1, E2, E3. reflexivity.
Qed.

End ResetProperties.

Section WeatherResetProperties.
Import JS THREE WeatherSystem Vocabulary.
Context `{JSMath} `{NoiseLib}.

(** [reset] brings a weather system back to its state at construction:
    no storms, the clock at 0, and the wind field and the temperature
    lattice it was built with. *)
Theorem reset_restores_new_system (this : WeatherSystem) :
  reachable this -> exists seed, reset this = new seed.
Proof.
  induction 1 as [seed | this dt ts tape Hreach IH Hv | this Hreach IH].
  - exists seed. reflexivity.
  - destruct IH as (seed & IH). exists seed. rewrite <- IH.
    destruct (update_frame this dt ts tape) as (E1 & E2 & E3).
    unfold reset, set_currentTime, set_stormSystems.
    cbn [noiseGen stormSystems globalWindPattern temperatureMap currentTime].
    rewrite E1, E2, E3. reflexivity.
  - destruct IH as (seed & IH). exists seed. rewrite <- IH. reflexivity.
Qed.

End WeatherResetProperties.

Lemma reset_restores_new_system_witness :
  exists seed,
    WeatherSystem.reset
      (fst (WeatherSystem.update 1 1 (@WeatherSystem.new flatMath flatNoise 42)
              (Random.ofList [0.01; 0.25; 0.5; 0.5; 0.5; 0.5; 0.9; 0.5] 0.5)))
    = @WeatherSystem.new flatMath flatNoise seed.
Proof.
  apply (@reset_restores_new_system flatMath flatNoise).
  apply Vocabulary.reachable_update.
  - apply Vocabulary.reachable_new.
  - apply ofList_valid; [repeat constructor; lra | lra].
Defined.
